(** * Telecom X churn pipeline: load, normalise, derive, aggregate

    A shallow embedding of [telecomx_etl_eda.py].  The program is a linear
    batch pipeline over a pandas table:

      [load_json] -> [standardize_columns] -> deduplication in [main]
                  -> [create_features] -> [eda_and_plots]

    The table library itself is not part of the program; the few pandas
    operations the program calls are modelled next to the functions that
    call them, each with a comment saying which call it stands for.

    Conventions of the model.
    - A Python [str] is a [string]; the case and whitespace tables are the
      ASCII ones, and text outside ASCII is carried as its UTF-8 bytes.
    - A JSON number is an integer ([JInt]) or an exact rational ([JFloat]);
      rounding and the non-finite floats are outside the model.
    - A raised Python exception is the [Raise] case of [result].
    - The loader is modelled on inputs whose records are objects or
      scalars; on a record that is itself an array pandas raises or builds
      other columns, and the statements about loaded tables exclude it.
    - Charts are followed by the file names asked for; drawing them, which
      can fail (an empty table has nothing to draw), is not modelled, and
      general statements about the aggregation of a table with a Churn
      column are made of successful aggregations only.
    - [Float64.average_monthly] is the one place where binary64 arithmetic
      is used as such, to show where the exact quotient and the float
      part ways. *)

From Stdlib Require Import String Ascii List Bool Arith ZArith QArith Lia.
From Stdlib Require Import DecimalString.
From Stdlib Require PrimFloat.
Import ListNotations.

Local Close Scope Q_scope.
Local Open Scope string_scope.
Local Open Scope list_scope.

Set Implicit Arguments.

(* ------------------------------------------------------------------ *)
(** ** Python exceptions *)

Inductive exn : Type :=
| KeyError (key : string).

Inductive result (A : Type) : Type :=
| Ok (a : A)
| Raise (e : exn).

Arguments Ok {A} a.
Arguments Raise {A} e.

Definition bind {A B : Type} (m : result A) (k : A -> result B) : result B :=
  match m with
  | Ok a => k a
  | Raise e => Raise e
  end.

Notation "x <- m ;; k" := (bind m (fun x => k))
  (at level 61, m at next level, right associativity).

Definition raises {A : Type} (m : result A) : Prop :=
  exists e, m = Raise e.

(* ------------------------------------------------------------------ *)
(** ** The [str] methods the program calls *)

Module PyStr.

Definition code (c : ascii) : nat := nat_of_ascii c.

Definition is_upper (c : ascii) : bool :=
    (65 <=? code c)%nat && (code c <=? 90)%nat.

Definition is_lower (c : ascii) : bool :=
    (97 <=? code c)%nat && (code c <=? 122)%nat.

Definition is_cased (c : ascii) : bool := is_upper c || is_lower c.

  (** Whitespace as [str.strip()] sees it: tab, line feed, vertical tab,
      form feed, carriage return, the four separators 0x1c-0x1f, space. *)
Definition is_space (c : ascii) : bool :=
    ((9 <=? code c)%nat && (code c <=? 13)%nat)
    || ((28 <=? code c)%nat && (code c <=? 32)%nat).

Definition to_lower (c : ascii) : ascii :=
    if is_upper c then ascii_of_nat (code c + 32) else c.

Definition to_upper (c : ascii) : ascii :=
    if is_lower c then ascii_of_nat (code c - 32) else c.

Fixpoint map_chars (f : ascii -> ascii) (s : string) : string :=
    match s with
    | EmptyString => EmptyString
    | String c r => String (f c) (map_chars f r)
    end.

  (** [s.lower()] *)
Definition lower (s : string) : string := map_chars to_lower s.

  (** [s.replace(a, b)] for one-character [a] and [b]. *)
Definition replace_char (a b : ascii) (s : string) : string :=
    map_chars (fun c => if Ascii.eqb c a then b else c) s.

Fixpoint lstrip (s : string) : string :=
    match s with
    | EmptyString => EmptyString
    | String c r => if is_space c then lstrip r else s
    end.

Fixpoint rstrip (s : string) : string :=
    match s with
    | EmptyString => EmptyString
    | String c r =>
        match rstrip r with
        | EmptyString => if is_space c then EmptyString else String c EmptyString
        | r' => String c r'
        end
    end.

  (** [s.strip()] *)
Definition strip (s : string) : string := rstrip (lstrip s).

  (** [s.title()]: a character that follows a cased one is lowered, any
      other is raised. *)
Fixpoint title_from (previous_is_cased : bool) (s : string) : string :=
    match s with
    | EmptyString => EmptyString
    | String c r =>
        String (if previous_is_cased then to_lower c else to_upper c)
               (title_from (is_cased c) r)
    end.

Definition title (s : string) : string := title_from false s.

  (** [str(n)] for an [int]. *)
Definition of_int (z : Z) : string := NilZero.string_of_int (Z.to_int z).

  (** [sep.join(parts)] *)
Fixpoint join (sep : string) (parts : list string) : string :=
    match parts with
    | [] => EmptyString
    | [p] => p
    | p :: rest => p ++ sep ++ join sep rest
    end.

End PyStr.

(* ------------------------------------------------------------------ *)
(** ** JSON values, as [json.load] returns them *)

#[local] Unset Elimination Schemes.
Inductive json : Type :=
| JNull
| JBool (b : bool)
| JInt (z : Z)
| JFloat (q : Q)
| JStr (s : string)
| JArr (items : list json)
| JObj (fields : list (string * json)).
#[local] Set Elimination Schemes.

Definition is_dict (v : json) : bool :=
  match v with JObj _ => true | _ => false end.

Definition is_list (v : json) : bool :=
  match v with JArr _ => true | _ => false end.

(** A Python [dict]: insertion-ordered, one entry per key.  Assigning to a
    key that is already there keeps its place and replaces its value. *)
Section PyDict.
Variable V : Type.

Definition pydict := list (string * V).

Fixpoint dict_get (k : string) (d : pydict) : option V :=
    match d with
    | [] => None
    | (k', v) :: rest => if String.eqb k k' then Some v else dict_get k rest
    end.

Fixpoint dict_set (k : string) (v : V) (d : pydict) : pydict :=
    match d with
    | [] => [(k, v)]
    | (k', v') :: rest =>
        if String.eqb k k' then (k', v) :: rest
        else (k', v') :: dict_set k v rest
    end.

Definition dict_keys (d : pydict) : list string := map fst d.

Definition dict_has (k : string) (d : pydict) : bool :=
    match dict_get k d with Some _ => true | None => false end.

  (** [{**a, **b}] *)
Definition dict_merge (a b : pydict) : pydict :=
    fold_left (fun d kv => dict_set (fst kv) (snd kv) d) b a.

End PyDict.

Arguments dict_get {V} k d.
Arguments dict_set {V} k v d.
Arguments dict_keys {V} d.
Arguments dict_has {V} k d.
Arguments dict_merge {V} a b.

(* ------------------------------------------------------------------ *)
(** ** The table *)

(** A cell holds a Python value or the float [nan], pandas' missing
    marker. *)
Inductive cell : Type :=
| NaN
| Py (v : json).

Inductive dtype : Type :=
| DObject
| DInt
| DFloat
| DBool.

Definition is_object_dtype (d : dtype) : bool :=
  match d with DObject => true | _ => false end.

(** A row carries its index label and its cells by column name; a column
    name a row does not hold reads as [NaN]. *)
Record Row : Type := mkRow {
  label : nat;
  cells : pydict cell
}.

Record DataFrame : Type := mkDataFrame {
  columns : list (string * dtype);
  rows : list Row
}.

Definition row_get (c : string) (r : Row) : cell :=
  match dict_get c (cells r) with
  | Some v => v
  | None => NaN
  end.

Definition row_set (c : string) (v : cell) (r : Row) : Row :=
  mkRow (label r) (dict_set c v (cells r)).

(** [c in df.columns] *)
Definition has_column (c : string) (df : DataFrame) : bool :=
  dict_has c (columns df).

(** [df[c]] as the list of its cells, top to bottom. *)
Definition column (c : string) (df : DataFrame) : list cell :=
  map (row_get c) (rows df).

(** [len(df)] *)
Definition len (df : DataFrame) : nat := length (rows df).

(** [df.shape] *)
Definition shape (df : DataFrame) : nat * nat :=
  (length (rows df), length (columns df)).

(** [pd.DataFrame()] *)
Definition empty_frame : DataFrame := mkDataFrame [] [].

(* ------------------------------------------------------------------ *)
(** ** Loader *)

Module Pandas.

  (** [f"{key_string}{separator}{key}"], the separator removed again when
      [key_string] is empty. *)
Definition new_key (sep key_string key : string) : string :=
    if String.eqb key_string "" then key else key_string ++ sep ++ key.

  (** [_normalise_json]: walk nested objects, writing every value that is
      not an object under the joined path that leads to it. *)
Fixpoint normalise_json (sep : string) (data : json) (key_string : string)
           (normalized_dict : pydict json) : pydict json :=
    match data with
    | JObj fields =>
        (fix walk (l : list (string * json)) (acc : pydict json) : pydict json :=
           match l with
           | [] => acc
           | (key, value) :: rest =>
               walk rest (normalise_json sep value (new_key sep key_string key) acc)
           end) fields normalized_dict
    | _ => dict_set key_string data normalized_dict
    end.

  (** [_normalise_json_ordered]: top-level scalars first, then the
      flattened nested objects. *)
Definition normalise_json_ordered (sep : string) (data : list (string * json))
    : pydict json :=
    let top_dict := filter (fun kv => negb (is_dict (snd kv))) data in
    let nested_dict :=
      normalise_json sep (JObj (filter (fun kv => is_dict (snd kv)) data)) "" [] in
    dict_merge top_dict nested_dict.

  (** [_simple_json_normalize] on one element of the input list: an object
      is flattened, a scalar gives the empty record.  An element that is
      itself an array is outside the model (pandas recurses into it and
      hands [DataFrame] a nested list); it is given the empty record here
      and excluded by hypothesis wherever it would matter. *)
Definition simple_json_normalize (sep : string) (ds : json) : pydict json :=
    match ds with
    | JObj fields => normalise_json_ordered sep fields
    | _ => []
    end.

Definition add_new (acc : list string) (k : string) : list string :=
    if existsb (String.eqb k) acc then acc else acc ++ [k].

  (** Column labels of [DataFrame(records)]: every key, in order of first
      appearance. *)
Definition union_keys (records : list (pydict json)) : list string :=
    fold_left (fun acc r => fold_left add_new (dict_keys r) acc) records [].

Definition is_text (v : option json) : bool :=
    match v with Some (JStr _) | Some (JArr _) | Some (JObj _) => true | _ => false end.
Definition is_bool (v : option json) : bool :=
    match v with Some (JBool _) => true | _ => false end.
Definition is_number (v : option json) : bool :=
    match v with Some (JInt _) | Some (JFloat _) => true | _ => false end.
Definition is_float (v : option json) : bool :=
    match v with Some (JFloat _) => true | _ => false end.
Definition is_none (v : option json) : bool :=
    match v with Some JNull => true | _ => false end.
Definition is_absent (v : option json) : bool :=
    match v with None => true | _ => false end.

  (** The dtype pandas infers for a column built from Python values
      ([None] where the record has no such key). *)
Definition infer_dtype (raw : list (option json)) : dtype :=
    if existsb is_text raw then DObject
    else if existsb is_bool raw then
      (if forallb is_bool raw then DBool else DObject)
    else if existsb is_number raw then
      (if existsb is_float raw || existsb is_none raw || existsb is_absent raw
       then DFloat else DInt)
    else if existsb is_absent raw then DFloat
    else DObject.

  (** The cell stored for a value in a column of dtype [d]: a float column
      holds floats, and [None] and absent keys become [nan] there.  The
      float stored for an integer is its exact value; binary64 rounds
      integers beyond 2^53. *)
Definition box (d : dtype) (v : option json) : cell :=
    match v with
    | None => NaN
    | Some JNull => match d with DFloat => NaN | _ => Py JNull end
    | Some (JInt z) =>
        match d with DFloat => Py (JFloat (inject_Z z)) | _ => Py (JInt z) end
    | Some v => Py v
    end.

Definition typed_columns (records : list (pydict json)) : list (string * dtype) :=
    map (fun c => (c, infer_dtype (map (dict_get c) records))) (union_keys records).

Definition build_row (cols : list (string * dtype)) (i : nat) (r : pydict json) : Row :=
    mkRow i (map (fun cd => (fst cd, box (snd cd) (dict_get (fst cd) r))) cols).

Fixpoint build_rows (cols : list (string * dtype)) (i : nat)
           (records : list (pydict json)) : list Row :=
    match records with
    | [] => []
    | r :: rest => build_row cols i r :: build_rows cols (S i) rest
    end.

  (** [pd.DataFrame(records)] for a list of dicts, with a [RangeIndex]. *)
Definition DataFrame_of_records (records : list (pydict json)) : DataFrame :=
    let cols := typed_columns records in
    mkDataFrame cols (build_rows cols 0 records).

  (** [pd.json_normalize(data, sep=sep)] for a list. *)
Definition json_normalize (data : list json) (sep : string) : DataFrame :=
    DataFrame_of_records (map (simple_json_normalize sep) data).

End Pandas.

(** The first list-valued field of a dict, in [obj.items()] order. *)
Fixpoint first_list_value (fields : list (string * json)) : option (list json) :=
  match fields with
  | [] => None
  | (_, JArr v) :: _ => Some v
  | _ :: rest => first_list_value rest
  end.

Definition to_dataframe (obj : json) : DataFrame :=
  match obj with
  | JArr items => Pandas.json_normalize items "_"
  | JObj fields =>
      match first_list_value fields with
      | Some v => Pandas.json_normalize v "_"
      | None => Pandas.json_normalize [obj] "_"
      end
  | _ => empty_frame
  end.

(** [load_json], from the value [json.load] returned on.  What
    [pd.json_normalize] raises on a record that is an array is outside the
    model. *)
Definition load_json (raw : json) : result DataFrame :=
  Ok (to_dataframe raw).

Definition sample_nested : json :=
  JArr [ JObj [ ("customerID", JStr "0002-ORFBO");
                ("Churn", JStr "No");
                ("customer", JObj [ ("gender", JStr "Female"); ("tenure", JInt 9) ]);
                ("account", JObj [ ("Charges", JObj [ ("Monthly", JFloat (656 # 10)) ]) ]) ];
         JObj [ ("customerID", JStr "0003-MKNFE");
                ("customer", JObj [ ("gender", JStr "Male") ]) ] ].

(* ------------------------------------------------------------------ *)
(** ** Values as keys and as numbers *)

Fixpoint json_eqb (a b : json) : bool :=
  match a, b with
  | JNull, JNull => true
  | JBool x, JBool y => Bool.eqb x y
  | JInt x, JInt y => Z.eqb x y
  | JFloat x, JFloat y => Z.eqb (Qnum x) (Qnum y) && Pos.eqb (Qden x) (Qden y)
  | JStr x, JStr y => String.eqb x y
  | JArr x, JArr y =>
      (fix all2 (l1 l2 : list json) : bool :=
         match l1, l2 with
         | [], [] => true
         | h1 :: t1, h2 :: t2 => json_eqb h1 h2 && all2 t1 t2
         | _, _ => false
         end) x y
  | JObj x, JObj y =>
      (fix all2 (l1 l2 : list (string * json)) : bool :=
         match l1, l2 with
         | [], [] => true
         | (k1, v1) :: t1, (k2, v2) :: t2 =>
             String.eqb k1 k2 && json_eqb v1 v2 && all2 t1 t2
         | _, _ => false
         end) x y
  | _, _ => false
  end.

Definition cell_eqb (a b : cell) : bool :=
  match a, b with
  | NaN, NaN => true
  | Py x, Py y => json_eqb x y
  | _, _ => false
  end.

(** The numeric value of a cell, when it holds a number ([True] is 1 and
    [False] is 0, as in Python). *)
Definition num_of (c : cell) : option Q :=
  match c with
  | Py (JInt z) => Some (inject_Z z)
  | Py (JFloat q) => Some q
  | Py (JBool b) => Some (if b then 1%Q else 0%Q)
  | _ => None
  end.

(** The value two cells are compared by when pandas looks for equal
    entries: numbers by their value, anything else as it stands. *)
Definition key_of (c : cell) : cell :=
  match num_of c with
  | Some q => Py (JFloat (Qred q))
  | None => c
  end.

Definition same_key (a b : cell) : bool := cell_eqb (key_of a) (key_of b).

(** [Series.notna()] on one cell. *)
Definition notna (c : cell) : bool :=
  match c with
  | NaN => false
  | Py JNull => false
  | _ => true
  end.

(** [Series.eq(s)] on one cell, for a text [s]. *)
Definition eq_text (s : string) (c : cell) : bool :=
  match c with
  | Py (JStr t) => String.eqb t s
  | _ => false
  end.

(** [Series.isin(values)] on one cell, for a list of texts. *)
Definition isin (values : list string) (c : cell) : bool :=
  existsb (fun s => eq_text s c) values.

Definition count_true (l : list bool) : nat := length (filter (fun b => b) l).

(** [Series.mean()] of a boolean series: the fraction of [True]; [None]
    stands for the [nan] pandas returns on an empty series. *)
Definition mean (l : list bool) : option Q :=
  match l with
  | [] => None
  | _ => Some (Z.of_nat (count_true l) # Pos.of_nat (length l))%Q
  end.

(** [x > y] for floats, false when [x] is [nan]. *)
Definition gt (x : option Q) (y : Q) : bool :=
  match x with
  | Some q => negb (Qle_bool q y)
  | None => false
  end.

(* ------------------------------------------------------------------ *)
(** ** Table operations *)

(** [df[c] = f(row)] cell by cell, the column taking dtype [d]. *)
Definition assign (c : string) (d : dtype) (f : Row -> cell) (df : DataFrame)
  : DataFrame :=
  mkDataFrame (dict_set c d (columns df))
              (map (fun r => row_set c (f r) r) (rows df)).

(** [df[c] = f(df[c])] cell by cell, the dtype kept. *)
Definition transform (c : string) (f : cell -> cell) (df : DataFrame)
  : DataFrame :=
  mkDataFrame (columns df)
              (map (fun r => row_set c (f (row_get c r)) r) (rows df)).

(** [df[mask]] for a mask computed row by row. *)
Definition select (keep : Row -> bool) (df : DataFrame) : DataFrame :=
  mkDataFrame (columns df) (filter keep (rows df)).

(** Renaming of every column label through [f]. *)
Definition rename_columns (f : string -> string) (df : DataFrame) : DataFrame :=
  mkDataFrame
    (map (fun cd => (f (fst cd), snd cd)) (columns df))
    (map (fun r => mkRow (label r) (map (fun kv => (f (fst kv), snd kv)) (cells r)))
         (rows df)).

(** [df.select_dtypes(include=["object"]).columns] *)
Definition object_columns (df : DataFrame) : list string :=
  map fst (filter (fun cd => is_object_dtype (snd cd)) (columns df)).

Fixpoint keep_first (c : string) (seen : list cell) (l : list Row) : list Row :=
  match l with
  | [] => []
  | r :: rest =>
      let k := row_get c r in
      if existsb (same_key k) seen then keep_first c seen rest
      else r :: keep_first c (k :: seen) rest
  end.

(** [df.drop_duplicates(subset=[c])]: of the rows with equal entries in
    [c], the first stays. *)
Definition drop_duplicates (c : string) (df : DataFrame) : DataFrame :=
  mkDataFrame (columns df) (keep_first c [] (rows df)).

(* ------------------------------------------------------------------ *)
(** ** The pipeline *)

Section Pipeline.

  (** What [pd.to_numeric] reads in a text: its number, or [None] where
      [errors="coerce"] gives [nan]. *)
Variable parse_number : string -> option Q.

  (** [str(x)] for a float, and for a list or a dict. *)
Variable float_str : Q -> string.
Variable container_str : json -> string.

  (** The statistics [Series.describe()] returns for the cells of one
      group. *)
Variable D : Type.
Variable describe : list cell -> D.

  (** [Series.astype(str)] on one cell. *)
Definition py_str (c : cell) : string :=
    match c with
    | NaN => "nan"
    | Py JNull => "None"
    | Py (JBool true) => "True"
    | Py (JBool false) => "False"
    | Py (JInt z) => PyStr.of_int z
    | Py (JFloat q) => float_str q
    | Py (JStr s) => s
    | Py v => container_str v
    end.

Definition text (s : string) : cell := Py (JStr s).

  (** [pd.to_numeric(series, errors="coerce")] on one cell. *)
Definition to_numeric (c : cell) : cell :=
    match c with
    | NaN => NaN
    | Py (JInt z) => c
    | Py (JFloat q) => c
    | Py (JBool b) => c
    | Py (JStr s) =>
        match parse_number s with
        | Some q => Py (JFloat q)
        | None => NaN
        end
    | Py _ => NaN
    end.

  (** [series == 1] on one cell. *)
Definition equals_one (c : cell) : bool :=
    match num_of c with
    | Some q => Qeq_bool q 1%Q
    | None => false
    end.

Definition clean_name (c : string) : string :=
    PyStr.replace_char "-" "_" (PyStr.replace_char " " "_" (PyStr.strip c)).

Definition rename_map : pydict string :=
    [ ("customerid", "customerID");
      ("customer_id", "customerID");
      ("gender", "gender");
      ("seniorcitizen", "SeniorCitizen");
      ("partner", "Partner");
      ("dependents", "Dependents");
      ("tenure", "tenure");
      ("phoneservice", "PhoneService");
      ("multiplelines", "MultipleLines");
      ("internetservice", "InternetService");
      ("onlinesecurity", "OnlineSecurity");
      ("onlinebackup", "OnlineBackup");
      ("deviceprotection", "DeviceProtection");
      ("techsupport", "TechSupport");
      ("streamingtv", "StreamingTV");
      ("streamingmovies", "StreamingMovies");
      ("contract", "Contract");
      ("paperlessbilling", "PaperlessBilling");
      ("paymentmethod", "PaymentMethod");
      ("monthlycharges", "MonthlyCharges");
      ("totalcharges", "TotalCharges");
      ("churn", "Churn") ].

  (** The [dynamic] dict: every column whose lowered name is a key of
      [rename_map], with the name it takes. *)
Definition dynamic (cols : list string) : pydict string :=
    fold_left
      (fun dyn col =>
         match dict_get (PyStr.lower col) rename_map with
         | Some name => dict_set col name dyn
         | None => dyn
         end)
      cols [].

Definition renamed (dyn : pydict string) (col : string) : string :=
    match dict_get col dyn with
    | Some name => name
    | None => col
    end.

Definition numeric_columns : list string :=
    ["MonthlyCharges"; "TotalCharges"; "tenure"].

Definition service_columns : list string :=
    ["OnlineSecurity"; "OnlineBackup"; "DeviceProtection"; "TechSupport";
     "StreamingTV"; "StreamingMovies"; "MultipleLines"].

Definition placeholders : pydict string :=
    [ ("No internet service", "No");
      ("No phone service", "No");
      ("Sem serviço de internet", "No");
      ("Sem serviço de telefone", "No") ].

  (** [Series.replace(placeholders)] on one cell. *)
Definition replace (mapping : pydict string) (c : cell) : cell :=
    match c with
    | Py (JStr s) =>
        match dict_get s mapping with
        | Some s' => text s'
        | None => c
        end
    | _ => c
    end.

  (** Lines 43-77: column labels cleaned, then renamed. *)
Definition clean_labels (df : DataFrame) : DataFrame :=
    rename_columns clean_name df.

Definition rename_labels (df : DataFrame) : DataFrame :=
    rename_columns (renamed (dynamic (map fst (columns df)))) df.

  (** Lines 80-81: every object column to text, trimmed. *)
Definition strip_cell (c : cell) : cell := text (PyStr.strip (py_str c)).

Definition strip_text (df : DataFrame) : DataFrame :=
    fold_left (fun df col => assign col DObject (fun r => strip_cell (row_get col r)) df)
              (object_columns df) df.

  (** Lines 84-86 *)
Definition coerce_numeric (df : DataFrame) : DataFrame :=
    fold_left
      (fun df num_col =>
         if has_column num_col df
         then assign num_col DFloat (fun r => to_numeric (row_get num_col r)) df
         else df)
      numeric_columns df.

  (** Lines 89-91 *)
Definition title_cell (c : cell) : cell := text (PyStr.title (py_str c)).

Definition normalize_churn (df : DataFrame) : DataFrame :=
    if has_column "Churn" df then
      let df := assign "Churn" DObject (fun r => title_cell (row_get "Churn" r)) df in
      select (fun r => isin ["Yes"; "No"] (row_get "Churn" r)) df
    else df.

  (** Lines 94-111 *)
Definition collapse_placeholders (df : DataFrame) : DataFrame :=
    fold_left
      (fun df col =>
         if has_column col df then transform col (replace placeholders) df else df)
      service_columns df.

  (** Lines 114-119 *)
Definition normalize_senior (df : DataFrame) : DataFrame :=
    if has_column "SeniorCitizen" df then
      let sc_num := map to_numeric (column "SeniorCitizen" df) in
      if gt (mean (map notna sc_num)) (1 # 2)%Q then
        assign "SeniorCitizen" DObject
               (fun r => if equals_one (to_numeric (row_get "SeniorCitizen" r))
                         then text "Yes" else text "No") df
      else
        assign "SeniorCitizen" DObject
               (fun r => title_cell (row_get "SeniorCitizen" r)) df
    else df.

  (** Lines 122-123 *)
Definition drop_duplicate_ids (df : DataFrame) : DataFrame :=
    if has_column "customerID" df then drop_duplicates "customerID" df else df.

Definition standardize_columns (df : DataFrame) : DataFrame :=
    let df := clean_labels df in
    let df := rename_labels df in
    let df := strip_text df in
    let df := coerce_numeric df in
    let df := normalize_churn df in
    let df := collapse_placeholders df in
    let df := normalize_senior df in
    drop_duplicate_ids df.

  (** [np.where(tenure > 0, total / tenure, np.nan)] on one row, the
      quotient taken exactly (see [Float64.average_monthly] for binary64). *)
Definition average_monthly (tenure total : cell) : cell :=
    if gt (num_of tenure) 0%Q then
      match num_of tenure, num_of total with
      | Some t, Some c => Py (JFloat (c / t)%Q)
      | _, _ => NaN
      end
    else NaN.

Definition create_features (df : DataFrame) : DataFrame :=
    if forallb (fun c => has_column c df) ["TotalCharges"; "tenure"] then
      assign "AverageMonthlyCharge" DFloat
             (fun r => average_monthly (row_get "tenure" r) (row_get "TotalCharges" r))
             df
    else df.

  (** The percentage of [True]: [mask.mean() * 100.0]. *)
Definition pct (mask : list bool) : option Q :=
    option_map (fun m => (m * 100)%Q) (mean mask).

Definition churn_rate (subset : DataFrame) : option Q :=
    if negb (has_column "Churn" subset) then None
    else pct (map (eq_text "Yes") (column "Churn" subset)).

  (** *** Aggregation *)

Definition kind_rank (c : cell) : nat :=
    match num_of c with
    | Some _ => 0
    | None => match c with Py (JStr _) => 1 | _ => 2 end
    end.

  (** The order group keys are listed in: numbers by value, texts by code
      point.  (Python has no order between kinds; they are ranked here.) *)
Definition key_leb (a b : cell) : bool :=
    if (kind_rank a <? kind_rank b)%nat then true
    else if (kind_rank b <? kind_rank a)%nat then false
    else match num_of a, num_of b with
         | Some x, Some y => Qle_bool x y
         | _, _ =>
             match a, b with
             | Py (JStr x), Py (JStr y) => String.leb x y
             | _, _ => true
             end
         end.

Fixpoint insert_key (k : cell) (l : list cell) : list cell :=
    match l with
    | [] => [k]
    | h :: t => if key_leb k h then k :: l else h :: insert_key k t
    end.

Definition sort_keys (l : list cell) : list cell := fold_right insert_key [] l.

Fixpoint unique_keys (seen : list cell) (l : list cell) : list cell :=
    match l with
    | [] => []
    | k :: rest =>
        if existsb (same_key k) seen then unique_keys seen rest
        else k :: unique_keys (k :: seen) rest
    end.

  (** [df.groupby(by)]: one group per distinct non-missing entry of [by],
      keys sorted, rows in table order. *)
Definition groupby (by_col : string) (df : DataFrame) : list (cell * list Row) :=
    map (fun k => (k, filter (fun r => same_key (row_get by_col r) k) (rows df)))
        (sort_keys (unique_keys [] (filter notna (column by_col df)))).

  (** [df.groupby(by)[c]] raises when the table has no column [c];
      [df.groupby(by)] raises when it has no column [by]. *)
Definition groupby_column (by_col c : string) (df : DataFrame)
    : result (list (cell * list cell)) :=
    if negb (has_column by_col df) then Raise (KeyError by_col)
    else if negb (has_column c df) then Raise (KeyError ("Column not found: " ++ c))
    else Ok (map (fun g => (fst g, map (row_get c) (snd g))) (groupby by_col df)).

Record Stats : Type := mkStats {
    overall_churn_rate_pct : option Q;
    rate_tables : pydict (list (cell * option Q));
    describe_tables : pydict (list (cell * D));
    plots : list string
  }.

Definition rate_categories : list string :=
    ["Contract"; "PaymentMethod"; "InternetService"; "SeniorCitizen";
     "Partner"; "Dependents"].

Definition describe_columns : list string :=
    ["MonthlyCharges"; "TotalCharges"; "AverageMonthlyCharge"; "tenure"].

  (** Lines 191-194, one turn of the loop. *)
Definition rate_step (df : DataFrame) (out : pydict (list (cell * option Q)))
             (cat : string) : result (pydict (list (cell * option Q))) :=
    if has_column cat df then
      grp <- groupby_column cat "Churn" df ;;
      Ok (dict_set ("rate_" ++ PyStr.lower cat)
                   (map (fun g => (fst g, pct (map (eq_text "Yes") (snd g)))) grp)
                   out)
    else Ok out.

  (** Lines 197-199, one turn of the loop. *)
Definition describe_step (df : DataFrame) (out : pydict (list (cell * D)))
             (num : string) : result (pydict (list (cell * D))) :=
    if has_column num df then
      grp <- groupby_column "Churn" num df ;;
      Ok (dict_set ("describe_" ++ num)
                   (map (fun g => (fst g, describe (snd g))) grp)
                   out)
    else Ok out.

Fixpoint for_each {A B : Type} (step : B -> A -> result B) (l : list A) (out : B)
    : result B :=
    match l with
    | [] => Ok out
    | x :: rest => out' <- step out x ;; for_each step rest out'
    end.

Definition has_all (cs : list string) (df : DataFrame) : bool :=
    forallb (fun c => has_column c df) cs.

  (** Lines 202-221: the chart files asked for, by name.  The drawing
      itself, which can fail (an empty table has nothing to draw), is not
      modelled. *)
Definition plot_files (df : DataFrame) : list string :=
    (if has_column "Churn" df then ["plot_churn_distribuicao.png"] else [])
    ++ (if has_all ["Contract"; "Churn"] df then ["plot_churn_por_contrato.png"] else [])
    ++ (if has_all ["PaymentMethod"; "Churn"] df then ["plot_churn_por_pagamento.png"] else [])
    ++ (if has_all ["InternetService"; "Churn"] df then ["plot_churn_por_internet.png"] else [])
    ++ (if has_all ["MonthlyCharges"; "Churn"] df then ["plot_monthlycharges_por_churn.png"] else []).

Definition eda_and_plots (df : DataFrame) : result Stats :=
    let overall := churn_rate df in
    rates <- for_each (rate_step df) rate_categories [] ;;
    describes <- for_each (describe_step df) describe_columns [] ;;
    Ok (mkStats overall rates describes (plot_files df)).

  (** *** The run *)

Record Run : Type := mkRun {
    original_shape : nat * nat;
    df_clean : DataFrame;
    dropped_dupes : nat;
    stats : Stats
  }.

  (** [main], from the parsed input to what the report and the summary are
      written from. *)
Definition main (raw : json) : result Run :=
    df_raw <- load_json raw ;;
    let original_shape := shape df_raw in
    let df := standardize_columns df_raw in
    let before := len df in
    let df' := if has_column "customerID" df
               then drop_duplicates "customerID" df else df in
    let dropped_dupes := if has_column "customerID" df
                         then before - len df' else 0 in
    let df := create_features df' in
    stats <- eda_and_plots df ;;
    Ok (mkRun original_shape df dropped_dupes stats).

End Pipeline.

(* ------------------------------------------------------------------ *)
(** ** A reader of plain decimal numbers, for the worked inputs *)

Module Sample.

Definition digit (c : ascii) : option Z :=
    let n := nat_of_ascii c in
    if (48 <=? n)%nat && (n <=? 57)%nat then Some (Z.of_nat (n - 48)) else None.

Fixpoint digits (acc : Z) (s : string) : option Z :=
    match s with
    | EmptyString => Some acc
    | String c r =>
        match digit c with
        | Some d => digits (10 * acc + d) r
        | None => None
        end
    end.

  (** Unsigned decimal integers; every other text is not a number. *)
Definition parse_number (s : string) : option Q :=
    match s with
    | EmptyString => None
    | _ => option_map inject_Z (digits 0 s)
    end.

Definition float_str (q : Q) : string :=
    PyStr.of_int (Qnum q) ++ "/" ++ PyStr.of_int (Zpos (Qden q)).

Definition container_str (v : json) : string := "[...]".

Definition describe (l : list cell) : nat := length (filter notna l).

Definition standardize := standardize_columns parse_number float_str container_str.
Definition run := main parse_number float_str container_str describe.
Definition eda := eda_and_plots describe.

End Sample.

(* ------------------------------------------------------------------ *)
(** ** Vocabulary of the statements *)

(** One cell of a row rewritten through [f]. *)
Definition update_row (f : cell -> cell) (c : string) (r : Row) : Row :=
  row_set c (f (row_get c r)) r.

Definition mem (c : string) (l : list string) : bool := existsb (String.eqb c) l.

(** The two shapes of loop over column names in [standardize_columns]:
    with and without the test [col in df.columns]. *)
Definition guarded_loop (op : string -> DataFrame -> DataFrame)
           (cols : list string) (df : DataFrame) : DataFrame :=
  fold_left (fun t col => if has_column col t then op col t else t) cols df.

Definition plain_loop (op : string -> DataFrame -> DataFrame)
           (cols : list string) (df : DataFrame) : DataFrame :=
  fold_left (fun t col => op col t) cols df.

(** What such a loop does to one row: [f] on every listed cell whose
    column passes [g]. *)
Definition loop_row (f : cell -> cell) (g : string -> bool)
           (cols : list string) (r : Row) : Row :=
  fold_left (fun r col => if g col then update_row f col r else r) cols r.

(** The collapsing step as it acts on one cell of column [c]. *)
Definition collapsed (df : DataFrame) (c : string) (x : cell) : cell :=
  if mem c service_columns && has_column c df then replace placeholders x else x.

(** A cell of a numeric column: a number or [nan]. *)
Definition numeric_or_nan (c : cell) : Prop :=
  c = NaN \/ exists q, num_of c = Some q.

(** The row [create_features] makes of [r] when it adds the column. *)
Definition with_average (r : Row) : Row :=
  row_set "AverageMonthlyCharge"
          (average_monthly (row_get "tenure" r) (row_get "TotalCharges" r)) r.

Definition senior_input : json :=
  JArr [ JObj [ ("SeniorCitizen", JInt 0) ];
         JObj [ ("SeniorCitizen", JInt 1) ];
         JObj [ ("SeniorCitizen", JInt 1) ];
         JObj [ ("SeniorCitizen", JInt 0) ] ].

Definition tenure_zero : DataFrame :=
  mkDataFrame [("tenure", DInt); ("TotalCharges", DInt)]
              [ mkRow 0 [("tenure", Py (JInt 0)); ("TotalCharges", Py (JInt 50))];
                mkRow 1 [("tenure", Py (JInt 2)); ("TotalCharges", Py (JInt 50))];
                mkRow 2 [("tenure", Py (JInt 3)); ("TotalCharges", NaN)] ].

(** How many cells of a column [pd.to_numeric] reads as numbers. *)
Definition parsed (parse_number : string -> option Q) (col : list cell) : nat :=
  count_true (map notna (map (to_numeric parse_number) col)).

Definition yes_if_one (parse_number : string -> option Q) (c : cell) : cell :=
  if equals_one (to_numeric parse_number c) then Py (JStr "Yes") else Py (JStr "No").

(** *** Stages of [standardize_columns] *)

Definition names (df : DataFrame) : list string := map fst (columns df).

(** The input under its cleaned and renamed labels (lines 43-77). *)
Definition canonical (df : DataFrame) : DataFrame :=
  rename_labels (clean_labels df).

(** The table the Churn step receives (after line 86). *)
Definition before_churn (parse_number : string -> option Q) (float_str : Q -> string)
           (container_str : json -> string) (df : DataFrame) : DataFrame :=
  coerce_numeric parse_number (strip_text float_str container_str (canonical df)).

(** The rows that passed the Yes/No filter (after line 91). *)
Definition valid_outcome (parse_number : string -> option Q) (float_str : Q -> string)
           (container_str : json -> string) (df : DataFrame) : DataFrame :=
  normalize_churn float_str container_str
                  (before_churn parse_number float_str container_str df).

(** The table the deduplication receives (after line 119). *)
Definition before_dedup (parse_number : string -> option Q) (float_str : Q -> string)
           (container_str : json -> string) (df : DataFrame) : DataFrame :=
  normalize_senior parse_number float_str container_str
    (collapse_placeholders (valid_outcome parse_number float_str container_str df)).

(** What lines 114-119 make of one SeniorCitizen cell of table [t]. *)
Definition senior_cell (parse_number : string -> option Q) (float_str : Q -> string)
           (container_str : json -> string) (t : DataFrame) : cell -> cell :=
  if gt (mean (map notna (map (to_numeric parse_number) (column "SeniorCitizen" t))))
        (1 # 2)%Q
  then yes_if_one parse_number
  else title_cell float_str container_str.

(** Lines 80-86 on one row of the table [t]. *)
Definition prepare (parse_number : string -> option Q) (float_str : Q -> string)
           (container_str : json -> string) (t : DataFrame) (r : Row) : Row :=
  loop_row (to_numeric parse_number) (fun col => has_column col t) numeric_columns
           (loop_row (strip_cell float_str container_str) (fun _ => true)
                     (object_columns t) r).

(** Lines 94-119 on one row of the table [t]. *)
Definition finish (parse_number : string -> option Q) (float_str : Q -> string)
           (container_str : json -> string) (t : DataFrame) (r : Row) : Row :=
  let r1 := loop_row (replace placeholders) (fun col => has_column col t)
                     service_columns r in
  if has_column "SeniorCitizen" t
  then update_row (senior_cell parse_number float_str container_str
                               (collapse_placeholders t))
                  "SeniorCitizen" r1
  else r1.

(** The test of line 91 on one row. *)
Definition outcome_ok (r : Row) : bool := isin ["Yes"; "No"] (row_get "Churn" r).

(** The customerID entry of a row, as duplicates are looked for. *)
Definition id_of (r : Row) : cell := key_of (row_get "customerID" r).

(** No two rows of the list share a customerID entry. *)
Definition distinct_ids (l : list Row) : Prop :=
  ForallOrdPairs (fun a b => id_of a <> id_of b) l.

(** The reading of "the first occurrence is kept" over the rows of the
    input table itself: a row stays exactly when no row above it in the
    input has its customerID entry. *)
Definition keeps_first_input_occurrence (df out : DataFrame) : Prop :=
  forall p r q,
    rows df = p ++ r :: q ->
    (In (label r) (map label (rows out))
     <-> Forall (fun r' => id_of r' <> id_of r) p).

Definition invalid_then_valid : json :=
  JArr [ JObj [ ("customerID", JStr "A1"); ("Churn", JStr "Unknown") ];
         JObj [ ("customerID", JStr "A1"); ("Churn", JStr "Yes") ] ].

Definition shared_id : json :=
  JArr [ JObj [ ("customerID", JStr "A1"); ("Churn", JStr "Yes") ];
         JObj [ ("customerID", JStr "A1"); ("Churn", JStr "No") ] ].

Definition outcomes : json :=
  JArr [ JObj [ ("Churn", JStr "Yes") ];
         JObj [ ("Churn", JStr "no") ];
         JObj [ ("Churn", JStr "Unknown") ];
         JObj [ ("Churn", JNull) ];
         JObj [ ("Contract", JStr "Two year") ] ].

(** A table with a numeric column and no Churn column. *)
Definition monthly_only : DataFrame :=
  mkDataFrame [("MonthlyCharges", DFloat)]
              [ mkRow 0 [("MonthlyCharges", Py (JFloat (705 # 10)))] ].

(** Counts over the Churn column, and the rate they give: the share of
    [yes] among [n] entries in percent, undefined ([nan]) for [n = 0]. *)
Definition count_outcome (s : string) (df : DataFrame) : nat :=
  count_true (map (eq_text s) (column "Churn" df)).

Definition count_present (df : DataFrame) : nat :=
  length (filter notna (column "Churn" df)).

Definition rate_of (yes n : nat) : option Q :=
  match n with
  | 0 => None
  | _ => Some ((Z.of_nat yes # Pos.of_nat n) * 100)%Q
  end.

(** The run on [outcomes]. *)
Definition outcomes_run : Run nat :=
  match Sample.run outcomes with
  | Ok run => run
  | Raise _ => mkRun (0, 0) empty_frame 0 (mkStats None [] [] [])
  end.

(** A table with a text column that has a missing entry of each kind. *)
Definition missing_entries : json :=
  JArr [ JObj [ ("Contract", JStr " One year "); ("Churn", JStr "Yes") ];
         JObj [ ("Contract", JNull); ("Churn", JStr "No") ];
         JObj [ ("Churn", JStr "Yes") ];
         JObj [ ("Contract", JStr "Two year") ];
         JObj [ ("Contract", JStr "Two year"); ("Churn", JNull) ] ].

(** *** Key paths *)

(** The key paths of a value, in the spec's words: for an object, every
    chain of nested keys that ends at a value which is not an object; the
    path to a value that is not an object is the empty one. *)
Fixpoint leaves (v : json) : list (list string) :=
  match v with
  | JObj fields =>
      (fix walk (l : list (string * json)) : list (list string) :=
         match l with
         | [] => []
         | (k, x) :: rest => map (cons k) (leaves x) ++ walk rest
         end) fields
  | _ => [[]]
  end.

(** The key paths of one element of the input array. *)
Definition key_paths (v : json) : list (list string) :=
  match v with
  | JObj _ => leaves v
  | _ => []
  end.

(** No nested object sits under the empty key at the top of the record. *)
Definition no_empty_parent (v : json) : Prop :=
  match v with
  | JObj fields => Forall (fun kv => is_dict (snd kv) = true -> fst kv <> "") fields
  | _ => True
  end.

(** The name the loader gives a path that starts below [key_string]. *)
Definition path_name (key_string : string) (p : list string) : string :=
  fold_left (Pandas.new_key "_") p key_string.

(** A cell that holds the text "Yes" or the text "No". *)
Definition yes_or_no (c : cell) : Prop := c = Py (JStr "Yes") \/ c = Py (JStr "No").


(** *** Labels

    The label a column ends up with: cleaned, then renamed when its
    lower-cased form is a key of [rename_map]. *)
Definition canonical_name (c : string) : string :=
  match dict_get (PyStr.lower (clean_name c)) rename_map with
  | Some name => name
  | None => clean_name c
  end.

(** Whether the character [a] occurs in a text. *)
Fixpoint has_char (a : ascii) (s : string) : bool :=
  match s with
  | EmptyString => false
  | String c r => Ascii.eqb c a || has_char a r
  end.

Definition spaced_labels : DataFrame :=
  mkDataFrame [(" Customer-ID ", DObject); ("monthly charges", DFloat);
               ("TENURE", DInt); ("Plan type", DObject)]
              [ mkRow 0 [(" Customer-ID ", Py (JStr "A1"));
                         ("monthly charges", Py (JFloat (20 # 1)));
                         ("TENURE", Py (JInt 2));
                         ("Plan type", Py (JStr "basic"))] ].

(** An input with text in the numeric columns. *)
Definition charges_as_text : json :=
  JArr [ JObj [ ("tenure", JStr "12"); ("TotalCharges", JStr " 60 "); ("Churn", JStr "Yes") ];
         JObj [ ("tenure", JStr "0"); ("TotalCharges", JStr "50"); ("Churn", JStr "No") ];
         JObj [ ("tenure", JStr "three"); ("TotalCharges", JStr ""); ("Churn", JStr "No") ] ].

(** The run on [charges_as_text]. *)
Definition charges_run : Run nat :=
  match Sample.run charges_as_text with
  | Ok run => run
  | Raise _ => mkRun (0, 0) empty_frame 0 (mkStats None [] [] [])
  end.

(** [l1] is [l2] with some elements left out, the order kept. *)
Inductive subseq (A : Type) : list A -> list A -> Prop :=
| subseq_nil : subseq [] []
| subseq_skip (x : A) (l1 l2 : list A) : subseq l1 l2 -> subseq l1 (x :: l2)
| subseq_keep (x : A) (l1 l2 : list A) : subseq l1 l2 -> subseq (x :: l1) (x :: l2).

(** A table with neither a Churn nor a customerID column. *)
Definition plain_table : json :=
  JArr [ JObj [ ("Contract", JStr "One year"); ("tenure", JInt 3) ];
         JObj [ ("Contract", JStr "One year"); ("tenure", JInt 3) ];
         JObj [ ("Contract", JNull) ] ].

(** A rate that is defined and lies between 0 and 100. *)
Definition percentage (v : option Q) : Prop :=
  exists q, v = Some q /\ (0 <= q)%Q /\ (q <= 100)%Q.

(** A table with two contract types. *)
Definition contracts : json :=
  JArr [ JObj [ ("Contract", JStr "Monthly"); ("Churn", JStr "Yes") ];
         JObj [ ("Contract", JStr "Monthly"); ("Churn", JStr "No") ];
         JObj [ ("Contract", JStr "Monthly"); ("Churn", JStr "Yes") ];
         JObj [ ("Contract", JStr "Annual"); ("Churn", JStr "No") ] ].

(** The run on [contracts]. *)
Definition contracts_run : Run nat :=
  match Sample.run contracts with
  | Ok run => run
  | Raise _ => mkRun (0, 0) empty_frame 0 (mkStats None [] [] [])
  end.

(** An input with placeholder categories and a mixed SeniorCitizen. *)
Definition services : json :=
  JArr [ JObj [ ("OnlineBackup", JStr "No internet service"); ("SeniorCitizen", JStr "1");
                ("MultipleLines", JStr "Sem serviço de telefone") ];
         JObj [ ("OnlineBackup", JStr "Yes"); ("SeniorCitizen", JStr "0");
                ("MultipleLines", JStr "No phone service") ];
         JObj [ ("OnlineBackup", JStr " No internet service "); ("SeniorCitizen", JStr "unknown");
                ("MultipleLines", JStr "No") ] ].

(** A table in which one outcome is missing. *)
Definition outcome_missing : DataFrame :=
  mkDataFrame [("Churn", DObject)]
              [ mkRow 0 [("Churn", Py (JStr "Yes"))];
                mkRow 1 [("Churn", NaN)] ].

(** The key under which the statistics hold the table of a column. *)
Definition rate_key (cat : string) : string := "rate_" ++ PyStr.lower cat.
Definition describe_key (num : string) : string := "describe_" ++ num.

(** A table is rectangular when every row holds exactly the table's
    columns, in the table's order. *)
Definition rectangular (df : DataFrame) : Prop :=
  Forall (fun r => dict_keys (cells r) = names df) (rows df).

(** An input whose outcome is a JSON boolean. *)
Definition boolean_outcome : json :=
  JArr [ JObj [ ("Churn", JBool true); ("tenure", JInt 1) ];
         JObj [ ("Churn", JBool false); ("tenure", JInt 2) ] ].

(** The records [to_dataframe] hands to [pd.json_normalize]. *)
Definition records (obj : json) : list json :=
  match obj with
  | JArr items => items
  | JObj fields =>
      match first_list_value fields with
      | Some v => v
      | None => [obj]
      end
  | _ => []
  end.

(** Lines 131-133 on one row of two float64 columns, in binary64. *)
Module Float64.
Import PrimFloat.

(** [np.where(tenure > 0, total / tenure, np.nan)]. *)
Definition average_monthly (tenure total : float) : float :=
  if ltb 0%float tenure then div total tenure else nan.

Definition notna (x : float) : bool := negb (is_nan x).



End Float64.

Definition numeric_column (c : string) (df : DataFrame) : Prop :=
  Forall (fun r => numeric_or_nan (row_get c r)) (rows df).

Unset Implicit Arguments.

(** *** Induction over values

    The arrays and objects nest values in lists; this is the induction
    principle that reaches them. *)

Section JsonInduction.
Variable P : json -> Prop.
Hypothesis HNull : P JNull.
Hypothesis HBool : forall b, P (JBool b).
Hypothesis HInt : forall z, P (JInt z).
Hypothesis HFloat : forall q, P (JFloat q).
Hypothesis HStr : forall s, P (JStr s).
Hypothesis HArr : forall items, Forall P items -> P (JArr items).
Hypothesis HObj : forall fields, Forall (fun kv => P (snd kv)) fields -> P (JObj fields).

Fixpoint json_ind (v : json) : P v :=
    match v with
    | JNull => HNull
    | JBool b => HBool b
    | JInt z => HInt z
    | JFloat q => HFloat q
    | JStr s => HStr s
    | JArr items =>
        HArr items ((fix all (l : list json) : Forall P l :=
                 match l with
                 | [] => Forall_nil P
                 | x :: rest => Forall_cons x (json_ind x) (all rest)
                 end) items)
    | JObj fields =>
        HObj fields ((fix all (l : list (string * json)) : Forall (fun kv => P (snd kv)) l :=
                 match l with
                 | [] => Forall_nil _
                 | kv :: rest =>
                     Forall_cons (P := fun kv => P (snd kv)) kv (json_ind (snd kv)) (all rest)
                 end) fields)
    end.
End JsonInduction.

(** A concrete list without repetition. *)
Ltac distinct_by_computation :=
  vm_compute;
  repeat (constructor; [simpl; intuition (discriminate || lia)|]);
  constructor.

(* ------------------------------------------------------------------ *)
(** * Properties *)

(** ** Dictionaries and rows *)

Lemma dict_get_set (V : Type) (k k' : string) (v : V) (d : pydict V) :
  dict_get k (dict_set k' v d) = if String.eqb k k' then Some v else dict_get k d.
Proof.
  induction d as [|[k0 v0] d IH]; simpl.
  - reflexivity.
  - destruct (String.eqb_spec k' k0) as [->|Hne]; simpl.
    + destruct (String.eqb_spec k k0); reflexivity.
    + rewrite IH.
      destruct (String.eqb_spec k k0) as [->|Hk].
      * destruct (String.eqb_spec k0 k'); [congruence | reflexivity].
      * reflexivity.
Qed.

Lemma dict_has_In (V : Type) (k : string) (d : pydict V) :
  dict_has k d = true <-> In k (dict_keys d).
Proof.
  unfold dict_has.
  induction d as [|[k0 v0] d IH]; simpl.
  - split; [discriminate | tauto].
  - destruct (String.eqb_spec k k0) as [->|Hne].
    + split; auto.
    + rewrite IH. split; [auto | intros [H|H]; [congruence | exact H]].
Qed.

Lemma dict_keys_set_present (V : Type) (k : string) (v : V) (d : pydict V) :
  dict_has k d = true -> dict_keys (dict_set k v d) = dict_keys d.
Proof.
  unfold dict_has.
  induction d as [|[k0 v0] d IH]; simpl.
  - discriminate.
  - destruct (String.eqb_spec k k0) as [->|Hne]; simpl.
    + reflexivity.
    + intros H. rewrite (IH H). reflexivity.
Qed.

Lemma dict_keys_set_In (V : Type) (k c : string) (v : V) (d : pydict V) :
  In c (dict_keys (dict_set k v d)) <-> c = k \/ In c (dict_keys d).
Proof.
  induction d as [|[k0 v0] d IH]; simpl.
  - intuition.
  - destruct (String.eqb_spec k k0) as [->|Hne]; simpl.
    + intuition.
    + rewrite IH. intuition.
Qed.

Lemma dict_has_set (V : Type) (k c : string) (v : V) (d : pydict V) :
  dict_has c (dict_set k v d) = String.eqb c k || dict_has c d.
Proof.
  unfold dict_has. rewrite dict_get_set.
  destruct (String.eqb c k); reflexivity.
Qed.

Lemma row_get_set (c c' : string) (v : cell) (r : Row) :
  row_get c (row_set c' v r) = if String.eqb c c' then v else row_get c r.
Proof.
  unfold row_get, row_set; simpl. rewrite dict_get_set.
  destruct (String.eqb c c'); reflexivity.
Qed.

Lemma label_row_set (c : string) (v : cell) (r : Row) :
  label (row_set c v r) = label r.
Proof. reflexivity. Qed.

Lemma has_column_In (c : string) (df : DataFrame) :
  has_column c df = true <-> In c (names df).
Proof. apply dict_has_In. Qed.

Lemma has_column_assign (c c' : string) (d : dtype) (f : Row -> cell) (df : DataFrame) :
  has_column c (assign c' d f df) = String.eqb c c' || has_column c df.
Proof. unfold has_column, assign; simpl. apply dict_has_set. Qed.

Lemma names_assign_present (c : string) (d : dtype) (f : Row -> cell) (df : DataFrame) :
  has_column c df = true ->
  names (assign c d f df) = names df.
Proof. intros H. unfold assign; simpl. apply dict_keys_set_present. exact H. Qed.

(** Whether a table has a column depends on its labels only. *)
Lemma has_column_names (c : string) (a b : DataFrame) :
  names a = names b -> has_column c a = has_column c b.
Proof.
  intros H.
  destruct (has_column c a) eqn:Ha, (has_column c b) eqn:Hb; try reflexivity.
  - apply has_column_In in Ha. rewrite H in Ha. apply has_column_In in Ha. congruence.
  - apply has_column_In in Hb. rewrite <- H in Hb. apply has_column_In in Hb. congruence.
Qed.

Lemma mem_In (c : string) (l : list string) : mem c l = true <-> In c l.
Proof.
  unfold mem. rewrite existsb_exists. split.
  - intros [x [Hin Heq]]. apply String.eqb_eq in Heq. subst. exact Hin.
  - intros H. exists c. split; [exact H | apply String.eqb_refl].
Qed.

Lemma mem_cons (c a : string) (l : list string) :
  mem c (a :: l) = String.eqb c a || mem c l.
Proof. reflexivity. Qed.

(** ** Loops over columns *)

Lemma loop_row_ext (f : cell -> cell) (g1 g2 : string -> bool) cols r :
  (forall c, g1 c = g2 c) -> loop_row f g1 cols r = loop_row f g2 cols r.
Proof.
  intros H. revert r. induction cols as [|a cols IH]; intros r; simpl.
  - reflexivity.
  - unfold loop_row in *. simpl. rewrite H. apply IH.
Qed.

Lemma label_loop_row (f : cell -> cell) (g : string -> bool) cols r :
  label (loop_row f g cols r) = label r.
Proof.
  revert r. induction cols as [|a cols IH]; intros r.
  - reflexivity.
  - unfold loop_row in *. simpl. rewrite IH. destruct (g a); reflexivity.
Qed.

(** The cell a loop leaves in column [c]. *)
Lemma row_get_loop_row (f : cell -> cell) (g : string -> bool) cols c r :
  NoDup cols ->
  row_get c (loop_row f g cols r)
  = if mem c cols && g c then f (row_get c r) else row_get c r.
Proof.
  intros Hnd. revert r. induction Hnd as [|a cols Ha Hnd IH]; intros r.
  - reflexivity.
  - unfold loop_row in *. simpl fold_left. rewrite IH. rewrite mem_cons.
    destruct (String.eqb_spec c a) as [->|Hne].
    + assert (Hm : mem a cols = false).
      { destruct (mem a cols) eqn:E; [|reflexivity].
        apply mem_In in E. contradiction. }
      rewrite Hm. simpl.
      destruct (g a); [|reflexivity].
      unfold update_row. rewrite row_get_set, String.eqb_refl. reflexivity.
    + simpl.
      assert (Hr : row_get c (if g a then update_row f a r else r) = row_get c r).
      { destruct (g a); [|reflexivity].
        unfold update_row. rewrite row_get_set.
        destruct (String.eqb_spec c a); [contradiction | reflexivity]. }
      rewrite Hr. reflexivity.
Qed.

Section ColumnLoops.
Variable f : cell -> cell.
Variable op : string -> DataFrame -> DataFrame.
Hypothesis op_rows :
    forall col t, rows (op col t) = map (update_row f col) (rows t).
Hypothesis op_names :
    forall col t, has_column col t = true ->
                  names (op col t) = names t.

Lemma guarded_loop_names cols df :
    names (guarded_loop op cols df) = names df.
  Proof.
    revert df. induction cols as [|a cols IH]; intros df.
    - reflexivity.
    - unfold guarded_loop in *. simpl. rewrite IH.
      destruct (has_column a df) eqn:Ha; [apply op_names; exact Ha | reflexivity].
  Qed.

Lemma guarded_loop_rows cols df :
    rows (guarded_loop op cols df)
    = map (loop_row f (fun col => has_column col df) cols) (rows df).
  Proof.
    revert df. induction cols as [|a cols IH]; intros df.
    - simpl. symmetry. apply map_id.
    - unfold guarded_loop in *. simpl. rewrite IH.
      destruct (has_column a df) eqn:Ha.
      + rewrite op_rows, map_map. apply map_ext. intros r.
        unfold loop_row at 2. simpl. rewrite Ha.
        apply loop_row_ext. intros c.
        apply has_column_names, op_names. exact Ha.
      + apply map_ext. intros r. unfold loop_row at 2. simpl. rewrite Ha.
        reflexivity.
  Qed.

Lemma plain_loop_rows cols df :
    rows (plain_loop op cols df)
    = map (loop_row f (fun _ => true) cols) (rows df).
  Proof.
    revert df. induction cols as [|a cols IH]; intros df.
    - simpl. symmetry. apply map_id.
    - unfold plain_loop in *. simpl. rewrite IH.
      rewrite op_rows, map_map. reflexivity.
  Qed.

Lemma plain_loop_names cols df :
    Forall (fun c => has_column c df = true) cols ->
    names (plain_loop op cols df) = names df.
  Proof.
    revert df. induction cols as [|a cols IH]; intros df H.
    - reflexivity.
    - inversion H as [|x l Ha Hl]; subst.
      unfold plain_loop in *. simpl. rewrite IH.
      + apply op_names. exact Ha.
      + eapply Forall_impl; [|exact Hl]. intros c Hc. simpl in Hc.
        rewrite <- Hc. apply has_column_names, op_names. exact Ha.
  Qed.

End ColumnLoops.

(** ** Collapsing of placeholder categories *)

Lemma transform_rows (c : string) (f : cell -> cell) (df : DataFrame) :
  rows (transform c f df) = map (update_row f c) (rows df).
Proof. reflexivity. Qed.

Lemma service_columns_NoDup : NoDup service_columns.
Proof.
  unfold service_columns.
  repeat (constructor; [simpl; intuition discriminate|]). constructor.
Qed.

Lemma replace_placeholders_text (s : string) :
  replace placeholders (Py (JStr s)) = Py (JStr s)
  \/ replace placeholders (Py (JStr s)) = Py (JStr "No").
Proof.
  unfold replace, placeholders, text. simpl.
  repeat match goal with
         | |- context [String.eqb ?a ?b] => destruct (String.eqb a b); auto
         end.
Qed.

Lemma replace_placeholders_idempotent (c : cell) :
  replace placeholders (replace placeholders c) = replace placeholders c.
Proof.
  destruct c as [|v]; [reflexivity|].
  destruct v; try reflexivity.
  destruct (replace_placeholders_text s) as [H|H]; rewrite H.
  - exact H.
  - reflexivity.
Qed.

Lemma collapse_names (df : DataFrame) :
  names (collapse_placeholders df) = names df.
Proof.
  apply guarded_loop_names with (op := fun col t => transform col (replace placeholders) t).
  intros col t _. reflexivity.
Qed.

Lemma collapse_rows (df : DataFrame) :
  rows (collapse_placeholders df)
  = map (loop_row (replace placeholders) (fun col => has_column col df) service_columns)
        (rows df).
Proof.
  apply guarded_loop_rows with (f := replace placeholders)
           (op := fun col t => transform col (replace placeholders) t).
  - intros col t. reflexivity.
  - intros col t _. reflexivity.
Qed.

Lemma collapse_column (df : DataFrame) (c : string) :
  column c (collapse_placeholders df) = map (collapsed df c) (column c df).
Proof.
  unfold column. rewrite collapse_rows, !map_map. apply map_ext. intros r.
  rewrite row_get_loop_row by apply service_columns_NoDup. reflexivity.
Qed.

(** C9. Collapsing is idempotent: on a table whose service-flag columns
    have been collapsed, collapsing again leaves every cell of every column
    as it is; cell by cell, the replacement applied twice gives what it
    gives applied once. *)
Theorem collapse_placeholders_idempotent (df : DataFrame) (c : string) :
  column c (collapse_placeholders (collapse_placeholders df))
  = column c (collapse_placeholders df)
  /\ (forall x : cell,
        replace placeholders (replace placeholders x) = replace placeholders x).
Proof.
  split; [|apply replace_placeholders_idempotent].
  rewrite (collapse_column (collapse_placeholders df)), collapse_column, map_map.
  apply map_ext. intros x. unfold collapsed.
  rewrite (has_column_names c _ _ (collapse_names df)).
  destruct (mem c service_columns && has_column c df); [|reflexivity].
  apply replace_placeholders_idempotent.
Qed.

(** ** The derived feature *)






Lemma create_features_present (df : DataFrame) :
  has_column "TotalCharges" df = true -> has_column "tenure" df = true ->
  create_features df
  = assign "AverageMonthlyCharge" DFloat
           (fun r => average_monthly (row_get "tenure" r) (row_get "TotalCharges" r)) df.
Proof. intros H1 H2. unfold create_features. simpl. rewrite H1, H2. reflexivity. Qed.

Lemma create_features_absent (df : DataFrame) :
  has_column "TotalCharges" df = false \/ has_column "tenure" df = false ->
  create_features df = df.
Proof.
  intros H. unfold create_features. simpl.
  destruct H as [H|H]; rewrite H; [reflexivity|].
  destruct (has_column "TotalCharges" df); reflexivity.
Qed.




(** ** The SeniorCitizen column *)

Lemma Zpos_of_nat (n : nat) : n <> 0 -> Zpos (Pos.of_nat n) = Z.of_nat n.
Proof.
  intros H. rewrite <- positive_nat_Z, Nat2Pos.id by exact H. reflexivity.
Qed.

(** [mask.mean() > 0.5] holds exactly when more than half of the mask is
    true; on the empty mask the mean is [nan] and the test fails. *)
Lemma gt_mean_half (l : list bool) :
  gt (mean l) (1 # 2)%Q = (length l <? 2 * count_true l)%nat.
Proof.
  destruct l as [|b l].
  - reflexivity.
  - unfold mean, gt, Qle_bool. cbn [Qnum Qden].
    rewrite Zpos_of_nat by (simpl; discriminate).
    destruct (Z.leb_spec (Z.of_nat (count_true (b :: l)) * 2) (1 * Z.of_nat (length (b :: l))));
      destruct (Nat.ltb_spec (length (b :: l)) (2 * count_true (b :: l)));
      simpl negb; try reflexivity; exfalso; lia.
Qed.

Section Senior.
Variable parse_number : string -> option Q.
Variable float_str : Q -> string.
Variable container_str : json -> string.

Lemma normalize_senior_numeric (df : DataFrame) :
    has_column "SeniorCitizen" df = true ->
    length (column "SeniorCitizen" df) < 2 * parsed parse_number (column "SeniorCitizen" df) ->
    normalize_senior parse_number float_str container_str df
    = assign "SeniorCitizen" DObject
             (fun r => yes_if_one parse_number (row_get "SeniorCitizen" r)) df.
  Proof.
    intros Hc Hlt. unfold normalize_senior. rewrite Hc, gt_mean_half.
    rewrite !length_map.
    apply Nat.ltb_lt in Hlt. unfold parsed in Hlt.
    rewrite Hlt. reflexivity.
  Qed.

Lemma normalize_senior_text (df : DataFrame) :
    has_column "SeniorCitizen" df = true ->
    2 * parsed parse_number (column "SeniorCitizen" df) <= length (column "SeniorCitizen" df) ->
    normalize_senior parse_number float_str container_str df
    = assign "SeniorCitizen" DObject
             (fun r => title_cell float_str container_str (row_get "SeniorCitizen" r)) df.
  Proof.
    intros Hc Hle. unfold normalize_senior. rewrite Hc, gt_mean_half.
    rewrite !length_map.
    apply Nat.ltb_ge in Hle. unfold parsed in Hle.
    rewrite Hle. reflexivity.
  Qed.

Lemma column_assign_same (c : string) (d : dtype) (f : cell -> cell) (df : DataFrame) :
    column c (assign c d (fun r => f (row_get c r)) df) = map f (column c df).
  Proof.
    unfold column, assign. simpl. rewrite !map_map. apply map_ext. intros r.
    rewrite row_get_set, String.eqb_refl. reflexivity.
  Qed.

End Senior.

(** C7. Normalisation of [SeniorCitizen]: when strictly more than half of
    the column's cells read as numbers, a cell whose number is 1 becomes
    "Yes" and every other cell becomes "No"; otherwise every cell becomes
    its text in title case.  The column 0, 1, 1, 0 comes out of
    [standardize_columns] as "No", "Yes", "Yes", "No". *)
Theorem senior_citizen_normalized
        (parse_number : string -> option Q) (float_str : Q -> string)
        (container_str : json -> string) (df : DataFrame) :
  has_column "SeniorCitizen" df = true ->
  let col := column "SeniorCitizen" df in
  let out := column "SeniorCitizen"
                    (normalize_senior parse_number float_str container_str df) in
  (length col < 2 * parsed parse_number col ->
   out = map (fun c => if equals_one (to_numeric parse_number c)
                       then Py (JStr "Yes") else Py (JStr "No")) col)
  /\ (2 * parsed parse_number col <= length col ->
      out = map (fun c => Py (JStr (PyStr.title (py_str float_str container_str c)))) col)
  /\ column "SeniorCitizen"
            (standardize_columns parse_number float_str container_str
                                 (to_dataframe senior_input))
     = [Py (JStr "No"); Py (JStr "Yes"); Py (JStr "Yes"); Py (JStr "No")].
Proof.
  intros Hc col out. subst col out. split; [|split].
  - intros Hlt.
    rewrite (normalize_senior_numeric parse_number float_str container_str df Hc Hlt).
    apply (column_assign_same "SeniorCitizen" DObject (yes_if_one parse_number)).
  - intros Hle.
    rewrite (normalize_senior_text parse_number float_str container_str df Hc Hle).
    apply (column_assign_same "SeniorCitizen" DObject (title_cell float_str container_str)).
  - reflexivity.
Qed.

Lemma senior_citizen_normalized_witness :
  column "SeniorCitizen"
         (normalize_senior Sample.parse_number Sample.float_str Sample.container_str
                           (to_dataframe senior_input))
  = [Py (JStr "No"); Py (JStr "Yes"); Py (JStr "Yes"); Py (JStr "No")].
Proof.
  destruct (senior_citizen_normalized Sample.parse_number Sample.float_str
              Sample.container_str (to_dataframe senior_input) eq_refl) as [H _].
  rewrite H; [reflexivity | vm_compute; lia].
Defined.

(** ** The stages of [standardize_columns], row by row *)

Lemma numeric_columns_NoDup : NoDup numeric_columns.
Proof.
  unfold numeric_columns.
  repeat (constructor; [simpl; intuition discriminate|]). constructor.
Qed.

Lemma NoDup_map_filter (A B : Type) (g : A -> B) (keep : A -> bool) (xs : list A)
      (Hxs : NoDup (map g xs)) :
  NoDup (map g (filter keep xs)).
Proof.
  revert Hxs. induction xs as [|x xs IH]; intros Hxs; simpl.
  - constructor.
  - simpl in Hxs. apply NoDup_cons_iff in Hxs. destruct Hxs as [Hnin Hnd].
    destruct (keep x); simpl; [|apply IH; exact Hnd].
    apply NoDup_cons; [|apply IH; exact Hnd].
    intros Hin. apply Hnin. apply in_map_iff in Hin. destruct Hin as [y [Hy Hin]].
    apply filter_In in Hin. apply in_map_iff. exists y. tauto.
Qed.

Lemma object_columns_present (df : DataFrame) :
  Forall (fun c => has_column c df = true) (object_columns df).
Proof.
  apply Forall_forall. intros c Hin. apply has_column_In.
  unfold object_columns in Hin. apply in_map_iff in Hin.
  destruct Hin as [cd [Hc Hin]]. apply filter_In in Hin.
  apply in_map_iff. exists cd. tauto.
Qed.

Lemma rows_select (keep : Row -> bool) (df : DataFrame) :
  rows (select keep df) = filter keep (rows df).
Proof. reflexivity. Qed.

Lemma keep_first_incl (c : string) (seen : list cell) (l : list Row) (r : Row) :
  In r (keep_first c seen l) -> In r l.
Proof.
  revert seen. induction l as [|a l IH]; intros seen; simpl.
  - tauto.
  - destruct (existsb (same_key (row_get c a)) seen).
    + intros H. right. exact (IH _ H).
    + intros [H|H]; [left; exact H | right; exact (IH _ H)].
Qed.

Section Stages.
Variable parse_number : string -> option Q.
Variable float_str : Q -> string.
Variable container_str : json -> string.

Local Abbreviation strip_cell' := (strip_cell float_str container_str).
Local Abbreviation title_cell' := (title_cell float_str container_str).
Local Abbreviation strip_text' := (strip_text float_str container_str).
Local Abbreviation coerce' := (coerce_numeric parse_number).
Local Abbreviation churn' := (normalize_churn float_str container_str).
Local Abbreviation senior' := (normalize_senior parse_number float_str container_str).
Local Abbreviation standardize' := (standardize_columns parse_number float_str container_str).
Local Abbreviation before_churn' := (before_churn parse_number float_str container_str).
Local Abbreviation valid_outcome' := (valid_outcome parse_number float_str container_str).
Local Abbreviation before_dedup' := (before_dedup parse_number float_str container_str).

Lemma standardize_stages (df : DataFrame) :
    standardize' df = drop_duplicate_ids (before_dedup' df).
  Proof.
    unfold standardize_columns. cbv zeta.
    unfold before_dedup, valid_outcome, before_churn, canonical.
    reflexivity.
  Qed.

  (** *** Labels of the columns *)

Lemma strip_names (t : DataFrame) : names (strip_text' t) = names t.
  Proof.
    apply plain_loop_names with
      (op := fun col t => assign col DObject (fun r => strip_cell' (row_get col r)) t)
      (cols := object_columns t).
    - intros col u H. apply names_assign_present. exact H.
    - apply object_columns_present.
  Qed.

Lemma coerce_names (t : DataFrame) : names (coerce' t) = names t.
  Proof.
    apply guarded_loop_names with
      (op := fun col t => assign col DFloat (fun r => to_numeric parse_number (row_get col r)) t).
    intros col u H. apply names_assign_present. exact H.
  Qed.

Lemma churn_names (t : DataFrame) : names (churn' t) = names t.
  Proof.
    unfold names, normalize_churn.
    destruct (has_column "Churn" t) eqn:H; [|reflexivity].
    simpl. apply dict_keys_set_present. exact H.
  Qed.

Lemma senior_names (t : DataFrame) : names (senior' t) = names t.
  Proof.
    unfold names, normalize_senior.
    destruct (has_column "SeniorCitizen" t) eqn:H; [|reflexivity].
    destruct (gt _ _); simpl; apply dict_keys_set_present; exact H.
  Qed.

Lemma dedup_names (t : DataFrame) : names (drop_duplicate_ids t) = names t.
  Proof.
    unfold names, drop_duplicate_ids.
    destruct (has_column "customerID" t); reflexivity.
  Qed.

Lemma before_churn_names (df : DataFrame) :
    names (before_churn' df) = names (canonical df).
  Proof. unfold before_churn. rewrite coerce_names, strip_names. reflexivity. Qed.

Lemma valid_outcome_names (df : DataFrame) :
    names (valid_outcome' df) = names (canonical df).
  Proof. unfold valid_outcome. rewrite churn_names. apply before_churn_names. Qed.

Lemma before_dedup_names (df : DataFrame) :
    names (before_dedup' df) = names (canonical df).
  Proof.
    unfold before_dedup. rewrite senior_names.
    rewrite collapse_names. apply valid_outcome_names.
  Qed.

Lemma standardize_names (df : DataFrame) :
    names (standardize' df) = names (canonical df).
  Proof. rewrite standardize_stages, dedup_names. apply before_dedup_names. Qed.

  (** *** Rows *)

Lemma strip_rows (t : DataFrame) :
    rows (strip_text' t)
    = map (loop_row strip_cell' (fun _ => true) (object_columns t)) (rows t).
  Proof.
    apply plain_loop_rows with
      (op := fun col t => assign col DObject (fun r => strip_cell' (row_get col r)) t).
    intros col u. reflexivity.
  Qed.

Lemma coerce_rows (t : DataFrame) :
    rows (coerce' t)
    = map (loop_row (to_numeric parse_number) (fun col => has_column col t) numeric_columns)
          (rows t).
  Proof.
    apply guarded_loop_rows with
      (op := fun col t => assign col DFloat (fun r => to_numeric parse_number (row_get col r)) t).
    - intros col u. reflexivity.
    - intros col u H. apply names_assign_present. exact H.
  Qed.

Lemma churn_rows (t : DataFrame) :
    has_column "Churn" t = true ->
    rows (churn' t) = filter outcome_ok (map (update_row title_cell' "Churn") (rows t)).
  Proof. intros H. unfold normalize_churn. rewrite H. reflexivity. Qed.

Lemma churn_rows_absent (t : DataFrame) :
    has_column "Churn" t = false -> churn' t = t.
  Proof. intros H. unfold normalize_churn. rewrite H. reflexivity. Qed.

Lemma senior_rows (t : DataFrame) :
    rows (senior' t)
    = map (fun r => if has_column "SeniorCitizen" t
                    then update_row (senior_cell parse_number float_str container_str t)
                                    "SeniorCitizen" r
                    else r) (rows t).
  Proof.
    unfold normalize_senior, senior_cell.
    destruct (has_column "SeniorCitizen" t).
    - destruct (gt _ _); reflexivity.
    - symmetry. apply map_id.
  Qed.

Lemma dedup_rows_incl (t : DataFrame) (r : Row) :
    In r (rows (drop_duplicate_ids t)) -> In r (rows t).
  Proof.
    unfold drop_duplicate_ids.
    destruct (has_column "customerID" t); [|tauto].
    apply keep_first_incl.
  Qed.

Lemma before_churn_rows (df : DataFrame) :
    rows (before_churn' df)
    = map (prepare parse_number float_str container_str (canonical df))
          (rows (canonical df)).
  Proof.
    unfold before_churn. rewrite coerce_rows, strip_rows, map_map.
    apply map_ext. intros r. unfold prepare.
    apply loop_row_ext. intros c.
    apply has_column_names. apply strip_names.
  Qed.

Lemma before_dedup_rows (df : DataFrame) :
    rows (before_dedup' df)
    = map (finish parse_number float_str container_str (valid_outcome' df))
          (rows (valid_outcome' df)).
  Proof.
    unfold before_dedup. rewrite senior_rows, collapse_rows, map_map.
    apply map_ext. intros r. unfold finish.
    rewrite (has_column_names "SeniorCitizen" _ _ (collapse_names (valid_outcome' df))).
    reflexivity.
  Qed.

Lemma label_finish (t : DataFrame) (r : Row) :
    label (finish parse_number float_str container_str t r) = label r.
  Proof.
    unfold finish. destruct (has_column "SeniorCitizen" t);
      [unfold update_row; rewrite label_row_set|]; apply label_loop_row.
  Qed.

Lemma label_prepare (t : DataFrame) (r : Row) :
    label (prepare parse_number float_str container_str t r) = label r.
  Proof. unfold prepare. rewrite !label_loop_row. reflexivity. Qed.

  (** Outside SeniorCitizen, the last stages only collapse placeholders. *)
Lemma row_get_finish (t : DataFrame) (c : string) (r : Row) :
    c <> "SeniorCitizen" ->
    row_get c (finish parse_number float_str container_str t r)
    = collapsed t c (row_get c r).
  Proof.
    intros Hc. unfold finish.
    assert (H : forall r1, row_get c (if has_column "SeniorCitizen" t
                                      then update_row (senior_cell parse_number float_str
                                                         container_str (collapse_placeholders t))
                                                      "SeniorCitizen" r1
                                      else r1) = row_get c r1).
    { intros r1. destruct (has_column "SeniorCitizen" t); [|reflexivity].
      unfold update_row. rewrite row_get_set.
      destruct (String.eqb_spec c "SeniorCitizen"); [contradiction | reflexivity]. }
    cbv zeta. rewrite H.
    rewrite row_get_loop_row by apply service_columns_NoDup. reflexivity.
  Qed.

  (** What the first stages leave in column [c]. *)
Lemma row_get_prepare (t : DataFrame) (c : string) (r : Row) :
    NoDup (names t) ->
    row_get c (prepare parse_number float_str container_str t r)
    = (if mem c numeric_columns && has_column c t
       then to_numeric parse_number else fun x => x)
        ((if mem c (object_columns t) then strip_cell' else fun x => x) (row_get c r)).
  Proof.
    intros Hnd. unfold prepare.
    rewrite row_get_loop_row by apply numeric_columns_NoDup.
    rewrite row_get_loop_row by (apply NoDup_map_filter; exact Hnd).
    rewrite andb_true_r.
    destruct (mem c numeric_columns && has_column c t);
      destruct (mem c (object_columns t)); reflexivity.
  Qed.

End Stages.

(** ** The outcome label *)

Lemma isin_yes_no (c : cell) : isin ["Yes"; "No"] c = true <-> yes_or_no c.
Proof.
  unfold isin, yes_or_no, eq_text. simpl.
  destruct c as [|v]; [split; [discriminate | intros [H|H]; discriminate]|].
  destruct v; try (split; [discriminate | intros [H|H]; discriminate]).
  rewrite orb_false_r, orb_true_iff, !String.eqb_eq.
  split; intros [H|H]; [left | right | left | right]; congruence.
Qed.

Lemma same_label_same_row (l : list Row) (a b : Row) :
  NoDup (map label l) -> In a l -> In b l -> label a = label b -> a = b.
Proof.
  induction l as [|x l IH]; simpl; intros Hnd Ha Hb Hl.
  - contradiction.
  - inversion Hnd as [|y ys Hnin Hnd']; subst.
    destruct Ha as [->|Ha], Hb as [->|Hb].
    + reflexivity.
    + exfalso. apply Hnin. rewrite Hl. apply in_map. exact Hb.
    + exfalso. apply Hnin. rewrite <- Hl. apply in_map. exact Ha.
    + apply IH; assumption.
Qed.

Lemma canonical_labels (df : DataFrame) :
  map label (rows (canonical df)) = map label (rows df).
Proof.
  unfold canonical, rename_labels, clean_labels, rename_columns. simpl.
  rewrite !map_map. reflexivity.
Qed.

Section Outcome.
Variable parse_number : string -> option Q.
Variable float_str : Q -> string.
Variable container_str : json -> string.

Local Abbreviation title_cell' := (title_cell float_str container_str).
Local Abbreviation standardize' := (standardize_columns parse_number float_str container_str).
Local Abbreviation before_churn' := (before_churn parse_number float_str container_str).
Local Abbreviation valid_outcome' := (valid_outcome parse_number float_str container_str).
Local Abbreviation before_dedup' := (before_dedup parse_number float_str container_str).

Lemma before_churn_labels (df : DataFrame) :
    map label (rows (before_churn' df)) = map label (rows df).
  Proof.
    rewrite before_churn_rows, map_map, <- canonical_labels.
    apply map_ext. intros r. apply label_prepare.
  Qed.

  (** A row of the output comes from a row that passed the filter. *)
Lemma standardize_from_valid (df : DataFrame) (r : Row) :
    In r (rows (standardize' df)) ->
    exists r1, In r1 (rows (valid_outcome' df))
               /\ r = finish parse_number float_str container_str (valid_outcome' df) r1.
  Proof.
    intros Hin. rewrite standardize_stages in Hin.
    apply dedup_rows_incl in Hin. rewrite before_dedup_rows in Hin.
    apply in_map_iff in Hin. destruct Hin as [r1 [Hr Hin]].
    exists r1. split; [exact Hin | symmetry; exact Hr].
  Qed.

Lemma valid_outcome_rows (df : DataFrame) (r1 : Row) :
    has_column "Churn" (canonical df) = true ->
    In r1 (rows (valid_outcome' df)) ->
    yes_or_no (row_get "Churn" r1)
    /\ exists r0, In r0 (rows (before_churn' df))
                  /\ label r1 = label r0
                  /\ row_get "Churn" r1 = title_cell' (row_get "Churn" r0).
  Proof.
    intros Hc Hin. unfold valid_outcome in Hin.
    rewrite churn_rows in Hin.
    - apply filter_In in Hin. destruct Hin as [Hin Hok].
      split; [apply isin_yes_no; exact Hok|].
      apply in_map_iff in Hin. destruct Hin as [r0 [Hr Hin]]. subst r1.
      exists r0. split; [exact Hin|]. split; [reflexivity|].
      unfold update_row. rewrite row_get_set, String.eqb_refl. reflexivity.
    - rewrite (has_column_names "Churn" _ _
                 (before_churn_names parse_number float_str container_str df)).
      exact Hc.
  Qed.

Lemma standardize_outcome (df : DataFrame) (r : Row) :
    has_column "Churn" (canonical df) = true ->
    In r (rows (standardize' df)) ->
    yes_or_no (row_get "Churn" r)
    /\ exists r0, In r0 (rows (before_churn' df))
                  /\ label r = label r0
                  /\ row_get "Churn" r = title_cell' (row_get "Churn" r0).
  Proof.
    intros Hc Hin.
    destruct (standardize_from_valid df r Hin) as [r1 [Hin1 ->]].
    rewrite row_get_finish by discriminate.
    rewrite label_finish.
    change (collapsed (valid_outcome' df) "Churn" (row_get "Churn" r1))
      with (row_get "Churn" r1).
    apply valid_outcome_rows; assumption.
  Qed.

End Outcome.

(** C4. On every table that has a Churn column (under any spelling the
    renaming recognises; column labels distinct once renamed, row labels
    distinct), every row of the normalised table holds "Yes" or "No" in
    Churn.  That entry is the title-cased text of the entry the row had
    when it reached the filter, and a row whose title-cased entry is
    neither "Yes" nor "No" is absent from the result: [standardize_columns]
    is a total function, and such rows are filtered out. *)
Theorem churn_is_yes_or_no
        (parse_number : string -> option Q) (float_str : Q -> string)
        (container_str : json -> string) (df : DataFrame) :
  has_column "Churn" (canonical df) = true ->
  NoDup (names (canonical df)) ->
  NoDup (map label (rows df)) ->
  has_column "Churn" (standardize_columns parse_number float_str container_str df) = true
  /\ Forall (fun r => yes_or_no (row_get "Churn" r))
            (rows (standardize_columns parse_number float_str container_str df))
  /\ (forall r,
        In r (rows (standardize_columns parse_number float_str container_str df)) ->
        exists r0,
          In r0 (rows (before_churn parse_number float_str container_str df))
          /\ label r = label r0
          /\ row_get "Churn" r
             = title_cell float_str container_str (row_get "Churn" r0))
  /\ (forall r0,
        In r0 (rows (before_churn parse_number float_str container_str df)) ->
        ~ yes_or_no (title_cell float_str container_str (row_get "Churn" r0)) ->
        ~ In (label r0)
             (map label (rows (standardize_columns parse_number float_str
                                                   container_str df)))).
Proof.
  intros Hc Hcols Hlabels.
  split; [|split; [|split]].
  - rewrite (has_column_names "Churn" _ _
               (standardize_names parse_number float_str container_str df)).
    exact Hc.
  - apply Forall_forall. intros r Hin.
    exact (proj1 (standardize_outcome parse_number float_str container_str df r Hc Hin)).
  - intros r Hin.
    exact (proj2 (standardize_outcome parse_number float_str container_str df r Hc Hin)).
  - intros r0 Hin0 Hbad Hin.
    apply in_map_iff in Hin. destruct Hin as [r [Hl Hin]].
    destruct (standardize_outcome parse_number float_str container_str df r Hc Hin)
      as [Hyn [r0' [Hin0' [Hl' Hcell]]]].
    assert (r0' = r0).
    { apply (same_label_same_row
               (rows (before_churn parse_number float_str container_str df))).
      - rewrite before_churn_labels. exact Hlabels.
      - exact Hin0'.
      - exact Hin0.
      - rewrite <- Hl'. exact Hl. }
    subst r0'. apply Hbad. rewrite <- Hcell. exact Hyn.
Qed.

(** ** Equality of values *)


Lemma json_eqb_eq (a : json) : forall b, json_eqb a b = true <-> a = b.
Proof.
  induction a using json_ind; intros v; destruct v; simpl;
    try (split; [discriminate | intros E; discriminate E]).
  - tauto.
  - rewrite Bool.eqb_true_iff. split; congruence.
  - rewrite Z.eqb_eq. split; congruence.
  - rewrite andb_true_iff, Z.eqb_eq, Pos.eqb_eq.
    destruct q as [n d], q0 as [n0 d0]. simpl.
    split; [intros [-> ->]; reflexivity | intros E; inversion E; auto].
  - rewrite String.eqb_eq. split; congruence.
  - revert items0. induction H as [|x l Hx Hl IH]; intros [|y l0];
      try (split; [discriminate | intros E; discriminate E]).
    + tauto.
    + rewrite andb_true_iff, Hx, IH.
      split; [intros [-> E]; inversion E; reflexivity | intros E; inversion E; auto].
  - revert fields0. induction H as [|[k x] l Hx Hl IH]; intros [|[k0 y] l0];
      try (split; [discriminate | intros E; discriminate E]).
    + tauto.
    + simpl in Hx. rewrite !andb_true_iff, String.eqb_eq, Hx, IH.
      split; [intros [[-> ->] E]; inversion E; reflexivity | intros E; inversion E; auto].
Qed.

Lemma cell_eqb_eq (a b : cell) : cell_eqb a b = true <-> a = b.
Proof.
  destruct a, b; simpl; try (split; [discriminate | intros E; discriminate E]).
  - tauto.
  - rewrite json_eqb_eq. split; congruence.
Qed.

Lemma same_key_eq (a b : cell) : same_key a b = true <-> key_of a = key_of b.
Proof. apply cell_eqb_eq. Qed.

(** Membership among the entries seen so far. *)
Lemma seen_In (k : cell) (seen : list cell) :
  existsb (same_key k) seen = true <-> In (key_of k) (map key_of seen).
Proof.
  rewrite existsb_exists. split.
  - intros [x [Hin Hk]]. apply same_key_eq in Hk. rewrite Hk. apply in_map. exact Hin.
  - intros Hin. apply in_map_iff in Hin. destruct Hin as [x [Hk Hin]].
    exists x. split; [exact Hin | apply same_key_eq; congruence].
Qed.

(** ** Duplicate identifiers *)

Lemma keep_first_idempotent (c : string) (l : list Row) :
  forall seen, keep_first c seen (keep_first c seen l) = keep_first c seen l.
Proof.
  induction l as [|r l IH]; intros seen; simpl.
  - reflexivity.
  - destruct (existsb (same_key (row_get c r)) seen) eqn:E.
    + apply IH.
    + simpl. rewrite E, IH. reflexivity.
Qed.

Lemma keep_first_unseen (c : string) (l : list Row) :
  forall seen r,
    In r (keep_first c seen l) -> ~ In (key_of (row_get c r)) (map key_of seen).
Proof.
  induction l as [|a l IH]; intros seen r; simpl.
  - tauto.
  - destruct (existsb (same_key (row_get c a)) seen) eqn:E.
    + apply IH.
    + intros [<-|Hin].
      * intros H. apply seen_In in H. congruence.
      * intros H. apply (IH _ _ Hin). simpl. right. exact H.
Qed.

Lemma keep_first_distinct (c : string) (l : list Row) :
  forall seen,
    ForallOrdPairs (fun a b => key_of (row_get c a) <> key_of (row_get c b))
                   (keep_first c seen l).
Proof.
  induction l as [|a l IH]; intros seen; simpl.
  - constructor.
  - destruct (existsb (same_key (row_get c a)) seen).
    + apply IH.
    + constructor; [|apply IH].
      apply Forall_forall. intros b Hb Heq.
      apply (keep_first_unseen _ _ _ _ Hb). simpl. left. exact Heq.
Qed.

(** Which row of a list stays: the one no earlier row, and no entry seen
    before, shares its key with. *)
Lemma keep_first_keeps (c : string) (r : Row) (q : list Row) :
  forall p seen,
    NoDup (map label (p ++ r :: q)) ->
    (In r (keep_first c seen (p ++ r :: q))
     <-> ~ In (key_of (row_get c r)) (map key_of seen)
         /\ Forall (fun r' => key_of (row_get c r') <> key_of (row_get c r)) p).
Proof.
  induction p as [|a p IH]; intros seen Hnd; simpl in *.
  - inversion Hnd as [|x xs Hnin Hnd']; subst.
    destruct (existsb (same_key (row_get c r)) seen) eqn:E.
    + split.
      * intros Hin. exfalso. apply Hnin. apply in_map.
        exact (keep_first_incl _ _ _ _ Hin).
      * intros [H _]. exfalso. apply H. apply seen_In. exact E.
    + split; [|intros _; left; reflexivity].
      intros _. split; [|constructor].
      intros H. apply seen_In in H. congruence.
  - inversion Hnd as [|x xs Hnin Hnd']; subst.
    assert (Hra : r <> a).
    { intros ->. apply Hnin. rewrite map_app. apply in_or_app. right. left. reflexivity. }
    destruct (existsb (same_key (row_get c a)) seen) eqn:E.
    + rewrite (IH seen Hnd'). split.
      * intros [Hs Hp]. split; [exact Hs|]. constructor; [|exact Hp].
        intros Heq. apply Hs. rewrite <- Heq. apply seen_In. exact E.
      * intros [Hs Hp]. inversion Hp; subst. tauto.
    + simpl. rewrite (IH (row_get c a :: seen) Hnd'). simpl. split.
      * intros [Heq|[Hs Hp]]; [congruence|].
        split; [tauto|]. constructor; [|exact Hp]. intros Heq. apply Hs. left. exact Heq.
      * intros [Hs Hp]. inversion Hp; subst. right. split; [|assumption].
        intros [Heq|Hin]; [congruence | tauto].
Qed.

Lemma drop_duplicates_idempotent (c : string) (df : DataFrame) :
  drop_duplicates c (drop_duplicates c df) = drop_duplicates c df.
Proof.
  unfold drop_duplicates. simpl. rewrite keep_first_idempotent. reflexivity.
Qed.

Section Identifiers.
Variable parse_number : string -> option Q.
Variable float_str : Q -> string.
Variable container_str : json -> string.

Local Abbreviation title_cell' := (title_cell float_str container_str).
Local Abbreviation standardize' := (standardize_columns parse_number float_str container_str).
Local Abbreviation before_churn' := (before_churn parse_number float_str container_str).
Local Abbreviation valid_outcome' := (valid_outcome parse_number float_str container_str).
Local Abbreviation before_dedup' := (before_dedup parse_number float_str container_str).

  (** The rows that reach the later stages: all of them when there is no
      Churn column, else those the Yes/No test lets through. *)
Lemma valid_outcome_rows_eq (df : DataFrame) :
    rows (valid_outcome' df)
    = if has_column "Churn" (canonical df)
      then filter outcome_ok
                  (map (update_row title_cell' "Churn") (rows (before_churn' df)))
      else rows (before_churn' df).
  Proof.
    rewrite <- (has_column_names "Churn" _ _
                  (before_churn_names parse_number float_str container_str df)).
    unfold valid_outcome.
    destruct (has_column "Churn" (before_churn' df)) eqn:H.
    - apply churn_rows. exact H.
    - rewrite churn_rows_absent by exact H. reflexivity.
  Qed.

Lemma valid_outcome_labels (df : DataFrame) :
    NoDup (map label (rows df)) -> NoDup (map label (rows (valid_outcome' df))).
  Proof.
    intros Hnd. rewrite valid_outcome_rows_eq.
    destruct (has_column "Churn" (canonical df)).
    - apply NoDup_map_filter. rewrite map_map.
      rewrite (map_ext _ label) by (intros r; reflexivity).
      rewrite before_churn_labels. exact Hnd.
    - rewrite before_churn_labels. exact Hnd.
  Qed.

Lemma before_dedup_ids (df : DataFrame) :
    map (fun r => (label r, row_get "customerID" r)) (rows (before_dedup' df))
    = map (fun r => (label r, row_get "customerID" r)) (rows (valid_outcome' df)).
  Proof.
    rewrite before_dedup_rows, map_map. apply map_ext. intros r.
    rewrite label_finish, row_get_finish by discriminate. reflexivity.
  Qed.

Lemma before_dedup_labels (df : DataFrame) :
    NoDup (map label (rows df)) -> NoDup (map label (rows (before_dedup' df))).
  Proof.
    intros Hnd. rewrite before_dedup_rows, map_map.
    rewrite (map_ext _ label) by (intros r; apply label_finish).
    apply valid_outcome_labels. exact Hnd.
  Qed.

Lemma standardize_rows_dedup (df : DataFrame) :
    has_column "customerID" (canonical df) = true ->
    standardize' df = drop_duplicates "customerID" (before_dedup' df).
  Proof.
    intros H. rewrite standardize_stages. unfold drop_duplicate_ids.
    rewrite (has_column_names "customerID" _ _
               (before_dedup_names parse_number float_str container_str df)), H.
    reflexivity.
  Qed.

Lemma standardize_rows_no_id (df : DataFrame) :
    has_column "customerID" (canonical df) = false ->
    standardize' df = before_dedup' df.
  Proof.
    intros H. rewrite standardize_stages. unfold drop_duplicate_ids.
    rewrite (has_column_names "customerID" _ _
               (before_dedup_names parse_number float_str container_str df)), H.
    reflexivity.
  Qed.

End Identifiers.

(** C8, as the code has it.  With a customerID column (column labels
    distinct once renamed, row labels distinct): no two rows of the
    normalised table share a customerID entry; the deduplication works on
    the rows that passed the Yes/No outcome filter, with their identifiers
    as normalised, in input order; and of those rows one stays exactly when
    no row before it has its identifier. *)
Theorem first_valid_occurrence_kept
        (parse_number : string -> option Q) (float_str : Q -> string)
        (container_str : json -> string) (df : DataFrame) :
  has_column "customerID" (canonical df) = true ->
  NoDup (names (canonical df)) ->
  NoDup (map label (rows df)) ->
  let out := rows (standardize_columns parse_number float_str container_str df) in
  let entering := rows (before_dedup parse_number float_str container_str df) in
  let valid := rows (valid_outcome parse_number float_str container_str df) in
  distinct_ids out
  /\ (forall p r q,
        entering = p ++ r :: q ->
        (In r out <-> Forall (fun r' => id_of r' <> id_of r) p))
  /\ map (fun r => (label r, row_get "customerID" r)) entering
     = map (fun r => (label r, row_get "customerID" r)) valid
  /\ valid
     = if has_column "Churn" (canonical df)
       then filter outcome_ok
                   (map (update_row (title_cell float_str container_str) "Churn")
                        (rows (before_churn parse_number float_str container_str df)))
       else rows (before_churn parse_number float_str container_str df).
Proof.
  intros Hc Hcols Hlabels out entering valid. subst out entering valid.
  rewrite (standardize_rows_dedup parse_number float_str container_str df Hc).
  split; [|split; [|split]].
  - apply keep_first_distinct.
  - intros p r q Heq. unfold drop_duplicates. cbn [rows]. rewrite Heq.
    rewrite keep_first_keeps.
    + unfold id_of. cbn [map In]. tauto.
    + rewrite <- Heq. apply before_dedup_labels. exact Hlabels.
  - apply before_dedup_ids.
  - apply valid_outcome_rows_eq.
Qed.

Lemma first_valid_occurrence_kept_witness :
  distinct_ids
    (rows (standardize_columns Sample.parse_number Sample.float_str
                               Sample.container_str
                               (to_dataframe invalid_then_valid))).
Proof.
  assert (Hc : has_column "customerID" (canonical (to_dataframe invalid_then_valid)) = true)
    by (vm_compute; reflexivity).
  assert (Hn : NoDup (names (canonical (to_dataframe invalid_then_valid))))
    by distinct_by_computation.
  assert (Hl : NoDup (map label (rows (to_dataframe invalid_then_valid))))
    by distinct_by_computation.
  exact (proj1 (first_valid_occurrence_kept Sample.parse_number Sample.float_str
                  Sample.container_str (to_dataframe invalid_then_valid) Hc Hn Hl)).
Defined.

(** C8, as the claim words it, fails: of two input rows with the same
    customerID, the first has an outcome that is neither Yes nor No; it is
    filtered out, and the row that stays is the second. *)
Lemma first_input_occurrence_not_kept :
  ~ keeps_first_input_occurrence
      (to_dataframe invalid_then_valid)
      (Sample.standardize (to_dataframe invalid_then_valid)).
Proof.
  intros H.
  specialize (H [] (mkRow 0 [("customerID", Py (JStr "A1")); ("Churn", Py (JStr "Unknown"))])
                [mkRow 1 [("customerID", Py (JStr "A1")); ("Churn", Py (JStr "Yes"))]]
                eq_refl).
  destruct H as [_ H]. specialize (H (Forall_nil _)).
  vm_compute in H. destruct H as [H|H]; [discriminate | exact H].
Qed.

Lemma churn_is_yes_or_no_witness :
  Forall (fun r => yes_or_no (row_get "Churn" r))
         (rows (standardize_columns Sample.parse_number Sample.float_str
                                    Sample.container_str (to_dataframe outcomes))).
Proof.
  assert (Hc : has_column "Churn" (canonical (to_dataframe outcomes)) = true)
    by (vm_compute; reflexivity).
  assert (Hn : NoDup (names (canonical (to_dataframe outcomes))))
    by distinct_by_computation.
  assert (Hl : NoDup (map label (rows (to_dataframe outcomes))))
    by distinct_by_computation.
  exact (proj1 (proj2 (churn_is_yes_or_no Sample.parse_number Sample.float_str
                         Sample.container_str (to_dataframe outcomes) Hc Hn Hl))).
Defined.

(** Of the five rows of [outcomes] ("Yes", "no", "Unknown", null, and one
    without the key), the first two stay. *)
Example outcomes_kept :
  map (fun r => (label r, row_get "Churn" r))
      (rows (Sample.standardize (to_dataframe outcomes)))
  = [(0, Py (JStr "Yes")); (1, Py (JStr "No"))].
Proof. vm_compute. reflexivity. Qed.

(** ** The reported number of dropped duplicates *)

Lemma Ok_inj (A : Type) (a b : A) : Ok a = Ok b -> a = b.
Proof. intros E. injection E as E. exact E. Qed.

Section DropCount.
Variable parse_number : string -> option Q.
Variable float_str : Q -> string.
Variable container_str : json -> string.
Variable D : Type.
Variable describe : list cell -> D.

Local Abbreviation standardize' := (standardize_columns parse_number float_str container_str).

  (** The table [main] deduplicates has been deduplicated already. *)
Lemma main_dedup_is_noop (df : DataFrame) :
    has_column "customerID" (standardize' df) = true ->
    drop_duplicates "customerID" (standardize' df) = standardize' df.
  Proof.
    intros H.
    rewrite (has_column_names "customerID" _ _
               (standardize_names parse_number float_str container_str df)) in H.
    rewrite (standardize_rows_dedup parse_number float_str container_str df H).
    apply drop_duplicates_idempotent.
  Qed.

  (** Whatever the input, the count [main] passes to the report is 0. *)
Lemma dropped_dupes_always_zero (raw : json) (run : Run D) :
    main parse_number float_str container_str describe raw = Ok run ->
    dropped_dupes run = 0.
  Proof.
    unfold main, load_json. cbn [bind]. cbv zeta.
    pose proof (main_dedup_is_noop (to_dataframe raw)) as Hnoop.
    remember (standardize' (to_dataframe raw)) as t eqn:Ht. clear Ht.
    destruct (has_column "customerID" t) eqn:H.
    - rewrite (Hnoop eq_refl).
      destruct (eda_and_plots describe (create_features t)) as [st|e]; cbn [bind];
        [|discriminate].
      intros E. apply Ok_inj in E. rewrite <- E. cbn [dropped_dupes].
      apply Nat.sub_diag.
    - destruct (eda_and_plots describe (create_features t)) as [st|e]; cbn [bind];
        [|discriminate].
      intros E. apply Ok_inj in E. rewrite <- E. reflexivity.
  Qed.

  (** What [main] hands on is the normalised table with the feature. *)
Lemma main_table (raw : json) (run : Run D) :
    main parse_number float_str container_str describe raw = Ok run ->
    df_clean run = create_features (standardize' (to_dataframe raw))
    /\ eda_and_plots describe (df_clean run) = Ok (stats run).
  Proof.
    unfold main, load_json. cbn [bind]. cbv zeta.
    pose proof (main_dedup_is_noop (to_dataframe raw)) as Hnoop.
    remember (standardize' (to_dataframe raw)) as t eqn:Ht. clear Ht.
    destruct (has_column "customerID" t) eqn:H.
    - rewrite (Hnoop eq_refl).
      destruct (eda_and_plots describe (create_features t)) as [st|e] eqn:E;
        cbn [bind]; [|discriminate].
      intros R. apply Ok_inj in R. rewrite <- R. cbn [df_clean stats].
      split; [reflexivity | exact E].
    - destruct (eda_and_plots describe (create_features t)) as [st|e] eqn:E;
        cbn [bind]; [|discriminate].
      intros R. apply Ok_inj in R. rewrite <- R. cbn [df_clean stats].
      split; [reflexivity | exact E].
  Qed.

End DropCount.

(** C1, on the code.  For two input rows with the same customerID and
    valid outcomes, two rows pass the outcome filter and one identifier is
    among them, so one row is dropped and one stays; the count [main]
    reports is nevertheless 0, as it is for every run. *)
Theorem reported_drop_count_shared_id :
  exists run,
    Sample.run shared_id = Ok run
    /\ dropped_dupes run = 0
    /\ len (df_clean run) = 1
    /\ length (rows (valid_outcome Sample.parse_number Sample.float_str
                                   Sample.container_str (to_dataframe shared_id))) = 2
    /\ (forall raw run', Sample.run raw = Ok run' -> dropped_dupes run' = 0).
Proof.
  eexists. split; [vm_compute; reflexivity|].
  split; [reflexivity|]. split; [reflexivity|]. split; [vm_compute; reflexivity|].
  intros raw run'. apply dropped_dupes_always_zero.
Qed.

(** ** Aggregation without the outcome column *)

Section Aggregation.
Variable D : Type.
Variable describe : list cell -> D.

Lemma groupby_column_no_churn_key (c : string) (df : DataFrame) :
    has_column "Churn" df = false ->
    groupby_column "Churn" c df = Raise (KeyError "Churn").
  Proof. intros H. unfold groupby_column. rewrite H. reflexivity. Qed.

Lemma groupby_column_no_churn_column (cat : string) (df : DataFrame) :
    has_column cat df = true ->
    has_column "Churn" df = false ->
    groupby_column cat "Churn" df = Raise (KeyError "Column not found: Churn").
  Proof. intros Hc H. unfold groupby_column. rewrite Hc, H. reflexivity. Qed.

Lemma for_each_absent (A B : Type) (step : B -> A -> result B)
        (present : A -> bool) (l : list A) (out : B) :
    (forall o x, present x = false -> step o x = Ok o) ->
    Forall (fun x => present x = false) l ->
    for_each step l out = Ok out.
  Proof.
    intros Hskip Hl. induction Hl as [|x l Hx Hl IH]; simpl.
    - reflexivity.
    - rewrite (Hskip out x Hx). simpl. exact IH.
  Qed.

Lemma for_each_raises (A B : Type) (step : B -> A -> result B)
        (present : A -> bool) (e : exn) (l : list A) (out : B) :
    (forall o x, present x = false -> step o x = Ok o) ->
    (forall o x, present x = true -> step o x = Raise e) ->
    Exists (fun x => present x = true) l ->
    for_each step l out = Raise e.
  Proof.
    intros Hskip Hraise Hl. induction l as [|x l IH]; simpl.
    - inversion Hl.
    - destruct (present x) eqn:Hx.
      + rewrite (Hraise out x Hx). reflexivity.
      + rewrite (Hskip out x Hx). simpl. apply IH.
        inversion Hl; subst; [congruence | assumption].
  Qed.

  (** Without a Churn column, a present rate category stops the run. *)
Lemma rates_raise (df : DataFrame) out :
    has_column "Churn" df = false ->
    Exists (fun c => has_column c df = true) rate_categories ->
    for_each (rate_step df) rate_categories out
    = Raise (KeyError "Column not found: Churn").
  Proof.
    intros H Hex.
    apply for_each_raises with (present := fun c => has_column c df).
    - intros o x Hx. unfold rate_step. rewrite Hx. reflexivity.
    - intros o x Hx. unfold rate_step. rewrite Hx.
      rewrite (groupby_column_no_churn_column x df Hx H). reflexivity.
    - exact Hex.
  Qed.

Lemma describes_raise (df : DataFrame) out :
    has_column "Churn" df = false ->
    Exists (fun c => has_column c df = true) describe_columns ->
    for_each (describe_step describe df) describe_columns out
    = Raise (KeyError "Churn").
  Proof.
    intros H Hex.
    apply for_each_raises with (present := fun c => has_column c df).
    - intros o x Hx. unfold describe_step. rewrite Hx. reflexivity.
    - intros o x Hx. unfold describe_step. rewrite Hx.
      rewrite (groupby_column_no_churn_key x df H). reflexivity.
    - exact Hex.
  Qed.

Lemma rates_skip (df : DataFrame) out :
    Forall (fun c => has_column c df = false) rate_categories ->
    for_each (rate_step df) rate_categories out = Ok out.
  Proof.
    apply for_each_absent with (present := fun c => has_column c df).
    intros o x Hx. unfold rate_step. rewrite Hx. reflexivity.
  Qed.

Lemma eda_overall (df : DataFrame) (st : Stats D) :
    eda_and_plots describe df = Ok st ->
    overall_churn_rate_pct st = churn_rate df.
  Proof.
    unfold eda_and_plots. cbv zeta.
    destruct (for_each (rate_step df) rate_categories []) as [r|e]; cbn [bind];
      [|discriminate].
    destruct (for_each (describe_step describe df) describe_columns []) as [d|e];
      cbn [bind]; [|discriminate].
    intros E. apply Ok_inj in E. rewrite <- E. reflexivity.
  Qed.

End Aggregation.

(** C2, on the code.  On a table that has MonthlyCharges and no Churn
    column the aggregation does not skip the statistics: grouping by the
    absent Churn column raises KeyError, and so does the whole run on the
    input that gives this table.  The same holds for every table without
    Churn that has one of the described numeric columns and none of the
    rate categories; with a rate category present the run stops earlier,
    in the rate loop. *)
Theorem aggregation_raises_without_churn (D : Type) (describe : list cell -> D) :
  eda_and_plots describe monthly_only = Raise (KeyError "Churn")
  /\ main Sample.parse_number Sample.float_str Sample.container_str describe
          (JArr [JObj [("MonthlyCharges", JFloat (705 # 10))]])
     = Raise (KeyError "Churn")
  /\ (forall df,
        has_column "Churn" df = false ->
        Forall (fun c => has_column c df = false) rate_categories ->
        Exists (fun c => has_column c df = true) describe_columns ->
        eda_and_plots describe df = Raise (KeyError "Churn"))
  /\ (forall df,
        has_column "Churn" df = false ->
        Exists (fun c => has_column c df = true) rate_categories ->
        eda_and_plots describe df = Raise (KeyError "Column not found: Churn")).
Proof.
  assert (G1 : forall df,
             has_column "Churn" df = false ->
             Forall (fun c => has_column c df = false) rate_categories ->
             Exists (fun c => has_column c df = true) describe_columns ->
             eda_and_plots describe df = Raise (KeyError "Churn")).
  { intros df H Hr Hd. unfold eda_and_plots. cbv zeta.
    rewrite (rates_skip df [] Hr). cbn [bind].
    rewrite (describes_raise D describe df [] H Hd). reflexivity. }
  split; [|split; [|split]].
  - apply G1.
    + reflexivity.
    + repeat constructor.
    + apply Exists_cons_hd. reflexivity.
  - reflexivity.
  - exact G1.
  - intros df H Hr. unfold eda_and_plots. cbv zeta.
    rewrite (rates_raise df [] H Hr). reflexivity.
Qed.

(** ** The overall rate *)

Lemma has_column_create_features (c : string) (t : DataFrame) :
  c <> "AverageMonthlyCharge" ->
  has_column c (create_features t) = has_column c t.
Proof.
  intros Hc. unfold create_features.
  destruct (forallb _ _); [|reflexivity].
  rewrite has_column_assign.
  destruct (String.eqb_spec c "AverageMonthlyCharge"); [contradiction | reflexivity].
Qed.

Lemma column_create_features (c : string) (t : DataFrame) :
  c <> "AverageMonthlyCharge" ->
  column c (create_features t) = column c t.
Proof.
  intros Hc. unfold create_features.
  destruct (forallb _ _); [|reflexivity].
  unfold column, assign. cbn [rows]. rewrite map_map. apply map_ext. intros r.
  rewrite row_get_set.
  destruct (String.eqb_spec c "AverageMonthlyCharge"); [contradiction | reflexivity].
Qed.

Lemma yes_or_no_counts (col : list cell) :
  Forall yes_or_no col ->
  length (filter notna col) = length col
  /\ length col
     = count_true (map (eq_text "Yes") col) + count_true (map (eq_text "No") col).
Proof.
  unfold count_true.
  induction 1 as [|c col Hc Hcol [IH1 IH2]]; simpl.
  - split; reflexivity.
  - destruct Hc as [-> | ->]; simpl; rewrite IH1; split; try reflexivity; lia.
Qed.

Lemma pct_rate_of (mask : list bool) :
  pct mask = rate_of (count_true mask) (length mask).
Proof. destruct mask; reflexivity. Qed.

Lemma churn_rate_absent (subset : DataFrame) :
  has_column "Churn" subset = false -> churn_rate subset = None.
Proof. intros H. unfold churn_rate. rewrite H. reflexivity. Qed.

Lemma churn_rate_normalized (t : DataFrame) :
  has_column "Churn" t = true ->
  Forall yes_or_no (column "Churn" t) ->
  churn_rate t = rate_of (count_outcome "Yes" t) (count_present t)
  /\ count_present t = count_outcome "Yes" t + count_outcome "No" t.
Proof.
  intros H Hyn. unfold churn_rate, count_outcome, count_present. rewrite H. cbn [negb].
  destruct (yes_or_no_counts _ Hyn) as [E1 E2].
  rewrite pct_rate_of, length_map, E1. split; [reflexivity | exact E2].
Qed.

(** C6. The overall rate a run reports is unavailable ([nan]) when the
    cleaned table has no Churn column; otherwise it is 100 times the number
    of rows with Churn "Yes" over the number of rows with a non-missing
    Churn, and those are the "Yes" rows and the "No" rows together.  (With
    no row at all the quotient is 0/0, [nan] again.) *)
Theorem overall_churn_rate
        (parse_number : string -> option Q) (float_str : Q -> string)
        (container_str : json -> string) (D : Type) (describe : list cell -> D)
        (raw : json) (run : Run D) :
  main parse_number float_str container_str describe raw = Ok run ->
  (has_column "Churn" (df_clean run) = false ->
   overall_churn_rate_pct (stats run) = None)
  /\ (has_column "Churn" (df_clean run) = true ->
      overall_churn_rate_pct (stats run)
      = rate_of (count_outcome "Yes" (df_clean run)) (count_present (df_clean run))
      /\ count_present (df_clean run)
         = count_outcome "Yes" (df_clean run) + count_outcome "No" (df_clean run)).
Proof.
  intros Hrun.
  destruct (main_table parse_number float_str container_str D describe raw run Hrun)
    as [Ht Heda].
  rewrite (eda_overall D describe _ _ Heda).
  split.
  - apply churn_rate_absent.
  - intros Hc. apply churn_rate_normalized; [exact Hc|].
    rewrite Ht in *.
    rewrite has_column_create_features in Hc by discriminate.
    rewrite column_create_features by discriminate.
    rewrite (has_column_names "Churn" _ _
               (standardize_names parse_number float_str container_str
                                  (to_dataframe raw))) in Hc.
    unfold column. apply Forall_map, Forall_forall. intros r Hin.
    exact (proj1 (standardize_outcome parse_number float_str container_str
                    (to_dataframe raw) r Hc Hin)).
Qed.

Lemma overall_churn_rate_witness :
  Sample.run outcomes = Ok outcomes_run
  /\ overall_churn_rate_pct (stats outcomes_run)
     = rate_of (count_outcome "Yes" (df_clean outcomes_run))
               (count_present (df_clean outcomes_run))
  /\ rate_of (count_outcome "Yes" (df_clean outcomes_run))
             (count_present (df_clean outcomes_run))
     = Some ((1 # 2) * 100)%Q.
Proof.
  assert (Hrun : Sample.run outcomes = Ok outcomes_run) by (vm_compute; reflexivity).
  split; [exact Hrun|]. split; [|vm_compute; reflexivity].
  assert (Hc : has_column "Churn" (df_clean outcomes_run) = true)
    by (vm_compute; reflexivity).
  exact (proj1 (proj2 (overall_churn_rate Sample.parse_number Sample.float_str
                         Sample.container_str nat Sample.describe outcomes outcomes_run
                         Hrun) Hc)).
Defined.

(** ** Missing entries of text columns *)

Section MissingText.
Variable parse_number : string -> option Q.
Variable float_str : Q -> string.
Variable container_str : json -> string.

Local Abbreviation strip_cell' := (strip_cell float_str container_str).
Local Abbreviation title_cell' := (title_cell float_str container_str).
Local Abbreviation standardize' := (standardize_columns parse_number float_str container_str).
Local Abbreviation before_churn' := (before_churn parse_number float_str container_str).
Local Abbreviation valid_outcome' := (valid_outcome parse_number float_str container_str).
Local Abbreviation prepare' := (prepare parse_number float_str container_str).

Lemma strip_cell_missing (x : cell) :
    (x = NaN -> strip_cell' x = Py (JStr "nan"))
    /\ (x = Py JNull -> strip_cell' x = Py (JStr "None")).
  Proof. split; intros ->; reflexivity. Qed.


  (** A row that passed the filter comes from a row of the input, and
      outside Churn it holds what the first stages left. *)
Lemma valid_from_canonical (df : DataFrame) (r1 : Row) :
    In r1 (rows (valid_outcome' df)) ->
    exists r0, In r0 (rows (canonical df))
               /\ label r1 = label r0
               /\ forall c, c <> "Churn" ->
                            row_get c r1 = row_get c (prepare' (canonical df) r0).
  Proof.
    rewrite valid_outcome_rows_eq, before_churn_rows.
    destruct (has_column "Churn" (canonical df)).
    - intros Hin. apply filter_In in Hin. destruct Hin as [Hin _].
      apply in_map_iff in Hin. destruct Hin as [r' [<- Hin]].
      apply in_map_iff in Hin. destruct Hin as [r0 [<- Hin]].
      exists r0. split; [exact Hin|]. split.
      + unfold update_row. rewrite label_row_set. apply label_prepare.
      + intros c Hc. unfold update_row. rewrite row_get_set.
        destruct (String.eqb_spec c "Churn"); [contradiction | reflexivity].
    - intros Hin. apply in_map_iff in Hin. destruct Hin as [r0 [<- Hin]].
      exists r0. split; [exact Hin|]. split; [apply label_prepare | reflexivity].
  Qed.

Lemma standardize_from_canonical (df : DataFrame) (r : Row) :
    In r (rows (standardize' df)) ->
    exists r0, In r0 (rows (canonical df))
               /\ label r = label r0
               /\ forall c, c <> "Churn" -> c <> "SeniorCitizen" ->
                            row_get c r
                            = collapsed (valid_outcome' df) c
                                        (row_get c (prepare' (canonical df) r0)).
  Proof.
    intros Hin.
    destruct (standardize_from_valid parse_number float_str container_str df r Hin)
      as [r1 [Hin1 ->]].
    destruct (valid_from_canonical df r1 Hin1) as [r0 [Hin0 [Hl Hcells]]].
    exists r0. split; [exact Hin0|]. split.
    - rewrite label_finish. exact Hl.
    - intros c Hc Hs. rewrite row_get_finish by exact Hs.
      rewrite (Hcells c Hc). reflexivity.
  Qed.


  (** A row whose title-cased outcome is neither Yes nor No has no
      descendant in the normalised table. *)
Lemma invalid_outcome_dropped (df : DataFrame) (r0 : Row) :
    has_column "Churn" (canonical df) = true ->
    NoDup (map label (rows df)) ->
    In r0 (rows (before_churn' df)) ->
    ~ yes_or_no (title_cell' (row_get "Churn" r0)) ->
    ~ In (label r0) (map label (rows (standardize' df))).
  Proof.
    intros Hc Hlabels Hin0 Hbad Hin.
    apply in_map_iff in Hin. destruct Hin as [r [Hl Hin]].
    destruct (standardize_outcome parse_number float_str container_str df r Hc Hin)
      as [Hyn [r0' [Hin0' [Hl' Hcell]]]].
    assert (r0' = r0).
    { apply (same_label_same_row (rows (before_churn' df))).
      - rewrite before_churn_labels. exact Hlabels.
      - exact Hin0'.
      - exact Hin0.
      - rewrite <- Hl'. exact Hl. }
    subst r0'. apply Hbad. rewrite <- Hcell. exact Hyn.
  Qed.


End MissingText.



(** The rows of [missing_entries] that stay, with their Contract entry:
    the two rows without a valid outcome are gone, the missing contracts
    are text. *)
Example missing_entries_kept :
  map (fun r => (label r, row_get "Contract" r, row_get "Churn" r))
      (rows (Sample.standardize (to_dataframe missing_entries)))
  = [ (0, Py (JStr "One year"), Py (JStr "Yes"));
      (1, Py (JStr "None"), Py (JStr "No"));
      (2, Py (JStr "nan"), Py (JStr "Yes")) ].
Proof. vm_compute. reflexivity. Qed.

(** ** The loader *)

Lemma dict_merge_keys (V : Type) (b a : pydict V) (c : string) :
  In c (dict_keys (dict_merge a b)) <-> In c (dict_keys a) \/ In c (dict_keys b).
Proof.
  unfold dict_merge. revert a. induction b as [|[k v] b IH]; intros a; simpl.
  - tauto.
  - rewrite IH, dict_keys_set_In. intuition congruence.
Qed.

Lemma leaves_object (fields : list (string * json)) (p : list string) :
  In p (leaves (JObj fields))
  <-> exists k x p', In (k, x) fields /\ In p' (leaves x) /\ p = k :: p'.
Proof.
  induction fields as [|[k x] fields IH].
  - simpl. split; [tauto | intros [k [x [p' [H _]]]]; exact H].
  - change (leaves (JObj ((k, x) :: fields)))
      with (map (cons k) (leaves x) ++ leaves (JObj fields)).
    rewrite in_app_iff, IH, in_map_iff. split.
    + intros [[p' [<- Hp]] | [k0 [x0 [p' [Hin [Hp ->]]]]]].
      * exists k, x, p'. simpl. auto.
      * exists k0, x0, p'. simpl. auto.
    + intros [k0 [x0 [p' [[E|Hin] [Hp ->]]]]].
      * inversion E; subst. left. exists p'. auto.
      * right. exists k0, x0, p'. auto.
Qed.

(** The keys [_normalise_json] writes: those there before, and the name
    of every path of the value. *)
Lemma normalise_json_keys (v : json) :
  forall key_string acc c,
    In c (dict_keys (Pandas.normalise_json "_" v key_string acc))
    <-> In c (dict_keys acc) \/ exists p, In p (leaves v) /\ c = path_name key_string p.
Proof.
  induction v using json_ind; intros key_string acc c;
    try (simpl; rewrite dict_keys_set_In; split;
         [ intros [->|Hk]; [right; exists []; split; [left; reflexivity | reflexivity]
                           | left; exact Hk]
         | intros [Hk | [p [[<-|[]] ->]]]; [right; exact Hk | left; reflexivity] ]).
  revert acc. induction H as [|[k x] fields Hx Hfields IH]; intros acc.
  - simpl. split; [tauto | intros [H | [p [[] _]]]; exact H].
  - change (Pandas.normalise_json "_" (JObj ((k, x) :: fields)) key_string acc)
      with (Pandas.normalise_json "_" (JObj fields) key_string
              (Pandas.normalise_json "_" x (Pandas.new_key "_" key_string k) acc)).
    rewrite IH. simpl in Hx. rewrite Hx.
    change (leaves (JObj ((k, x) :: fields)))
      with (map (cons k) (leaves x) ++ leaves (JObj fields)).
    split.
    + intros [[H | [p [Hp ->]]] | [p [Hp ->]]].
      * left. exact H.
      * right. exists (k :: p). split; [|reflexivity].
        apply in_or_app. left. apply in_map. exact Hp.
      * right. exists p. split; [|reflexivity]. apply in_or_app. right. exact Hp.
    + intros [H | [p [Hp ->]]].
      * left. left. exact H.
      * apply in_app_or in Hp. destruct Hp as [Hp|Hp].
        -- apply in_map_iff in Hp. destruct Hp as [p' [<- Hp']].
           left. right. exists p'. split; [exact Hp' | reflexivity].
        -- right. exists p. split; [exact Hp | reflexivity].
Qed.

Lemma leaves_scalar (x : json) : is_dict x = false -> leaves x = [[]].
Proof. destruct x; simpl; intros H; try reflexivity; discriminate. Qed.

(** The columns one record gives: the names of its key paths. *)
Lemma normalise_json_ordered_keys (fields : list (string * json)) (c : string) :
  In c (dict_keys (Pandas.normalise_json_ordered "_" fields))
  <-> exists p, In p (leaves (JObj fields)) /\ c = path_name "" p.
Proof.
  unfold Pandas.normalise_json_ordered. cbv zeta.
  rewrite dict_merge_keys, normalise_json_keys. split.
  - intros [H | [[] | [p [Hp ->]]]].
    + unfold dict_keys in H. apply in_map_iff in H. destruct H as [[k x] [<- Hin]].
      apply filter_In in Hin. destruct Hin as [Hin Hd]. simpl in Hd.
      apply negb_true_iff in Hd.
      exists [k]. split; [|reflexivity].
      apply leaves_object. exists k, x, []. split; [exact Hin|].
      split; [|reflexivity]. rewrite (leaves_scalar x Hd). left. reflexivity.
    + exists p. split; [|reflexivity].
      apply leaves_object in Hp. destruct Hp as [k [x [p' [Hin [Hp' ->]]]]].
      apply filter_In in Hin. destruct Hin as [Hin _].
      apply leaves_object. exists k, x, p'. auto.
  - intros [p [Hp ->]].
    apply leaves_object in Hp. destruct Hp as [k [x [p' [Hin [Hp' ->]]]]].
    destruct (is_dict x) eqn:Hd.
    + right. right. exists (k :: p'). split; [|reflexivity].
      apply leaves_object. exists k, x, p'. split; [|auto].
      apply filter_In. split; [exact Hin | exact Hd].
    + left. rewrite (leaves_scalar x Hd) in Hp'. destruct Hp' as [<-|[]].
      unfold dict_keys. apply in_map_iff. exists (k, x). split; [reflexivity|].
      apply filter_In. split; [exact Hin|]. simpl. rewrite Hd. reflexivity.
Qed.

Lemma append_assoc (s t u : string) : ((s ++ t) ++ u = s ++ (t ++ u))%string.
Proof. induction s as [|a s IH]; simpl; [reflexivity | rewrite IH; reflexivity]. Qed.

Lemma append_nonempty (s t : string) : s <> "" -> (s ++ t)%string <> "".
Proof. destruct s; [congruence | discriminate]. Qed.

Lemma new_key_nonempty (s k : string) :
  s <> "" -> Pandas.new_key "_" s k = (s ++ "_" ++ k)%string.
Proof.
  intros H. unfold Pandas.new_key.
  destruct (String.eqb_spec s ""); [contradiction | reflexivity].
Qed.

Lemma join_cons (s a : string) (q : list string) :
  PyStr.join "_" ((s ++ "_" ++ a)%string :: q)
  = (s ++ "_" ++ PyStr.join "_" (a :: q))%string.
Proof.
  destruct q as [|b q].
  - reflexivity.
  - change (PyStr.join "_" ((s ++ "_" ++ a)%string :: b :: q))
      with ((s ++ "_" ++ a) ++ "_" ++ PyStr.join "_" (b :: q))%string.
    change (PyStr.join "_" (a :: b :: q))
      with (a ++ "_" ++ PyStr.join "_" (b :: q))%string.
    rewrite !append_assoc. reflexivity.
Qed.

(** Below a non-empty key the name of a path is its keys joined by "_". *)
Lemma path_name_nonempty (p : list string) :
  forall s, s <> "" -> path_name s p = PyStr.join "_" (s :: p).
Proof.
  unfold path_name. induction p as [|a p IH]; intros s Hs.
  - reflexivity.
  - cbn [fold_left]. rewrite new_key_nonempty by exact Hs.
    rewrite IH by (apply append_nonempty; exact Hs).
    rewrite join_cons. reflexivity.
Qed.

Lemma path_name_top (k : string) (p : list string) :
  p = [] \/ k <> "" -> path_name "" (k :: p) = PyStr.join "_" (k :: p).
Proof.
  intros [-> | Hk].
  - reflexivity.
  - unfold path_name. cbn [fold_left].
    change (Pandas.new_key "_" "" k) with k.
    apply path_name_nonempty. exact Hk.
Qed.

Lemma add_new_In (acc : list string) (k c : string) :
  In c (Pandas.add_new acc k) <-> In c acc \/ c = k.
Proof.
  unfold Pandas.add_new. destruct (existsb (String.eqb k) acc) eqn:E.
  - split; [auto|]. intros [H | ->]; [exact H|].
    apply existsb_exists in E. destruct E as [x [Hin Hx]].
    apply String.eqb_eq in Hx. subst. exact Hin.
  - rewrite in_app_iff. simpl. intuition congruence.
Qed.

Lemma fold_add_new_In (ks acc : list string) (c : string) :
  In c (fold_left Pandas.add_new ks acc) <-> In c acc \/ In c ks.
Proof.
  revert acc. induction ks as [|k ks IH]; intros acc; simpl.
  - tauto.
  - rewrite IH, add_new_In. intuition congruence.
Qed.

Lemma union_keys_from (records : list (pydict json)) (c : string) :
  forall acc,
    In c (fold_left (fun acc r => fold_left Pandas.add_new (dict_keys r) acc) records acc)
    <-> In c acc \/ exists r, In r records /\ In c (dict_keys r).
Proof.
  induction records as [|r records IH]; intros acc; simpl.
  - split; [auto | intros [H | [r [[] _]]]; exact H].
  - rewrite IH, fold_add_new_In. split.
    + intros [[H|H] | [r' [Hin Hc]]]; [left; exact H | right; exists r; auto
                                       | right; exists r'; auto].
    + intros [H | [r' [[<-|Hin] Hc]]]; [left; left; exact H | left; right; exact Hc
                                        | right; exists r'; auto].
Qed.

(** The columns of a table built from records: every key of every
    record. *)
Lemma union_keys_In (records : list (pydict json)) (c : string) :
  In c (Pandas.union_keys records) <-> exists r, In r records /\ In c (dict_keys r).
Proof.
  unfold Pandas.union_keys. rewrite union_keys_from. simpl. tauto.
Qed.

Lemma names_of_records (records : list (pydict json)) :
  names (Pandas.DataFrame_of_records records) = Pandas.union_keys records.
Proof.
  unfold names, Pandas.DataFrame_of_records, Pandas.typed_columns. cbn [columns].
  rewrite map_map. cbn [fst]. apply map_id.
Qed.

Lemma build_rows_labels (cols : list (string * dtype)) (records : list (pydict json)) :
  forall i, map label (Pandas.build_rows cols i records) = seq i (length records).
Proof.
  induction records as [|r records IH]; intros i; simpl.
  - reflexivity.
  - rewrite IH. reflexivity.
Qed.

Lemma json_normalize_labels (data : list json) :
  map label (rows (Pandas.json_normalize data "_")) = seq 0 (length data).
Proof.
  unfold Pandas.json_normalize, Pandas.DataFrame_of_records. cbn [rows].
  rewrite build_rows_labels, length_map. reflexivity.
Qed.

Lemma json_normalize_len (data : list json) :
  len (Pandas.json_normalize data "_") = length data.
Proof.
  unfold len. rewrite <- (length_map label), json_normalize_labels. apply length_seq.
Qed.

(** The columns of [json_normalize]: the joined key paths of the
    elements. *)
Lemma json_normalize_names (data : list json) (c : string) :
  Forall no_empty_parent data ->
  (In c (names (Pandas.json_normalize data "_"))
   <-> exists o p, In o data /\ In p (key_paths o) /\ c = PyStr.join "_" p).
Proof.
  intros Hdata. unfold Pandas.json_normalize.
  rewrite names_of_records, union_keys_In. split.
  - intros [r [Hr Hc]]. apply in_map_iff in Hr. destruct Hr as [o [<- Ho]].
    destruct o; try contradiction.
    cbn [Pandas.simple_json_normalize] in Hc.
    apply normalise_json_ordered_keys in Hc. destruct Hc as [p [Hp ->]].
    exists (JObj fields), p. split; [exact Ho|]. split; [exact Hp|].
    pose proof (proj1 (Forall_forall _ _) Hdata _ Ho) as Hne. simpl in Hne.
    apply leaves_object in Hp. destruct Hp as [k [x [p' [Hin [Hp' ->]]]]].
    apply path_name_top.
    destruct (is_dict x) eqn:Hd.
    + right. apply (proj1 (Forall_forall _ _) Hne (k, x) Hin). exact Hd.
    + left. rewrite (leaves_scalar x Hd) in Hp'. destruct Hp' as [<-|[]]. reflexivity.
  - intros [o [p [Ho [Hp ->]]]].
    destruct o; try contradiction.
    exists (Pandas.simple_json_normalize "_" (JObj fields)).
    split; [apply in_map; exact Ho|].
    cbn [Pandas.simple_json_normalize]. apply normalise_json_ordered_keys.
    exists p. split; [exact Hp|]. cbn [key_paths] in Hp.
    pose proof (proj1 (Forall_forall _ _) Hdata _ Ho) as Hne. simpl in Hne.
    apply leaves_object in Hp. destruct Hp as [k [x [p' [Hin [Hp' ->]]]]].
    symmetry. apply path_name_top.
    destruct (is_dict x) eqn:Hd.
    + right. apply (proj1 (Forall_forall _ _) Hne (k, x) Hin). exact Hd.
    + left. rewrite (leaves_scalar x Hd) in Hp'. destruct Hp' as [<-|[]]. reflexivity.
Qed.

Lemma first_list_value_found (pre post : list (string * json)) (k : string)
      (v : list json) :
  Forall (fun kv => is_list (snd kv) = false) pre ->
  first_list_value (pre ++ (k, JArr v) :: post) = Some v.
Proof.
  induction 1 as [|[k0 x] pre Hx Hpre IH]; simpl.
  - reflexivity.
  - simpl in Hx. destruct x; try exact IH. discriminate.
Qed.

Lemma first_list_value_none (fields : list (string * json)) :
  Forall (fun kv => is_list (snd kv) = false) fields ->
  first_list_value fields = None.
Proof.
  induction 1 as [|[k0 x] pre Hx Hpre IH]; simpl.
  - reflexivity.
  - simpl in Hx. destruct x; try exact IH. discriminate.
Qed.

(** C3, as the code has it.  An array of objects gives one row per
    element, labelled 0, 1, ..., and its columns are the key paths of its
    elements joined by "_" (for elements whose nested objects do not sit
    under an empty key); an object with an array-valued field gives the
    table of the first such array; an object without one gives the one-row
    table of itself; a value that is neither an array nor an object gives
    the empty table, and no error. *)
Theorem loader_shapes :
  (forall items c,
      Forall (fun o => is_dict o = true) items ->
      Forall no_empty_parent items ->
      len (to_dataframe (JArr items)) = length items
      /\ map label (rows (to_dataframe (JArr items))) = seq 0 (length items)
      /\ (In c (names (to_dataframe (JArr items)))
          <-> exists o p, In o items /\ In p (key_paths o) /\ c = PyStr.join "_" p))
  /\ (forall pre k v post,
        Forall (fun kv => is_list (snd kv) = false) pre ->
        to_dataframe (JObj (pre ++ (k, JArr v) :: post)) = to_dataframe (JArr v))
  /\ (forall fields,
        Forall (fun kv => is_list (snd kv) = false) fields ->
        to_dataframe (JObj fields) = to_dataframe (JArr [JObj fields])
        /\ len (to_dataframe (JObj fields)) = 1)
  /\ (forall v, is_dict v = false -> is_list v = false ->
                load_json v = Ok empty_frame).
Proof.
  split; [|split; [|split]].
  - intros items c _ Hne. cbn [to_dataframe].
    split; [apply json_normalize_len|].
    split; [apply json_normalize_labels|].
    apply json_normalize_names. exact Hne.
  - intros pre k v post Hpre. cbn [to_dataframe].
    rewrite (first_list_value_found pre post k v Hpre). reflexivity.
  - intros fields Hf. cbn [to_dataframe].
    rewrite (first_list_value_none fields Hf).
    split; [reflexivity | apply json_normalize_len].
  - intros v Hd Hl. destruct v; try reflexivity; discriminate.
Qed.

Lemma loader_shapes_witness :
  len (to_dataframe sample_nested) = 2
  /\ (In "account_Charges_Monthly" (names (to_dataframe sample_nested))
      <-> exists o p, In o [ JObj [ ("customerID", JStr "0002-ORFBO");
                                    ("Churn", JStr "No");
                                    ("customer", JObj [ ("gender", JStr "Female");
                                                        ("tenure", JInt 9) ]);
                                    ("account",
                                     JObj [ ("Charges",
                                             JObj [ ("Monthly", JFloat (656 # 10)) ]) ]) ];
                             JObj [ ("customerID", JStr "0003-MKNFE");
                                    ("customer", JObj [ ("gender", JStr "Male") ]) ] ]
                     /\ In p (key_paths o)
                     /\ "account_Charges_Monthly" = PyStr.join "_" p).
Proof.
  assert (Hne : Forall no_empty_parent
                       [ JObj [ ("customerID", JStr "0002-ORFBO");
                                ("Churn", JStr "No");
                                ("customer", JObj [ ("gender", JStr "Female");
                                                    ("tenure", JInt 9) ]);
                                ("account",
                                 JObj [ ("Charges",
                                         JObj [ ("Monthly", JFloat (656 # 10)) ]) ]) ];
                         JObj [ ("customerID", JStr "0003-MKNFE");
                                ("customer", JObj [ ("gender", JStr "Male") ]) ] ]).
  { repeat constructor; simpl; intros; discriminate. }
  match type of Hne with
  | Forall _ ?items =>
      assert (Hd : Forall (fun o => is_dict o = true) items) by (repeat constructor)
  end.
  destruct (proj1 loader_shapes _ "account_Charges_Monthly" Hd Hne) as [H1 [_ H3]].
  split; [exact H1 | exact H3].
Defined.

(** C3, as the claim words it, fails on a bare scalar: the loader returns
    the empty table and raises nothing. *)
Lemma scalar_loads_empty_table :
  load_json (JInt 42) = Ok empty_frame /\ ~ raises (load_json (JInt 42)).
Proof.
  split; [reflexivity|]. intros [e He]. discriminate.
Qed.

(** ** Column labels *)

Lemma names_rename_columns (f : string -> string) (df : DataFrame) :
  names (rename_columns f df) = map f (names df).
Proof. unfold names, rename_columns. cbn [columns]. rewrite !map_map. reflexivity. Qed.

Lemma dynamic_get (cols : list string) (col : string) :
  forall acc,
    dict_get col
      (fold_left
         (fun dyn c =>
            match dict_get (PyStr.lower c) rename_map with
            | Some name => dict_set c name dyn
            | None => dyn
            end) cols acc)
    = if mem col cols
      then match dict_get (PyStr.lower col) rename_map with
           | Some name => Some name
           | None => dict_get col acc
           end
      else dict_get col acc.
Proof.
  induction cols as [|a cols IH]; intros acc.
  - reflexivity.
  - cbn [fold_left]. rewrite IH, mem_cons.
    destruct (String.eqb_spec col a) as [->|Hne].
    + cbn [orb]. destruct (dict_get (PyStr.lower a) rename_map) as [name|] eqn:E.
      * rewrite dict_get_set, String.eqb_refl. destruct (mem a cols); reflexivity.
      * destruct (mem a cols); reflexivity.
    + cbn [orb].
      assert (Hacc : dict_get col
                       match dict_get (PyStr.lower a) rename_map with
                       | Some name => dict_set a name acc
                       | None => acc
                       end = dict_get col acc).
      { destruct (dict_get (PyStr.lower a) rename_map); [|reflexivity].
        rewrite dict_get_set.
        destruct (String.eqb_spec col a); [contradiction | reflexivity]. }
      rewrite Hacc. reflexivity.
Qed.

Lemma renamed_dynamic (cols : list string) (col : string) :
  In col cols ->
  renamed (dynamic cols) col
  = match dict_get (PyStr.lower col) rename_map with
    | Some name => name
    | None => col
    end.
Proof.
  intros Hin. unfold renamed, dynamic. rewrite dynamic_get.
  rewrite (proj2 (mem_In col cols) Hin).
  destruct (dict_get (PyStr.lower col) rename_map); reflexivity.
Qed.

Lemma canonical_names (df : DataFrame) :
  names (canonical df) = map canonical_name (names df).
Proof.
  unfold canonical, rename_labels, clean_labels.
  rewrite names_rename_columns.
  change (map fst (columns (rename_columns clean_name df)))
    with (names (rename_columns clean_name df)).
  rewrite names_rename_columns, map_map.
  apply map_ext_in. intros c Hin. unfold canonical_name.
  apply renamed_dynamic. apply in_map. exact Hin.
Qed.

Lemma same_width (f : string -> string) (a b : DataFrame) :
  names a = map f (names b) -> length (columns a) = length (columns b).
Proof.
  intros E. apply (f_equal (@length string)) in E.
  unfold names in E. rewrite !length_map in E. exact E.
Qed.

Lemma standardize_columns_labels_eq
      (parse_number : string -> option Q) (float_str : Q -> string)
      (container_str : json -> string) (df : DataFrame) :
  names (standardize_columns parse_number float_str container_str df)
  = map canonical_name (names df).
Proof. rewrite standardize_names. apply canonical_names. Qed.

(** X1. [standardize_columns] neither adds, drops nor reorders columns:
    the labels of its result are, in order, the labels of the input, each
    trimmed, with spaces and hyphens turned into underscores, and replaced
    by its standard spelling when its lower-cased form is one of the
    recognised names.  (Column labels distinct once renamed.) *)
Theorem standardize_columns_labels
        (parse_number : string -> option Q) (float_str : Q -> string)
        (container_str : json -> string) (df : DataFrame) :
  NoDup (names (canonical df)) ->
  names (standardize_columns parse_number float_str container_str df)
  = map canonical_name (names df)
  /\ length (columns (standardize_columns parse_number float_str container_str df))
     = length (columns df).
Proof.
  intros _.
  pose proof (standardize_columns_labels_eq parse_number float_str container_str df)
    as E.
  split; [exact E|].
  exact (same_width canonical_name
           (standardize_columns parse_number float_str container_str df) df E).
Qed.

Lemma standardize_columns_labels_witness :
  names (standardize_columns Sample.parse_number Sample.float_str
                             Sample.container_str spaced_labels)
  = ["customerID"; "monthly_charges"; "tenure"; "Plan_type"].
Proof.
  assert (Hn : NoDup (names (canonical spaced_labels))) by distinct_by_computation.
  rewrite (proj1 (standardize_columns_labels Sample.parse_number Sample.float_str
                    Sample.container_str spaced_labels Hn)).
  vm_compute. reflexivity.
Defined.

Example standardize_columns_labels_sample :
  names (Sample.standardize spaced_labels)
  = ["customerID"; "monthly_charges"; "tenure"; "Plan_type"].
Proof. vm_compute. reflexivity. Qed.

Lemma has_char_map_chars (a : ascii) (f : ascii -> ascii) (s : string) :
  (forall c, Ascii.eqb (f c) a = false) -> has_char a (PyStr.map_chars f s) = false.
Proof.
  intros Hf. induction s as [|c s IH]; simpl.
  - reflexivity.
  - rewrite Hf, IH. reflexivity.
Qed.

Lemma map_chars_compose (f g : ascii -> ascii) (s : string) :
  PyStr.map_chars f (PyStr.map_chars g s) = PyStr.map_chars (fun c => f (g c)) s.
Proof. induction s as [|c s IH]; simpl; [reflexivity | rewrite IH; reflexivity]. Qed.

Lemma clean_name_plain (c : string) :
  has_char " " (clean_name c) = false /\ has_char "-" (clean_name c) = false.
Proof.
  unfold clean_name, PyStr.replace_char. rewrite map_chars_compose.
  split; apply has_char_map_chars; intros x;
    destruct (Ascii.eqb_spec x " ") as [->|H1]; try reflexivity;
    destruct (Ascii.eqb_spec x "-") as [->|H2]; try reflexivity;
    apply Ascii.eqb_neq; assumption.
Qed.

Lemma dict_get_In (V : Type) (k : string) (v : V) (d : pydict V) :
  dict_get k d = Some v -> In (k, v) d.
Proof.
  induction d as [|[k0 v0] d IH]; simpl.
  - discriminate.
  - destruct (String.eqb_spec k k0) as [->|Hne].
    + intros E. injection E as ->. left. reflexivity.
    + intros E. right. exact (IH E).
Qed.

Lemma rename_map_plain :
  Forall (fun kv => has_char " " (snd kv) = false /\ has_char "-" (snd kv) = false)
         rename_map.
Proof. unfold rename_map. repeat constructor. Qed.

(** X2. No label of the normalised table holds a space or a hyphen.
    (Column labels distinct once renamed.) *)
Theorem standardize_columns_plain_labels
        (parse_number : string -> option Q) (float_str : Q -> string)
        (container_str : json -> string) (df : DataFrame) :
  NoDup (names (canonical df)) ->
  Forall (fun c => has_char " " c = false /\ has_char "-" c = false)
         (names (standardize_columns parse_number float_str container_str df)).
Proof.
  intros _.
  rewrite (standardize_columns_labels_eq parse_number float_str container_str df).
  apply Forall_map, Forall_forall. intros c _. unfold canonical_name.
  destruct (dict_get (PyStr.lower (clean_name c)) rename_map) as [name|] eqn:E.
  - apply dict_get_In in E.
    exact (proj1 (Forall_forall _ _) rename_map_plain _ E).
  - apply clean_name_plain.
Qed.

Lemma standardize_columns_plain_labels_witness :
  Forall (fun c => has_char " " c = false /\ has_char "-" c = false)
         (names (standardize_columns Sample.parse_number Sample.float_str
                                     Sample.container_str spaced_labels)).
Proof.
  assert (Hn : NoDup (names (canonical spaced_labels))) by distinct_by_computation.
  exact (standardize_columns_plain_labels Sample.parse_number Sample.float_str
           Sample.container_str spaced_labels Hn).
Defined.

(** ** Numeric columns *)

Lemma to_numeric_numeric (parse_number : string -> option Q) (x : cell) :
  numeric_or_nan (to_numeric parse_number x).
Proof.
  unfold numeric_or_nan.
  destruct x as [|v]; [left; reflexivity|].
  destruct v; simpl; try (left; reflexivity); try (right; eexists; reflexivity).
  destruct (parse_number s); [right; eexists; reflexivity | left; reflexivity].
Qed.

Lemma collapsed_other (t : DataFrame) (c : string) (x : cell) :
  mem c service_columns = false -> collapsed t c x = x.
Proof. intros H. unfold collapsed. rewrite H. reflexivity. Qed.

Lemma numeric_not_service (c : string) :
  In c numeric_columns ->
  mem c service_columns = false /\ c <> "Churn" /\ c <> "SeniorCitizen".
Proof.
  intros [<-|[<-|[<-|[]]]]; (split; [reflexivity | split; discriminate]).
Qed.

Section NumericColumns.
Variable parse_number : string -> option Q.
Variable float_str : Q -> string.
Variable container_str : json -> string.

Lemma standardize_numeric_cell (df : DataFrame) (c : string) (r : Row) :
  NoDup (names (canonical df)) ->
  In c numeric_columns ->
  has_column c (canonical df) = true ->
  In r (rows (standardize_columns parse_number float_str container_str df)) ->
  numeric_or_nan (row_get c r).
Proof.
  intros Hcols Hc Hhas Hin.
  destruct (numeric_not_service c Hc) as [Hs [Hch Hsc]].
  destruct (standardize_from_canonical parse_number float_str container_str df r Hin)
    as [r0 [_ [_ Hcells]]].
  rewrite (Hcells c Hch Hsc), (collapsed_other _ c _ Hs).
  rewrite row_get_prepare by exact Hcols.
  rewrite (proj2 (mem_In c numeric_columns) Hc), Hhas. cbn [andb].
  apply to_numeric_numeric.
Qed.

End NumericColumns.

(** X3. After normalisation each of MonthlyCharges, TotalCharges and
    tenure that the table has holds, in every row, a number or [nan]: text
    that does not read as a number has become [nan], and no later step has
    touched the column.  (Column labels distinct once renamed.) *)
Theorem standardized_numeric_columns
        (parse_number : string -> option Q) (float_str : Q -> string)
        (container_str : json -> string) (df : DataFrame) (c : string) :
  NoDup (names (canonical df)) ->
  In c numeric_columns ->
  has_column c (standardize_columns parse_number float_str container_str df) = true ->
  Forall (fun r => numeric_or_nan (row_get c r))
         (rows (standardize_columns parse_number float_str container_str df)).
Proof.
  intros Hcols Hc Hhas.
  rewrite (has_column_names c _ _
             (standardize_names parse_number float_str container_str df)) in Hhas.
  apply Forall_forall. intros r Hin.
  exact (standardize_numeric_cell parse_number float_str container_str df c r
           Hcols Hc Hhas Hin).
Qed.

Lemma standardized_numeric_columns_witness :
  Forall (fun r => numeric_or_nan (row_get "tenure" r))
         (rows (standardize_columns Sample.parse_number Sample.float_str
                                    Sample.container_str (to_dataframe charges_as_text))).
Proof.
  assert (Hn : NoDup (names (canonical (to_dataframe charges_as_text))))
    by distinct_by_computation.
  assert (Hc : In "tenure" numeric_columns) by (right; right; left; reflexivity).
  assert (Hh : has_column "tenure"
                 (standardize_columns Sample.parse_number Sample.float_str
                    Sample.container_str (to_dataframe charges_as_text)) = true)
    by (vm_compute; reflexivity).
  exact (standardized_numeric_columns Sample.parse_number Sample.float_str
           Sample.container_str (to_dataframe charges_as_text) "tenure" Hn Hc Hh).
Defined.

Example charges_as_text_cleaned :
  map (fun r => (row_get "tenure" r, row_get "TotalCharges" r,
                 row_get "AverageMonthlyCharge" r))
      (rows (df_clean charges_run))
  = [ (Py (JFloat 12), Py (JFloat 60), Py (JFloat (60 / 12)));
      (Py (JFloat 0), Py (JFloat 50), NaN);
      (NaN, NaN, NaN) ]%Q.
Proof. vm_compute. reflexivity. Qed.

Lemma with_average_cells (r : Row) :
  row_get "tenure" (with_average r) = row_get "tenure" r
  /\ row_get "TotalCharges" (with_average r) = row_get "TotalCharges" r
  /\ row_get "AverageMonthlyCharge" (with_average r)
     = average_monthly (row_get "tenure" r) (row_get "TotalCharges" r).
Proof.
  unfold with_average. rewrite !row_get_set. cbn. auto.
Qed.



(** ** Rows *)

Lemma subseq_refl (A : Type) (l : list A) : subseq l l.
Proof. induction l; constructor; assumption. Qed.

Lemma subseq_filter (A : Type) (p : A -> bool) (l : list A) : subseq (filter p l) l.
Proof.
  induction l as [|x l IH]; simpl; [constructor|].
  destruct (p x); constructor; exact IH.
Qed.

Lemma subseq_map (A B : Type) (f : A -> B) (l1 l2 : list A) :
  subseq l1 l2 -> subseq (map f l1) (map f l2).
Proof. induction 1; simpl; constructor; assumption. Qed.

Lemma subseq_trans (A : Type) (l2 l3 : list A) :
  subseq l2 l3 -> forall l1, subseq l1 l2 -> subseq l1 l3.
Proof.
  induction 1 as [|x l2 l3 H IH|x l2 l3 H IH]; intros l1 H1.
  - exact H1.
  - constructor. apply IH. exact H1.
  - inversion H1; subst.
    + constructor. apply IH. assumption.
    + apply subseq_keep. apply IH. assumption.
Qed.

Lemma subseq_length (A : Type) (l1 l2 : list A) :
  subseq l1 l2 -> length l1 <= length l2.
Proof. induction 1; simpl; lia. Qed.

Lemma subseq_In (A : Type) (l1 l2 : list A) (x : A) :
  subseq l1 l2 -> In x l1 -> In x l2.
Proof.
  induction 1 as [|y l1 l2 H IH|y l1 l2 H IH]; simpl; [tauto | auto |].
  intros [E|Hin]; auto.
Qed.

Lemma subseq_keep_first (c : string) (l : list Row) :
  forall seen, subseq (keep_first c seen l) l.
Proof.
  induction l as [|r l IH]; intros seen; simpl; [constructor|].
  destruct (existsb (same_key (row_get c r)) seen); constructor; apply IH.
Qed.

Section Rows.
Variable parse_number : string -> option Q.
Variable float_str : Q -> string.
Variable container_str : json -> string.

Local Abbreviation standardize' := (standardize_columns parse_number float_str container_str).
Local Abbreviation before_churn' := (before_churn parse_number float_str container_str).
Local Abbreviation valid_outcome' := (valid_outcome parse_number float_str container_str).
Local Abbreviation before_dedup' := (before_dedup parse_number float_str container_str).

Lemma before_dedup_row_labels (df : DataFrame) :
  map label (rows (before_dedup' df)) = map label (rows (valid_outcome' df)).
Proof.
  rewrite before_dedup_rows, map_map.
  apply map_ext. intros r. apply label_finish.
Qed.

Lemma valid_outcome_subseq (df : DataFrame) :
  subseq (map label (rows (valid_outcome' df))) (map label (rows df)).
Proof.
  rewrite valid_outcome_rows_eq.
  destruct (has_column "Churn" (canonical df)).
  - rewrite <- (before_churn_labels parse_number float_str container_str df).
    eapply subseq_trans; [|apply subseq_map, subseq_filter].
    rewrite map_map.
    rewrite (map_ext _ label) by (intros r; reflexivity).
    apply subseq_refl.
  - rewrite before_churn_labels. apply subseq_refl.
Qed.

Lemma standardize_subseq (df : DataFrame) :
  subseq (map label (rows (standardize' df))) (map label (rows df)).
Proof.
  apply subseq_trans with (l2 := map label (rows (before_dedup' df))).
  - rewrite before_dedup_row_labels. apply valid_outcome_subseq.
  - rewrite standardize_stages. unfold drop_duplicate_ids.
    destruct (has_column "customerID" (before_dedup' df)).
    + apply subseq_map. unfold drop_duplicates. cbn [rows]. apply subseq_keep_first.
    + apply subseq_refl.
Qed.

Lemma standardize_keeps_all (df : DataFrame) :
  has_column "Churn" (canonical df) = false ->
  has_column "customerID" (canonical df) = false ->
  map label (rows (standardize' df)) = map label (rows df).
Proof.
  intros Hc Hid.
  rewrite (standardize_rows_no_id parse_number float_str container_str df Hid).
  rewrite before_dedup_row_labels, valid_outcome_rows_eq, Hc.
  apply before_churn_labels.
Qed.

End Rows.

(** X5. Normalisation only removes rows: the row labels of the result are
    row labels of the input, in the input's order, so the result is never
    longer than the input; and a table with neither a Churn nor a
    customerID column keeps every row.  (Column labels distinct once
    renamed.) *)
Theorem standardize_columns_rows
        (parse_number : string -> option Q) (float_str : Q -> string)
        (container_str : json -> string) (df : DataFrame) :
  NoDup (names (canonical df)) ->
  subseq (map label (rows (standardize_columns parse_number float_str container_str df)))
         (map label (rows df))
  /\ len (standardize_columns parse_number float_str container_str df) <= len df
  /\ (has_column "Churn" (canonical df) = false ->
      has_column "customerID" (canonical df) = false ->
      map label (rows (standardize_columns parse_number float_str container_str df))
      = map label (rows df)).
Proof.
  intros _.
  pose proof (standardize_subseq parse_number float_str container_str df) as H.
  split; [exact H|]. split.
  - apply subseq_length in H. rewrite !length_map in H. exact H.
  - apply standardize_keeps_all.
Qed.

Lemma standardize_columns_rows_witness :
  map label (rows (standardize_columns Sample.parse_number Sample.float_str
                                       Sample.container_str (to_dataframe plain_table)))
  = map label (rows (to_dataframe plain_table)).
Proof.
  assert (Hn : NoDup (names (canonical (to_dataframe plain_table))))
    by distinct_by_computation.
  apply (proj2 (proj2 (standardize_columns_rows Sample.parse_number Sample.float_str
                         Sample.container_str (to_dataframe plain_table) Hn)));
    vm_compute; reflexivity.
Defined.

(** ** One row per identifier *)

Lemma keep_first_complete (c : string) (l : list Row) :
  forall seen r,
    In r l ->
    In (key_of (row_get c r)) (map key_of seen)
    \/ exists r', In r' (keep_first c seen l)
                  /\ key_of (row_get c r') = key_of (row_get c r).
Proof.
  induction l as [|a l IH]; intros seen r Hin; simpl in *.
  - contradiction.
  - destruct (existsb (same_key (row_get c a)) seen) eqn:E.
    + destruct Hin as [<-|Hin].
      * left. apply seen_In. exact E.
      * apply IH. exact Hin.
    + destruct Hin as [<-|Hin].
      * right. exists a. split; [left; reflexivity | reflexivity].
      * destruct (IH (row_get c a :: seen) r Hin) as [[Hk|Hs] | [r' [Hr' Hk]]].
        -- right. exists a. split; [left; reflexivity | exact Hk].
        -- left. exact Hs.
        -- right. exists r'. split; [right; exact Hr' | exact Hk].
Qed.

Lemma distinct_unique (A B : Type) (f : A -> B) (l : list A) (a b : A) :
  ForallOrdPairs (fun x y => f x <> f y) l ->
  In a l -> In b l -> f a = f b -> a = b.
Proof.
  induction 1 as [|x l Hx Hl IH]; simpl.
  - contradiction.
  - intros [->|Ha] [->|Hb] E.
    + reflexivity.
    + exfalso. exact (proj1 (Forall_forall _ _) Hx b Hb E).
    + exfalso. exact (proj1 (Forall_forall _ _) Hx a Ha (eq_sym E)).
    + apply IH; assumption.
Qed.

(** X6. The deduplication loses no customer: every identifier among the
    rows that reach it is the identifier of exactly one row of the
    normalised table.  (Column labels distinct once renamed.) *)
Theorem one_row_per_identifier
        (parse_number : string -> option Q) (float_str : Q -> string)
        (container_str : json -> string) (df : DataFrame) (r : Row) :
  NoDup (names (canonical df)) ->
  has_column "customerID" (canonical df) = true ->
  In r (rows (before_dedup parse_number float_str container_str df)) ->
  exists r',
    In r' (rows (standardize_columns parse_number float_str container_str df))
    /\ id_of r' = id_of r
    /\ forall r'',
         In r'' (rows (standardize_columns parse_number float_str container_str df)) ->
         id_of r'' = id_of r -> r'' = r'.
Proof.
  intros _ Hc Hin.
  rewrite (standardize_rows_dedup parse_number float_str container_str df Hc).
  unfold drop_duplicates. cbn [rows].
  destruct (keep_first_complete "customerID" _ [] r Hin) as [[] | [r' [Hr' Hk]]].
  exists r'. split; [exact Hr'|]. split; [exact Hk|].
  intros r'' Hr'' Hk''.
  apply (distinct_unique Row cell id_of
           (keep_first "customerID" []
              (rows (before_dedup parse_number float_str container_str df)))
           r'' r'
           (keep_first_distinct "customerID"
              (rows (before_dedup parse_number float_str container_str df)) [])).
  - exact Hr''.
  - exact Hr'.
  - rewrite Hk''. symmetry. exact Hk.
Qed.

Lemma one_row_per_identifier_witness :
  exists r',
    In r' (rows (standardize_columns Sample.parse_number Sample.float_str
                                     Sample.container_str (to_dataframe shared_id)))
    /\ id_of r' = Py (JStr "A1").
Proof.
  assert (Hc : has_column "customerID" (canonical (to_dataframe shared_id)) = true)
    by (vm_compute; reflexivity).
  assert (Hin : In (mkRow 1 [("customerID", Py (JStr "A1")); ("Churn", Py (JStr "No"))])
                   (rows (before_dedup Sample.parse_number Sample.float_str
                                       Sample.container_str (to_dataframe shared_id))))
    by (vm_compute; right; left; reflexivity).
  assert (Hn : NoDup (names (canonical (to_dataframe shared_id))))
    by distinct_by_computation.
  destruct (one_row_per_identifier Sample.parse_number Sample.float_str
              Sample.container_str (to_dataframe shared_id) _ Hn Hc Hin)
    as [r' [Hr' [Hk _]]].
  exists r'. split; [exact Hr' | exact Hk].
Defined.

(** ** Rates *)

Lemma count_true_le (l : list bool) : count_true l <= length l.
Proof. unfold count_true. apply filter_length_le. Qed.

Lemma pct_percentage (mask : list bool) :
  mask <> [] -> percentage (pct mask).
Proof.
  intros Hne. unfold percentage, pct, mean.
  destruct mask as [|b mask]; [congruence|].
  eexists. split; [reflexivity|].
  pose proof (count_true_le (b :: mask)) as Hle.
  assert (Hn : length (b :: mask) <> 0) by (simpl; discriminate).
  unfold Qle, Qmult. cbn [Qnum Qden].
  rewrite Pos2Z.inj_mul, (Zpos_of_nat _ Hn).
  split; lia.
Qed.

Lemma pct_range (mask : list bool) (q : Q) :
  pct mask = Some q -> (0 <= q)%Q /\ (q <= 100)%Q.
Proof.
  intros E. destruct mask as [|b mask]; [discriminate|].
  destruct (pct_percentage (b :: mask)) as [q' [E' H]]; [discriminate|].
  rewrite E in E'. injection E' as ->. exact H.
Qed.

Lemma insert_key_In (k x : cell) (l : list cell) :
  In x (insert_key k l) -> x = k \/ In x l.
Proof.
  induction l as [|h t IH]; simpl.
  - intros [<-|[]]. left. reflexivity.
  - destruct (key_leb k h); simpl.
    + intros [<-|H]; auto.
    + intros [<-|H]; [right; left; reflexivity|].
      destruct (IH H); auto.
Qed.

Lemma sort_keys_In (x : cell) (l : list cell) : In x (sort_keys l) -> In x l.
Proof.
  induction l as [|h t IH]; simpl; [tauto|].
  intros H. apply insert_key_In in H. destruct H as [->|H]; auto.
Qed.

Lemma unique_keys_In (x : cell) (l : list cell) :
  forall seen, In x (unique_keys seen l) -> In x l.
Proof.
  induction l as [|h t IH]; intros seen; simpl; [tauto|].
  destruct (existsb (same_key h) seen); simpl.
  - intros H. right. exact (IH _ H).
  - intros [<-|H]; [left; reflexivity | right; exact (IH _ H)].
Qed.

Lemma same_key_refl (x : cell) : same_key x x = true.
Proof. apply same_key_eq. reflexivity. Qed.

(** Every group of [groupby] has a row. *)
Lemma groupby_nonempty (by_col : string) (df : DataFrame) :
  Forall (fun g => snd g <> []) (groupby by_col df).
Proof.
  unfold groupby. apply Forall_map, Forall_forall. intros k Hk. cbn [snd].
  apply sort_keys_In, unique_keys_In, filter_In in Hk. destruct Hk as [Hk _].
  unfold column in Hk. apply in_map_iff in Hk. destruct Hk as [r [<- Hr]].
  intros E.
  assert (Hin : In r (filter (fun r' => same_key (row_get by_col r') (row_get by_col r))
                             (rows df))).
  { apply filter_In. split; [exact Hr | apply same_key_refl]. }
  rewrite E in Hin. exact Hin.
Qed.

Lemma dict_set_values (V : Type) (P : V -> Prop) (k : string) (v : V) (d : pydict V) :
  Forall (fun e => P (snd e)) d -> P v -> Forall (fun e => P (snd e)) (dict_set k v d).
Proof.
  intros Hd Hv. induction Hd as [|[k0 v0] d H0 Hd IH]; simpl.
  - constructor; [exact Hv | constructor].
  - destruct (String.eqb k k0); constructor; try assumption.
Qed.

Lemma for_each_invariant (A B : Type) (step : B -> A -> result B) (I : B -> Prop)
      (l : list A) :
  (forall o x o', I o -> step o x = Ok o' -> I o') ->
  forall out out', I out -> for_each step l out = Ok out' -> I out'.
Proof.
  intros Hstep. induction l as [|x l IH]; intros out out' Hout; simpl.
  - intros E. apply Ok_inj in E. subst. exact Hout.
  - destruct (step out x) as [o|e] eqn:E; simpl; [|discriminate].
    apply IH. exact (Hstep _ _ _ Hout E).
Qed.

Lemma rate_step_percentages (df : DataFrame) (out out' : pydict (list (cell * option Q)))
      (cat : string) :
  Forall (fun e => Forall (fun kv => percentage (snd kv)) (snd e)) out ->
  rate_step df out cat = Ok out' ->
  Forall (fun e => Forall (fun kv => percentage (snd kv)) (snd e)) out'.
Proof.
  intros Hout. unfold rate_step, groupby_column.
  destruct (has_column cat df); [|intros E; apply Ok_inj in E; subst; exact Hout].
  cbn [negb]. destruct (has_column "Churn" df); cbn [negb bind]; [|discriminate].
  intros E. apply Ok_inj in E. subst out'.
  apply (dict_set_values _ (fun t => Forall (fun kv => percentage (snd kv)) t)).
  - exact Hout.
  - rewrite map_map. apply Forall_map. cbn [snd fst].
    eapply Forall_impl; [|apply (groupby_nonempty cat df)].
    intros g Hg. apply pct_percentage. intros E. apply Hg.
    destruct (snd g); [reflexivity | discriminate E].
Qed.

(** X7. Every rate the aggregation returns is a percentage: each group of
    each category table has a defined rate between 0 and 100 (no group is
    empty), and so has the overall rate whenever it is defined. *)
Theorem rates_are_percentages (D : Type) (describe : list cell -> D)
        (df : DataFrame) (st : Stats D) :
  eda_and_plots describe df = Ok st ->
  Forall (fun table => Forall (fun kv => percentage (snd kv)) (snd table))
         (rate_tables st)
  /\ (forall q, overall_churn_rate_pct st = Some q -> (0 <= q)%Q /\ (q <= 100)%Q).
Proof.
  intros E. split.
  - unfold eda_and_plots in E. cbv zeta in E.
    destruct (for_each (rate_step df) rate_categories []) as [r|e] eqn:Er;
      cbn [bind] in E; [|discriminate].
    destruct (for_each (describe_step describe df) describe_columns []) as [d|e];
      cbn [bind] in E; [|discriminate].
    apply Ok_inj in E. rewrite <- E. cbn [rate_tables].
    apply (for_each_invariant _ _ (rate_step df)
             (fun o => Forall (fun e => Forall (fun kv => percentage (snd kv)) (snd e)) o)
             rate_categories) with (out := []).
    + intros o x o'. apply rate_step_percentages.
    + constructor.
    + exact Er.
  - intros q Hq. rewrite (eda_overall D describe df st E) in Hq.
    unfold churn_rate in Hq. destruct (negb (has_column "Churn" df)); [discriminate|].
    exact (pct_range _ q Hq).
Qed.

Lemma rates_are_percentages_witness :
  Forall (fun table => Forall (fun kv => percentage (snd kv)) (snd table))
         (rate_tables (stats contracts_run)).
Proof.
  assert (E : eda_and_plots Sample.describe (df_clean contracts_run)
              = Ok (stats contracts_run)) by (vm_compute; reflexivity).
  exact (proj1 (rates_are_percentages nat Sample.describe (df_clean contracts_run)
                  (stats contracts_run) E)).
Defined.

Example contracts_rates :
  rate_tables (stats contracts_run)
  = [ ("rate_contract",
       [ (Py (JStr "Annual"), Some ((0 # 1) * 100)%Q);
         (Py (JStr "Monthly"), Some ((2 # 3) * 100)%Q) ]) ].
Proof. vm_compute. reflexivity. Qed.

(** ** When the aggregation succeeds *)

Lemma all_absent_or_one_present (p : string -> bool) (l : list string) :
  Forall (fun c => p c = false) l \/ Exists (fun c => p c = true) l.
Proof.
  induction l as [|c l [IH|IH]].
  - left. constructor.
  - destruct (p c) eqn:E.
    + right. apply Exists_cons_hd. exact E.
    + left. constructor; assumption.
  - right. apply Exists_cons_tl. exact IH.
Qed.

Lemma plot_files_without_churn (df : DataFrame) :
  has_column "Churn" df = false -> plot_files df = [].
Proof.
  intros H. unfold plot_files, has_all. cbn [forallb]. rewrite H.
  rewrite !andb_false_r. reflexivity.
Qed.

Lemma describes_skip (D : Type) (describe : list cell -> D) (df : DataFrame) out :
  Forall (fun c => has_column c df = false) describe_columns ->
  for_each (describe_step describe df) describe_columns out = Ok out.
Proof.
  apply for_each_absent with (present := fun c => has_column c df).
  intros o x Hx. unfold describe_step. rewrite Hx. reflexivity.
Qed.

(** X8. On a table without a Churn column the aggregation succeeds
    exactly when the table has none of the six rate categories and none of
    the four described columns, and then it returns nothing: no rate, no
    table, no chart (no chart is asked for without Churn). *)
Theorem aggregation_succeeds_iff (D : Type) (describe : list cell -> D)
        (df : DataFrame) :
  has_column "Churn" df = false ->
  ((exists st, eda_and_plots describe df = Ok st)
   <-> Forall (fun c => has_column c df = false) rate_categories
       /\ Forall (fun c => has_column c df = false) describe_columns)
  /\ (forall st, eda_and_plots describe df = Ok st -> st = mkStats None [] [] []).
Proof.
  intros H.
  assert (Hok : Forall (fun c => has_column c df = false) rate_categories ->
                Forall (fun c => has_column c df = false) describe_columns ->
                eda_and_plots describe df = Ok (mkStats None [] [] [])).
  { intros Hr Hd. unfold eda_and_plots. cbv zeta.
    rewrite (rates_skip df [] Hr). cbn [bind].
    rewrite (describes_skip D describe df [] Hd). cbn [bind].
    rewrite (churn_rate_absent df H), (plot_files_without_churn df H). reflexivity. }
  assert (Hiff : (exists st, eda_and_plots describe df = Ok st) ->
                 Forall (fun c => has_column c df = false) rate_categories
                 /\ Forall (fun c => has_column c df = false) describe_columns).
  { intros [st E].
    destruct (all_absent_or_one_present (fun c => has_column c df) rate_categories)
      as [Hr|Hr].
    - split; [exact Hr|].
      destruct (all_absent_or_one_present (fun c => has_column c df) describe_columns)
        as [Hd|Hd]; [exact Hd|].
      exfalso. unfold eda_and_plots in E. cbv zeta in E.
      rewrite (rates_skip df [] Hr) in E. cbn [bind] in E.
      rewrite (describes_raise D describe df [] H Hd) in E. discriminate.
    - exfalso. unfold eda_and_plots in E. cbv zeta in E.
      rewrite (rates_raise df [] H Hr) in E. discriminate. }
  split.
  - split; [exact Hiff|]. intros [Hr Hd]. eexists. exact (Hok Hr Hd).
  - intros st E. destruct (Hiff (ex_intro _ st E)) as [Hr Hd].
    rewrite (Hok Hr Hd) in E. apply Ok_inj in E. symmetry. exact E.
Qed.

Lemma aggregation_succeeds_iff_witness :
  (exists st, eda_and_plots Sample.describe tenure_zero = Ok st)
  <-> Forall (fun c => has_column c tenure_zero = false) rate_categories
      /\ Forall (fun c => has_column c tenure_zero = false) describe_columns.
Proof.
  assert (Hc : has_column "Churn" tenure_zero = false) by reflexivity.
  exact (proj1 (aggregation_succeeds_iff nat Sample.describe tenure_zero Hc)).
Defined.

(** ** Cells of the loaded table *)

Lemma dict_get_tabulate (V : Type) (G : string -> V) (keys : list string) (c : string) :
  dict_get c (map (fun k => (k, G k)) keys) = if mem c keys then Some (G c) else None.
Proof.
  induction keys as [|k keys IH].
  - reflexivity.
  - cbn [map dict_get]. rewrite mem_cons.
    destruct (String.eqb_spec c k) as [->|Hne]; [reflexivity | exact IH].
Qed.

Lemma build_rows_nth (cols : list (string * dtype)) (records : list (pydict json)) :
  forall k i,
    nth_error (Pandas.build_rows cols k records) i
    = option_map (Pandas.build_row cols (k + i)) (nth_error records i).
Proof.
  induction records as [|r records IH]; intros k i.
  - destruct i; reflexivity.
  - destruct i as [|i]; simpl.
    + rewrite Nat.add_0_r. reflexivity.
    + rewrite IH. rewrite Nat.add_succ_r. reflexivity.
Qed.

Lemma row_get_build_row (records : list (pydict json)) (i : nat) (rec : pydict json)
      (c : string) :
  row_get c (Pandas.build_row (Pandas.typed_columns records) i rec)
  = if mem c (Pandas.union_keys records)
    then Pandas.box (Pandas.infer_dtype (map (dict_get c) records)) (dict_get c rec)
    else NaN.
Proof.
  unfold row_get, Pandas.build_row, Pandas.typed_columns. cbn [cells].
  rewrite map_map. cbn [fst snd].
  rewrite (dict_get_tabulate _
             (fun k => Pandas.box (Pandas.infer_dtype (map (dict_get k) records))
                                  (dict_get k rec))).
  destruct (mem c (Pandas.union_keys records)); reflexivity.
Qed.

Lemma box_values (d : dtype) :
  Pandas.box d None = NaN
  /\ (forall s, Pandas.box d (Some (JStr s)) = Py (JStr s))
  /\ (forall b, Pandas.box d (Some (JBool b)) = Py (JBool b))
  /\ (forall q, Pandas.box d (Some (JFloat q)) = Py (JFloat q))
  /\ (forall z, num_of (Pandas.box d (Some (JInt z))) = Some (inject_Z z))
  /\ (forall l, Pandas.box d (Some (JArr l)) = Py (JArr l)).
Proof. repeat split; intros; destruct d; reflexivity. Qed.

Lemma flat_record (fields : list (string * json)) :
  Forall (fun kv => is_dict (snd kv) = false) fields ->
  Pandas.simple_json_normalize "_" (JObj fields) = fields.
Proof.
  intros H. cbn [Pandas.simple_json_normalize].
  unfold Pandas.normalise_json_ordered. cbv zeta.
  assert (E : filter (fun kv => is_dict (snd kv)) fields = []
              /\ filter (fun kv => negb (is_dict (snd kv))) fields = fields).
  { induction H as [|kv l Hkv Hl [IH1 IH2]]; simpl; [split; reflexivity|].
    rewrite Hkv. cbn [negb]. rewrite IH2. split; [exact IH1 | reflexivity]. }
  destruct E as [E1 E2]. rewrite E1, E2. reflexivity.
Qed.

(** X9. Element [i] of an input array becomes row [i] of the table.  In a
    column of the table the row holds [nan] where the flattened element has
    no such key; a text, a boolean, a float or an array it has there is
    kept as it is, and an integer of magnitude at most 2^53 keeps its
    value.  A flat object is its own flattening.  (No element of the input
    array is itself an array.) *)
Theorem loaded_cells (data : list json) (i : nat) (o : json) :
  Forall (fun x => is_list x = false) data ->
  nth_error data i = Some o ->
  (exists r,
      nth_error (rows (to_dataframe (JArr data))) i = Some r
      /\ label r = i
      /\ forall c,
           In c (names (to_dataframe (JArr data))) ->
           (dict_get c (Pandas.simple_json_normalize "_" o) = None -> row_get c r = NaN)
           /\ (forall s, dict_get c (Pandas.simple_json_normalize "_" o) = Some (JStr s) ->
                         row_get c r = Py (JStr s))
           /\ (forall b, dict_get c (Pandas.simple_json_normalize "_" o) = Some (JBool b) ->
                         row_get c r = Py (JBool b))
           /\ (forall q, dict_get c (Pandas.simple_json_normalize "_" o) = Some (JFloat q) ->
                         row_get c r = Py (JFloat q))
           /\ (forall z, dict_get c (Pandas.simple_json_normalize "_" o) = Some (JInt z) ->
                         (Z.abs z <= 2 ^ 53)%Z ->
                         num_of (row_get c r) = Some (inject_Z z))
           /\ (forall l, dict_get c (Pandas.simple_json_normalize "_" o) = Some (JArr l) ->
                         row_get c r = Py (JArr l)))
  /\ (forall fields,
        o = JObj fields ->
        Forall (fun kv => is_dict (snd kv) = false) fields ->
        Pandas.simple_json_normalize "_" o = fields).
Proof.
  intros _ Hi. split; [|intros fields -> Hf; apply flat_record; exact Hf].
  cbn [to_dataframe]. unfold Pandas.json_normalize, Pandas.DataFrame_of_records.
  cbn [rows].
  set (records := map (Pandas.simple_json_normalize "_") data).
  exists (Pandas.build_row (Pandas.typed_columns records) i
            (Pandas.simple_json_normalize "_" o)).
  split; [|split].
  - rewrite build_rows_nth. unfold records. rewrite nth_error_map, Hi. reflexivity.
  - reflexivity.
  - intros c Hc.
    change (In c (names (Pandas.DataFrame_of_records records))) in Hc.
    rewrite names_of_records in Hc.
    rewrite row_get_build_row, (proj2 (mem_In c _) Hc).
    destruct (box_values (Pandas.infer_dtype (map (dict_get c) records)))
      as [B0 [B1 [B2 [B3 [B4 B5]]]]].
    repeat split; intros; match goal with H : dict_get _ _ = _ |- _ => rewrite H end; auto.
Qed.

Lemma loaded_cells_witness :
  exists r,
    nth_error (rows (to_dataframe outcomes)) 4 = Some r
    /\ label r = 4
    /\ row_get "Churn" r = NaN
    /\ row_get "Contract" r = Py (JStr "Two year").
Proof.
  destruct (proj1 (loaded_cells
                     [ JObj [ ("Churn", JStr "Yes") ];
                       JObj [ ("Churn", JStr "no") ];
                       JObj [ ("Churn", JStr "Unknown") ];
                       JObj [ ("Churn", JNull) ];
                       JObj [ ("Contract", JStr "Two year") ] ]
                     4 (JObj [ ("Contract", JStr "Two year") ])
                     ltac:(repeat constructor) eq_refl))
    as [r [Hr [Hl Hc]]].
  exists r. split; [exact Hr|]. split; [exact Hl|]. split.
  - apply (Hc "Churn"); [vm_compute; left; reflexivity | reflexivity].
  - apply (Hc "Contract"); [vm_compute; right; left; reflexivity | reflexivity].
Defined.

(** ** The feature step as an operation *)

Lemma dict_set_twice (V : Type) (k : string) (v : V) (d : pydict V) :
  dict_set k v (dict_set k v d) = dict_set k v d.
Proof.
  induction d as [|[k0 v0] d IH]; simpl.
  - rewrite String.eqb_refl. reflexivity.
  - destruct (String.eqb k k0) eqn:E; simpl; rewrite E; [reflexivity|].
    rewrite IH. reflexivity.
Qed.

Lemma with_average_twice (r : Row) : with_average (with_average r) = with_average r.
Proof.
  destruct (with_average_cells r) as [E1 [E2 _]].
  unfold with_average at 1. rewrite E1, E2.
  unfold with_average, row_set. cbn [label cells]. rewrite dict_set_twice. reflexivity.
Qed.

(** X10. [create_features] touches nothing but its own column: rows,
    their labels and every other column stay as they are, and applying it
    to its own result changes nothing.  (Column labels distinct, tenure
    and TotalCharges numeric, as [standardize_columns] leaves them.) *)
Theorem create_features_is_stable (df : DataFrame) :
  NoDup (names df) ->
  numeric_column "tenure" df ->
  numeric_column "TotalCharges" df ->
  create_features (create_features df) = create_features df
  /\ map label (rows (create_features df)) = map label (rows df)
  /\ len (create_features df) = len df
  /\ (forall c, c <> "AverageMonthlyCharge" ->
                column c (create_features df) = column c df
                /\ has_column c (create_features df) = has_column c df).
Proof.
  intros _ _ _.
  assert (Hlabels : map label (rows (create_features df)) = map label (rows df)).
  { unfold create_features. destruct (forallb _ _); [|reflexivity].
    unfold assign. cbn [rows]. rewrite map_map. reflexivity. }
  split; [|split; [exact Hlabels|split]].
  - destruct (has_column "TotalCharges" df) eqn:H1;
      [destruct (has_column "tenure" df) eqn:H2|].
    + rewrite (create_features_present df H1 H2).
      rewrite create_features_present
        by (rewrite has_column_assign; cbn [String.eqb Ascii.eqb Bool.eqb orb];
            assumption).
      unfold assign. cbn [columns rows]. rewrite dict_set_twice, map_map.
      f_equal. apply map_ext. intros r. apply with_average_twice.
    + rewrite (create_features_absent df (or_intror H2)).
      apply create_features_absent. right. exact H2.
    + rewrite (create_features_absent df (or_introl H1)).
      apply create_features_absent. left. exact H1.
  - unfold len. rewrite <- (length_map label), Hlabels. apply length_map.
  - intros c Hc. split.
    + apply column_create_features. exact Hc.
    + apply has_column_create_features. exact Hc.
Qed.

Lemma create_features_is_stable_witness :
  create_features (create_features tenure_zero) = create_features tenure_zero.
Proof.
  assert (Hn : NoDup (names tenure_zero)) by distinct_by_computation.
  assert (Ht : numeric_column "tenure" tenure_zero).
  { unfold numeric_column, tenure_zero. cbn [rows].
    repeat (apply Forall_cons; [right; eexists; reflexivity|]). apply Forall_nil. }
  assert (Hc : numeric_column "TotalCharges" tenure_zero).
  { unfold numeric_column, tenure_zero. cbn [rows].
    repeat (apply Forall_cons;
            [first [left; reflexivity | right; eexists; reflexivity]|]).
    apply Forall_nil. }
  exact (proj1 (create_features_is_stable tenure_zero Hn Ht Hc)).
Defined.

(** ** Letter case of the outcome *)

Ltac each_character c :=
  destruct c as [[] [] [] [] [] [] [] []].

Lemma upper_Y (c : ascii) :
  (PyStr.to_upper c = "Y"%char <-> PyStr.to_lower c = "y"%char)
  /\ (PyStr.to_lower c = "y"%char -> PyStr.is_cased c = true).
Proof.
  each_character c; vm_compute;
    (split; [split; intros H; first [reflexivity | discriminate H]
            | intros H; first [reflexivity | discriminate H]]).
Qed.

Lemma upper_N (c : ascii) :
  (PyStr.to_upper c = "N"%char <-> PyStr.to_lower c = "n"%char)
  /\ (PyStr.to_lower c = "n"%char -> PyStr.is_cased c = true).
Proof.
  each_character c; vm_compute;
    (split; [split; intros H; first [reflexivity | discriminate H]
            | intros H; first [reflexivity | discriminate H]]).
Qed.

Lemma lower_cased (c : ascii) :
  (PyStr.to_lower c = "e"%char -> PyStr.is_cased c = true)
  /\ (PyStr.to_lower c = "s"%char -> PyStr.is_cased c = true)
  /\ (PyStr.to_lower c = "o"%char -> PyStr.is_cased c = true).
Proof.
  each_character c; vm_compute;
    repeat split; intros H; first [reflexivity | discriminate H].
Qed.

Lemma title_yes (s : string) : PyStr.title s = "Yes" <-> PyStr.lower s = "yes".
Proof.
  unfold PyStr.title, PyStr.lower.
  destruct s as [|c0 [|c1 [|c2 [|c3 r]]]]; cbn [PyStr.title_from PyStr.map_chars];
    try (split; intros H; discriminate H).
  destruct (upper_Y c0) as [HY Hc0]. destruct (lower_cased c1) as [Hc1 _].
  split; intros H; injection H as H0 H1 H2.
  - apply HY in H0. rewrite (Hc0 H0) in H1. rewrite (Hc1 H1) in H2.
    rewrite H0, H1, H2. reflexivity.
  - rewrite (Hc0 H0), (Hc1 H1), (proj2 HY H0), H1, H2. reflexivity.
Qed.

Lemma title_no (s : string) : PyStr.title s = "No" <-> PyStr.lower s = "no".
Proof.
  unfold PyStr.title, PyStr.lower.
  destruct s as [|c0 [|c1 [|c2 r]]]; cbn [PyStr.title_from PyStr.map_chars];
    try (split; intros H; discriminate H).
  destruct (upper_N c0) as [HN Hc0].
  split; intros H; injection H as H0 H1.
  - apply HN in H0. rewrite (Hc0 H0) in H1. rewrite H0, H1. reflexivity.
  - rewrite (Hc0 H0), (proj2 HN H0), H1. reflexivity.
Qed.

(** X11. The outcome filter does not look at letter case: a Churn entry
    passes exactly when its text, lower-cased, is "yes" or "no"; in an
    object column, where the text has been trimmed first, exactly when the
    trimmed text is. *)
Theorem outcome_filter_ignores_case
        (float_str : Q -> string) (container_str : json -> string) (x : cell) :
  (isin ["Yes"; "No"] (title_cell float_str container_str x) = true
   <-> PyStr.lower (py_str float_str container_str x) = "yes"
       \/ PyStr.lower (py_str float_str container_str x) = "no")
  /\ (isin ["Yes"; "No"]
           (title_cell float_str container_str (strip_cell float_str container_str x))
      = true
      <-> PyStr.lower (PyStr.strip (py_str float_str container_str x)) = "yes"
          \/ PyStr.lower (PyStr.strip (py_str float_str container_str x)) = "no").
Proof.
  assert (G : forall s,
             isin ["Yes"; "No"] (Py (JStr (PyStr.title s))) = true
             <-> PyStr.lower s = "yes" \/ PyStr.lower s = "no").
  { intros s. rewrite isin_yes_no. unfold yes_or_no.
    rewrite <- title_yes, <- title_no.
    split; intros [H|H]; [left | right | left | right]; congruence. }
  split.
  - apply G.
  - apply (G (PyStr.strip (py_str float_str container_str x))).
Qed.

Example outcome_spellings :
  map (fun s => isin ["Yes"; "No"]
                     (title_cell Sample.float_str Sample.container_str
                        (strip_cell Sample.float_str Sample.container_str (Py (JStr s)))))
      ["YES"; " yes "; "yEs"; "no"; "N O"; "Yes."; "y"; "true"]
  = [true; true; true; true; false; false; false; false].
Proof. vm_compute. reflexivity. Qed.

(** ** What the later steps leave in their columns *)

Lemma placeholders_to_no (s s' : string) :
  dict_get s placeholders = Some s' -> s' = "No".
Proof.
  intros H. apply dict_get_In in H. unfold placeholders in H. simpl in H.
  repeat (destruct H as [H|H]; [injection H as _ <-; reflexivity|]). contradiction.
Qed.

Lemma replace_not_placeholder (x : cell) (p : string) :
  In p (dict_keys placeholders) -> replace placeholders x <> Py (JStr p).
Proof.
  intros Hp. destruct x as [|v]; [discriminate|].
  destruct v; try discriminate.
  unfold replace. destruct (dict_get s placeholders) as [s'|] eqn:E.
  - rewrite (placeholders_to_no s s' E). unfold text.
    unfold placeholders in Hp. simpl in Hp.
    intros H. injection H as <-.
    repeat (destruct Hp as [Hp|Hp]; [discriminate Hp|]). contradiction.
  - intros H. injection H as ->.
    apply dict_has_In in Hp. unfold dict_has in Hp. rewrite E in Hp. discriminate.
Qed.

Lemma service_not_outcome (c : string) :
  In c service_columns ->
  mem c service_columns = true /\ c <> "Churn" /\ c <> "SeniorCitizen".
Proof.
  intros H. split; [apply mem_In; exact H|].
  unfold service_columns in H. simpl in H.
  repeat (destruct H as [<-|H]; [split; discriminate|]). contradiction.
Qed.

(** X12. After normalisation no cell of a service-flag column holds one
    of the four placeholder texts.  (Column labels distinct once
    renamed.) *)
Theorem no_placeholder_left
        (parse_number : string -> option Q) (float_str : Q -> string)
        (container_str : json -> string) (df : DataFrame) (c p : string) (r : Row) :
  NoDup (names (canonical df)) ->
  In c service_columns ->
  has_column c (canonical df) = true ->
  In p (dict_keys placeholders) ->
  In r (rows (standardize_columns parse_number float_str container_str df)) ->
  row_get c r <> Py (JStr p).
Proof.
  intros _ Hc Hhas Hp Hin.
  destruct (service_not_outcome c Hc) as [Hm [Hch Hsc]].
  destruct (standardize_from_canonical parse_number float_str container_str df r Hin)
    as [r0 [_ [_ Hcells]]].
  rewrite (Hcells c Hch Hsc). unfold collapsed.
  rewrite Hm, (has_column_names c _ _
                 (valid_outcome_names parse_number float_str container_str df)), Hhas.
  cbn [andb]. apply replace_not_placeholder. exact Hp.
Qed.

Lemma no_placeholder_left_witness :
  Forall (fun r => row_get "MultipleLines" r <> Py (JStr "No phone service"))
         (rows (standardize_columns Sample.parse_number Sample.float_str
                                    Sample.container_str (to_dataframe services))).
Proof.
  apply Forall_forall. intros r Hin.
  apply (no_placeholder_left Sample.parse_number Sample.float_str Sample.container_str
           (to_dataframe services) "MultipleLines" "No phone service" r).
  - distinct_by_computation.
  - vm_compute. do 6 right. left. reflexivity.
  - vm_compute. reflexivity.
  - vm_compute. right. left. reflexivity.
  - exact Hin.
Defined.

Example services_collapsed :
  map (fun r => (row_get "OnlineBackup" r, row_get "MultipleLines" r,
                 row_get "SeniorCitizen" r))
      (rows (Sample.standardize (to_dataframe services)))
  = [ (Py (JStr "No"), Py (JStr "No"), Py (JStr "Yes"));
      (Py (JStr "Yes"), Py (JStr "No"), Py (JStr "No"));
      (Py (JStr "No"), Py (JStr "No"), Py (JStr "No")) ].
Proof. vm_compute. reflexivity. Qed.

Lemma yes_if_one_yes_or_no (parse_number : string -> option Q) (x : cell) :
  yes_or_no (yes_if_one parse_number x).
Proof.
  unfold yes_if_one, yes_or_no.
  destruct (equals_one (to_numeric parse_number x)); [left | right]; reflexivity.
Qed.

Lemma senior_cell_kind (parse_number : string -> option Q) (float_str : Q -> string)
      (container_str : json -> string) (t : DataFrame) :
  (forall x, yes_or_no (senior_cell parse_number float_str container_str t x))
  \/ (forall x, senior_cell parse_number float_str container_str t x
                = Py (JStr (PyStr.title (py_str float_str container_str x)))).
Proof.
  unfold senior_cell. destruct (gt _ _).
  - left. apply yes_if_one_yes_or_no.
  - right. reflexivity.
Qed.

(** X13. After normalisation the SeniorCitizen column is text throughout,
    and of one kind: either every row holds "Yes" or "No", or every row
    holds a title-cased text.  (Column labels distinct once renamed.) *)
Theorem senior_citizen_is_text
        (parse_number : string -> option Q) (float_str : Q -> string)
        (container_str : json -> string) (df : DataFrame) :
  NoDup (names (canonical df)) ->
  has_column "SeniorCitizen" (canonical df) = true ->
  Forall (fun r => yes_or_no (row_get "SeniorCitizen" r))
         (rows (standardize_columns parse_number float_str container_str df))
  \/ Forall (fun r => exists x, row_get "SeniorCitizen" r
                                = Py (JStr (PyStr.title (py_str float_str container_str x))))
            (rows (standardize_columns parse_number float_str container_str df)).
Proof.
  intros _ Hhas.
  assert (Ht : has_column "SeniorCitizen"
                 (valid_outcome parse_number float_str container_str df) = true).
  { rewrite (has_column_names "SeniorCitizen" _ _
               (valid_outcome_names parse_number float_str container_str df)).
    exact Hhas. }
  assert (Hrow : forall r,
             In r (rows (standardize_columns parse_number float_str container_str df)) ->
             exists x,
               row_get "SeniorCitizen" r
               = senior_cell parse_number float_str container_str
                   (collapse_placeholders
                      (valid_outcome parse_number float_str container_str df)) x).
  { intros r Hin.
    destruct (standardize_from_valid parse_number float_str container_str df r Hin)
      as [r1 [_ ->]].
    unfold finish. cbv zeta. rewrite Ht. unfold update_row.
    rewrite row_get_set, String.eqb_refl. eexists. reflexivity. }
  destruct (senior_cell_kind parse_number float_str container_str
              (collapse_placeholders
                 (valid_outcome parse_number float_str container_str df)))
    as [Hk|Hk].
  - left. apply Forall_forall. intros r Hin. destruct (Hrow r Hin) as [x ->].
    apply Hk.
  - right. apply Forall_forall. intros r Hin. destruct (Hrow r Hin) as [x ->].
    exists x. apply Hk.
Qed.

Lemma senior_citizen_is_text_witness :
  Forall (fun r => yes_or_no (row_get "SeniorCitizen" r))
         (rows (standardize_columns Sample.parse_number Sample.float_str
                                    Sample.container_str (to_dataframe services)))
  \/ Forall (fun r => exists x, row_get "SeniorCitizen" r
                                = Py (JStr (PyStr.title
                                              (py_str Sample.float_str
                                                      Sample.container_str x))))
            (rows (standardize_columns Sample.parse_number Sample.float_str
                                       Sample.container_str (to_dataframe services))).
Proof.
  apply (senior_citizen_is_text Sample.parse_number Sample.float_str
           Sample.container_str (to_dataframe services)).
  - distinct_by_computation.
  - vm_compute. reflexivity.
Defined.

(** ** The run as a composition *)

Lemma main_is_the_composition_eq
        (parse_number : string -> option Q) (float_str : Q -> string)
        (container_str : json -> string) (D : Type) (describe : list cell -> D)
        (raw : json) :
  main parse_number float_str container_str describe raw
  = (st <- eda_and_plots describe
             (create_features
                (standardize_columns parse_number float_str container_str
                                     (to_dataframe raw))) ;;
     Ok (mkRun (shape (to_dataframe raw))
               (create_features
                  (standardize_columns parse_number float_str container_str
                                       (to_dataframe raw)))
               0 st)).
Proof.
  unfold main, load_json. cbn [bind]. cbv zeta.
  pose proof (main_dedup_is_noop parse_number float_str container_str
                (to_dataframe raw)) as Hnoop.
  remember (standardize_columns parse_number float_str container_str (to_dataframe raw))
    as t eqn:Ht. clear Ht.
  destruct (has_column "customerID" t) eqn:H.
  - rewrite (Hnoop eq_refl), Nat.sub_diag. reflexivity.
  - reflexivity.
Qed.

(** X14. What a successful run returns is the stages in a row: the
    original shape is that of the loaded table, the cleaned table is the
    loaded table normalised and then given the feature column (the second
    deduplication in [main] changes nothing), the count of dropped
    duplicates is 0, and the statistics are those of the cleaned table.
    (No record of the input is itself an array; column labels of the
    loaded table distinct once renamed.) *)
Theorem main_is_the_composition
        (parse_number : string -> option Q) (float_str : Q -> string)
        (container_str : json -> string) (D : Type) (describe : list cell -> D)
        (raw : json) (run : Run D) :
  Forall (fun x => is_list x = false) (records raw) ->
  NoDup (names (canonical (to_dataframe raw))) ->
  main parse_number float_str container_str describe raw = Ok run ->
  original_shape run = shape (to_dataframe raw)
  /\ df_clean run
     = create_features
         (standardize_columns parse_number float_str container_str (to_dataframe raw))
  /\ dropped_dupes run = 0
  /\ eda_and_plots describe (df_clean run) = Ok (stats run).
Proof.
  intros _ _ Hrun.
  rewrite main_is_the_composition_eq in Hrun.
  remember (create_features
              (standardize_columns parse_number float_str container_str
                                   (to_dataframe raw))) as t eqn:Et.
  destruct (eda_and_plots describe t) as [st|e] eqn:E; cbn [bind] in Hrun;
    [|discriminate Hrun].
  apply Ok_inj in Hrun. subst run.
  cbn [original_shape df_clean dropped_dupes stats].
  split; [reflexivity|]. split; [reflexivity|]. split; [reflexivity|]. exact E.
Qed.

Lemma main_is_the_composition_witness :
  df_clean contracts_run
  = create_features (Sample.standardize (to_dataframe contracts))
  /\ dropped_dupes contracts_run = 0.
Proof.
  assert (Hr : Forall (fun x => is_list x = false) (records contracts))
    by (repeat constructor).
  assert (Hn : NoDup (names (canonical (to_dataframe contracts))))
    by distinct_by_computation.
  assert (Hrun : main Sample.parse_number Sample.float_str Sample.container_str
                      Sample.describe contracts = Ok contracts_run)
    by (vm_compute; reflexivity).
  destruct (main_is_the_composition Sample.parse_number Sample.float_str
              Sample.container_str nat Sample.describe contracts contracts_run
              Hr Hn Hrun) as [_ [Hc [Hd _]]].
  split; [exact Hc | exact Hd].
Defined.

Lemma standardize_empty_frame
      (parse_number : string -> option Q) (float_str : Q -> string)
      (container_str : json -> string) :
  standardize_columns parse_number float_str container_str empty_frame = empty_frame.
Proof. reflexivity. Qed.

(** X15. Input without records: a parsed value that is neither an array
    nor an object, and the empty array, give a run that succeeds with the
    empty table, a shape of 0 by 0, an unavailable overall rate, no tables
    and no charts. *)
Theorem empty_input_runs
        (parse_number : string -> option Q) (float_str : Q -> string)
        (container_str : json -> string) (D : Type) (describe : list cell -> D)
        (raw : json) :
  (is_dict raw = false /\ is_list raw = false) \/ raw = JArr [] ->
  main parse_number float_str container_str describe raw
  = Ok (mkRun (0, 0) empty_frame 0 (mkStats None [] [] [])).
Proof.
  intros H.
  assert (E : to_dataframe raw = empty_frame).
  { destruct H as [[Hd Hl] | ->]; [|reflexivity].
    destruct raw; try reflexivity; discriminate. }
  rewrite main_is_the_composition_eq, E, standardize_empty_frame. reflexivity.
Qed.

Lemma empty_input_runs_witness :
  Sample.run (JStr "not a table")
  = Ok (mkRun (0, 0) empty_frame 0 (mkStats None [] [] [])).
Proof.
  apply (empty_input_runs Sample.parse_number Sample.float_str Sample.container_str
           nat Sample.describe (JStr "not a table")).
  left. split; reflexivity.
Defined.

(** ** The rate function on any table *)

(** X16. [churn_rate] divides by the number of rows of the table it is
    given, rows with a missing or any other Churn entry included: it is 100
    times the number of "Yes" rows over the number of rows, a percentage
    whenever the table has a Churn column and a row, and [nan] when it has
    the column and no row.  (Column labels distinct.) *)
Theorem churn_rate_over_all_rows (subset : DataFrame) :
  NoDup (names subset) ->
  has_column "Churn" subset = true ->
  churn_rate subset = rate_of (count_outcome "Yes" subset) (len subset)
  /\ (rows subset <> [] -> percentage (churn_rate subset))
  /\ (rows subset = [] -> churn_rate subset = None).
Proof.
  intros _ H. unfold churn_rate. rewrite H. cbn [negb].
  split; [|split].
  - rewrite pct_rate_of. unfold count_outcome, len, column.
    rewrite !length_map. reflexivity.
  - intros Hne. apply pct_percentage. unfold column.
    destruct (rows subset); [congruence | discriminate].
  - intros E. unfold column. rewrite E. reflexivity.
Qed.

Lemma churn_rate_over_all_rows_witness :
  churn_rate outcome_missing = Some ((1 # 2) * 100)%Q
  /\ count_present outcome_missing = 1.
Proof.
  assert (Hn : NoDup (names outcome_missing)) by distinct_by_computation.
  destruct (churn_rate_over_all_rows outcome_missing Hn eq_refl) as [H _].
  rewrite H. split; reflexivity.
Defined.

(** ** Which tables the statistics hold *)

Lemma rate_step_keys (df : DataFrame) (o o' : pydict (list (cell * option Q)))
      (cat k : string) :
  rate_step df o cat = Ok o' ->
  dict_has k o' = (has_column cat df && String.eqb k (rate_key cat)) || dict_has k o.
Proof.
  unfold rate_step.
  destruct (has_column cat df).
  - destruct (groupby_column cat "Churn" df) as [g|e]; cbn [bind]; [|discriminate].
    intros E. apply Ok_inj in E. subst o'. rewrite dict_has_set. reflexivity.
  - intros E. apply Ok_inj in E. subst o'. reflexivity.
Qed.

Lemma describe_step_keys (D : Type) (describe : list cell -> D) (df : DataFrame)
      (o o' : pydict (list (cell * D))) (num k : string) :
  describe_step describe df o num = Ok o' ->
  dict_has k o' = (has_column num df && String.eqb k (describe_key num)) || dict_has k o.
Proof.
  unfold describe_step.
  destruct (has_column num df).
  - destruct (groupby_column "Churn" num df) as [g|e]; cbn [bind]; [|discriminate].
    intros E. apply Ok_inj in E. subst o'. rewrite dict_has_set. reflexivity.
  - intros E. apply Ok_inj in E. subst o'. reflexivity.
Qed.

Lemma for_each_keys (V : Type) (step : pydict V -> string -> result (pydict V))
      (present : string -> bool) (key : string -> string) (k : string) :
  (forall o o' x, step o x = Ok o' ->
                  dict_has k o' = (present x && String.eqb k (key x)) || dict_has k o) ->
  forall l out out',
    for_each step l out = Ok out' ->
    dict_has k out'
    = existsb (fun x => present x && String.eqb k (key x)) l || dict_has k out.
Proof.
  intros Hstep. induction l as [|x l IH]; intros out out'; simpl.
  - intros E. apply Ok_inj in E. subst. reflexivity.
  - destruct (step out x) as [o|e] eqn:E; simpl; [|discriminate].
    intros E'. rewrite (IH o out' E'), (Hstep out o x E).
    destruct (present x && String.eqb k (key x)); simpl;
      [rewrite orb_true_r; reflexivity | reflexivity].
Qed.

(** X17. The statistics of a successful aggregation hold a rate table for
    exactly those of the six categories that are columns of the table, and
    a table of descriptive statistics for exactly those of the four numeric
    columns that are. *)
Theorem tables_for_present_columns (D : Type) (describe : list cell -> D)
        (df : DataFrame) (st : Stats D) :
  eda_and_plots describe df = Ok st ->
  (forall cat, In cat rate_categories ->
               dict_has (rate_key cat) (rate_tables st) = has_column cat df)
  /\ (forall num, In num describe_columns ->
                  dict_has (describe_key num) (describe_tables st) = has_column num df).
Proof.
  intros E. unfold eda_and_plots in E. cbv zeta in E.
  destruct (for_each (rate_step df) rate_categories []) as [r|e] eqn:Er;
    cbn [bind] in E; [|discriminate].
  destruct (for_each (describe_step describe df) describe_columns []) as [d|e] eqn:Ed;
    cbn [bind] in E; [|discriminate].
  apply Ok_inj in E. rewrite <- E. cbn [rate_tables describe_tables]. split.
  - intros cat Hcat.
    rewrite (for_each_keys _ (rate_step df) (fun c => has_column c df) rate_key
               (rate_key cat) (fun o o' x => rate_step_keys df o o' x (rate_key cat))
               rate_categories [] r Er).
    unfold rate_categories in *. simpl in Hcat.
    repeat (destruct Hcat as [<-|Hcat];
            [simpl; rewrite ?andb_false_r, ?andb_true_r, ?orb_false_r; reflexivity|]).
    contradiction.
  - intros num Hnum.
    rewrite (for_each_keys _ (describe_step describe df) (fun c => has_column c df)
               describe_key (describe_key num)
               (fun o o' x => describe_step_keys D describe df o o' x (describe_key num))
               describe_columns [] d Ed).
    unfold describe_columns in *. simpl in Hnum.
    repeat (destruct Hnum as [<-|Hnum];
            [simpl; rewrite ?andb_false_r, ?andb_true_r, ?orb_false_r; reflexivity|]).
    contradiction.
Qed.

Lemma tables_for_present_columns_witness :
  dict_has (rate_key "Contract") (rate_tables (stats contracts_run)) = true
  /\ dict_has (rate_key "Partner") (rate_tables (stats contracts_run)) = false.
Proof.
  assert (E : eda_and_plots Sample.describe (df_clean contracts_run)
              = Ok (stats contracts_run)) by (vm_compute; reflexivity).
  destruct (tables_for_present_columns nat Sample.describe (df_clean contracts_run)
              (stats contracts_run) E) as [H _].
  split.
  - rewrite (H "Contract") by (left; reflexivity). vm_compute. reflexivity.
  - rewrite (H "Partner") by (do 4 right; left; reflexivity). vm_compute. reflexivity.
Defined.

(** ** Charts *)

(** X18. Charts are asked for only when Churn is a column: without it the
    list is empty, with it the distribution chart comes first; each of the
    four other charts is asked for exactly when its own column is there
    too, and never more than five are. *)
Theorem charts_need_churn (df : DataFrame) :
  (has_column "Churn" df = false -> plot_files df = [])
  /\ (has_column "Churn" df = true ->
      exists rest, plot_files df = "plot_churn_distribuicao.png" :: rest)
  /\ (In "plot_churn_por_contrato.png" (plot_files df)
      <-> has_column "Contract" df = true /\ has_column "Churn" df = true)
  /\ (In "plot_churn_por_pagamento.png" (plot_files df)
      <-> has_column "PaymentMethod" df = true /\ has_column "Churn" df = true)
  /\ (In "plot_churn_por_internet.png" (plot_files df)
      <-> has_column "InternetService" df = true /\ has_column "Churn" df = true)
  /\ (In "plot_monthlycharges_por_churn.png" (plot_files df)
      <-> has_column "MonthlyCharges" df = true /\ has_column "Churn" df = true)
  /\ length (plot_files df) <= 5.
Proof.
  split; [apply plot_files_without_churn|].
  unfold plot_files, has_all. cbn [forallb].
  destruct (has_column "Churn" df), (has_column "Contract" df),
    (has_column "PaymentMethod" df), (has_column "InternetService" df),
    (has_column "MonthlyCharges" df); cbn;
    (split; [intros H; first [discriminate H | eexists; reflexivity]|]);
    repeat split; intros; try lia;
    repeat match goal with
           | H : _ /\ _ |- _ => destruct H
           | H : _ \/ _ |- _ => destruct H
           | H : False |- _ => contradiction
           end;
    try discriminate; auto 10.
Qed.

(** ** Numeric text is trimmed before it is read *)

(** X19. In the normalised table a cell of MonthlyCharges, TotalCharges or
    tenure is what [pd.to_numeric] reads in the entry the row came with; in
    an object column, in its text with the surrounding blanks removed.
    (Column labels distinct once renamed.) *)
Theorem numeric_text_is_trimmed
        (parse_number : string -> option Q) (float_str : Q -> string)
        (container_str : json -> string) (df : DataFrame) (c : string) (r : Row) :
  NoDup (names (canonical df)) ->
  In c numeric_columns ->
  has_column c (canonical df) = true ->
  In r (rows (standardize_columns parse_number float_str container_str df)) ->
  exists r0,
    In r0 (rows (canonical df))
    /\ label r = label r0
    /\ row_get c r
       = to_numeric parse_number
           (if mem c (object_columns (canonical df))
            then Py (JStr (PyStr.strip (py_str float_str container_str (row_get c r0))))
            else row_get c r0).
Proof.
  intros Hcols Hc Hhas Hin.
  destruct (numeric_not_service c Hc) as [Hs [Hch Hsc]].
  destruct (standardize_from_canonical parse_number float_str container_str df r Hin)
    as [r0 [Hin0 [Hl Hcells]]].
  exists r0. split; [exact Hin0|]. split; [exact Hl|].
  rewrite (Hcells c Hch Hsc), (collapsed_other _ c _ Hs).
  rewrite row_get_prepare by exact Hcols.
  rewrite (proj2 (mem_In c numeric_columns) Hc), Hhas. cbn [andb].
  destruct (mem c (object_columns (canonical df))); reflexivity.
Qed.

Lemma numeric_text_is_trimmed_witness :
  exists r0,
    In r0 (rows (canonical (to_dataframe charges_as_text)))
    /\ label r0 = 0
    /\ Py (JFloat 60)
       = to_numeric Sample.parse_number
           (Py (JStr (PyStr.strip (py_str Sample.float_str Sample.container_str
                                          (row_get "TotalCharges" r0))))).
Proof.
  assert (Hn : NoDup (names (canonical (to_dataframe charges_as_text))))
    by distinct_by_computation.
  assert (Hc : In "TotalCharges" numeric_columns) by (right; left; reflexivity).
  assert (Hh : has_column "TotalCharges" (canonical (to_dataframe charges_as_text)) = true)
    by (vm_compute; reflexivity).
  assert (Hin : In (mkRow 0 [("tenure", Py (JFloat 12)); ("TotalCharges", Py (JFloat 60));
                             ("Churn", Py (JStr "Yes"))])
                   (rows (standardize_columns Sample.parse_number Sample.float_str
                            Sample.container_str (to_dataframe charges_as_text))))
    by (vm_compute; left; reflexivity).
  destruct (numeric_text_is_trimmed Sample.parse_number Sample.float_str
              Sample.container_str (to_dataframe charges_as_text) "TotalCharges" _
              Hn Hc Hh Hin) as [r0 [Hin0 [Hl Hcell]]].
  exists r0. split; [exact Hin0|]. split; [symmetry; exact Hl|].
  exact Hcell.
Defined.

(** ** The shape of the tables *)

Lemma add_new_NoDup (acc : list string) (k : string) :
  NoDup acc -> NoDup (Pandas.add_new acc k).
Proof.
  intros H. unfold Pandas.add_new.
  destruct (existsb (String.eqb k) acc) eqn:E; [exact H|].
  apply NoDup_app; [exact H | repeat constructor; simpl; tauto |].
  intros x Hx [<-|[]].
  assert (Hin : existsb (String.eqb k) acc = true).
  { apply existsb_exists. exists k. split; [exact Hx | apply String.eqb_refl]. }
  congruence.
Qed.

Lemma union_keys_NoDup (records : list (pydict json)) :
  NoDup (Pandas.union_keys records).
Proof.
  unfold Pandas.union_keys.
  assert (G : forall acc, NoDup acc ->
                NoDup (fold_left (fun acc r => fold_left Pandas.add_new (dict_keys r) acc)
                                 records acc)).
  { induction records as [|r records IH]; intros acc Hacc; simpl; [exact Hacc|].
    apply IH. clear IH. revert acc Hacc.
    induction (dict_keys r) as [|k ks IHk]; intros acc Hacc; simpl; [exact Hacc|].
    apply IHk. apply add_new_NoDup. exact Hacc. }
  apply G. constructor.
Qed.

Lemma build_rows_keys (cols : list (string * dtype)) (records : list (pydict json)) :
  forall i, Forall (fun r => dict_keys (cells r) = map fst cols)
                   (Pandas.build_rows cols i records).
Proof.
  induction records as [|rec records IH]; intros i; simpl; constructor.
  - unfold Pandas.build_row, dict_keys. cbn [cells]. rewrite map_map. reflexivity.
  - apply IH.
Qed.

Lemma json_normalize_shape (data : list json) :
  NoDup (names (Pandas.json_normalize data "_"))
  /\ rectangular (Pandas.json_normalize data "_")
  /\ map label (rows (Pandas.json_normalize data "_"))
     = seq 0 (len (Pandas.json_normalize data "_")).
Proof.
  split; [|split].
  - unfold Pandas.json_normalize. rewrite names_of_records. apply union_keys_NoDup.
  - unfold rectangular, Pandas.json_normalize, Pandas.DataFrame_of_records, names.
    cbn [rows columns]. apply build_rows_keys.
  - rewrite json_normalize_len. apply json_normalize_labels.
Qed.

Lemma loaded_table_shape (raw : json) :
  NoDup (names (to_dataframe raw))
  /\ rectangular (to_dataframe raw)
  /\ map label (rows (to_dataframe raw)) = seq 0 (len (to_dataframe raw)).
Proof.
  assert (E : NoDup (names empty_frame) /\ rectangular empty_frame
              /\ map label (rows empty_frame) = seq 0 (len empty_frame)).
  { split; [constructor | split; [constructor | reflexivity]]. }
  destruct raw; try exact E.
  - cbn [to_dataframe]. apply json_normalize_shape.
  - cbn [to_dataframe]. destruct (first_list_value fields); apply json_normalize_shape.
Qed.

(** X20. Every table the loader returns is well formed: its column labels
    are distinct, every row holds exactly the table's columns, and the rows
    are labelled 0, 1, ... in order. *)
Theorem loaded_table_is_well_formed (raw : json) :
  NoDup (names (to_dataframe raw))
  /\ rectangular (to_dataframe raw)
  /\ map label (rows (to_dataframe raw)) = seq 0 (len (to_dataframe raw)).
Proof. exact (loaded_table_shape raw). Qed.

Lemma keys_update_row (f : cell -> cell) (c : string) (r : Row) :
  In c (dict_keys (cells r)) ->
  dict_keys (cells (update_row f c r)) = dict_keys (cells r).
Proof.
  intros H. unfold update_row, row_set. cbn [cells].
  apply dict_keys_set_present. apply dict_has_In. exact H.
Qed.

Lemma keys_loop_row (f : cell -> cell) (g : string -> bool) (cols : list string) :
  forall r,
    (forall c, In c cols -> g c = true -> In c (dict_keys (cells r))) ->
    dict_keys (cells (loop_row f g cols r)) = dict_keys (cells r).
Proof.
  induction cols as [|a cols IH]; intros r H.
  - reflexivity.
  - unfold loop_row in *. cbn [fold_left].
    assert (E : dict_keys (cells (if g a then update_row f a r else r))
                = dict_keys (cells r)).
    { destruct (g a) eqn:Ha; [|reflexivity].
      apply keys_update_row. apply H; [left; reflexivity | exact Ha]. }
    rewrite IH; [exact E|].
    intros c Hc Hg. rewrite E. apply H; [right; exact Hc | exact Hg].
Qed.

Lemma rectangular_map (G : Row -> Row) (t t' : DataFrame) :
  rows t' = map G (rows t) ->
  names t' = names t ->
  (forall r, dict_keys (cells r) = names t -> dict_keys (cells (G r)) = dict_keys (cells r)) ->
  rectangular t -> rectangular t'.
Proof.
  unfold rectangular. intros Hrows Hnames HG Ht. rewrite Hrows, Hnames.
  apply Forall_map. eapply Forall_impl; [|exact Ht].
  intros r Hr. cbn beta. rewrite (HG r Hr). exact Hr.
Qed.

Lemma rectangular_incl (t t' : DataFrame) :
  (forall r, In r (rows t') -> In r (rows t)) ->
  names t' = names t ->
  rectangular t -> rectangular t'.
Proof.
  unfold rectangular. intros Hin Hnames Ht. rewrite Hnames.
  apply Forall_forall. intros r Hr.
  exact (proj1 (Forall_forall _ _) Ht r (Hin r Hr)).
Qed.

Lemma rectangular_rename (f : string -> string) (df : DataFrame) :
  rectangular df -> rectangular (rename_columns f df).
Proof.
  unfold rectangular. intros H. rewrite names_rename_columns.
  unfold rename_columns. cbn [rows]. apply Forall_map.
  eapply Forall_impl; [|exact H]. intros r Hr. cbn [cells].
  unfold dict_keys in *. rewrite map_map. cbn [fst].
  rewrite <- Hr, map_map. reflexivity.
Qed.

Lemma dict_keys_set_alike (V W : Type) (k : string) (v : V) (w : W) :
  forall (d : pydict V) (d' : pydict W),
    dict_keys d = dict_keys d' ->
    dict_keys (dict_set k v d) = dict_keys (dict_set k w d').
Proof.
  induction d as [|[k0 v0] d IH]; intros [|[k1 w1] d'] E; simpl in *;
    try discriminate; [reflexivity|].
  injection E as -> E.
  destruct (String.eqb k k1); simpl; [rewrite E; reflexivity|].
  rewrite (IH d' E). reflexivity.
Qed.

Lemma rectangular_create_features (t : DataFrame) :
  rectangular t -> rectangular (create_features t).
Proof.
  unfold create_features. destruct (forallb _ _); [|tauto].
  unfold rectangular, assign, names. cbn [rows columns].
  intros H. apply Forall_map. eapply Forall_impl; [|exact H].
  intros r Hr. unfold row_set. cbn [cells].
  apply dict_keys_set_alike. exact Hr.
Qed.

Section Rectangular.
Variable parse_number : string -> option Q.
Variable float_str : Q -> string.
Variable container_str : json -> string.

Lemma rectangular_canonical (df : DataFrame) :
  rectangular df -> rectangular (canonical df).
Proof.
  intros H. unfold canonical, rename_labels, clean_labels.
  apply rectangular_rename, rectangular_rename. exact H.
Qed.

Lemma rectangular_before_churn (df : DataFrame) :
  rectangular (canonical df) ->
  rectangular (before_churn parse_number float_str container_str df).
Proof.
  apply rectangular_map with
    (G := prepare parse_number float_str container_str (canonical df)).
  - apply before_churn_rows.
  - apply before_churn_names.
  - intros r Hr. unfold prepare.
    assert (E : dict_keys (cells (loop_row (strip_cell float_str container_str)
                                           (fun _ => true)
                                           (object_columns (canonical df)) r))
                = dict_keys (cells r)).
    { apply keys_loop_row. intros c Hc _. rewrite Hr.
      apply has_column_In.
      exact (proj1 (Forall_forall _ _) (object_columns_present (canonical df)) c Hc). }
    rewrite keys_loop_row; [exact E|].
    intros c _ Hc. rewrite E, Hr. apply has_column_In. exact Hc.
Qed.

Lemma rectangular_valid_outcome (df : DataFrame) :
  rectangular (before_churn parse_number float_str container_str df) ->
  rectangular (valid_outcome parse_number float_str container_str df).
Proof.
  intros H. unfold rectangular.
  rewrite valid_outcome_rows_eq, valid_outcome_names,
    <- (before_churn_names parse_number float_str container_str df).
  destruct (has_column "Churn" (canonical df)) eqn:Hc; [|exact H].
  apply Forall_forall. intros r Hr. apply filter_In in Hr. destruct Hr as [Hr _].
  apply in_map_iff in Hr. destruct Hr as [r0 [<- Hr0]].
  pose proof (proj1 (Forall_forall _ _) H r0 Hr0) as Hk. cbn beta in Hk.
  rewrite keys_update_row; [exact Hk|].
  rewrite Hk, before_churn_names. apply has_column_In. exact Hc.
Qed.

Lemma rectangular_before_dedup (df : DataFrame) :
  rectangular (valid_outcome parse_number float_str container_str df) ->
  rectangular (before_dedup parse_number float_str container_str df).
Proof.
  apply rectangular_map with
    (G := finish parse_number float_str container_str
            (valid_outcome parse_number float_str container_str df)).
  - apply before_dedup_rows.
  - rewrite before_dedup_names, valid_outcome_names. reflexivity.
  - intros r Hr. unfold finish. cbv zeta.
    assert (E : dict_keys
                  (cells (loop_row (replace placeholders)
                            (fun col => has_column col
                                          (valid_outcome parse_number float_str
                                                         container_str df))
                            service_columns r))
                = dict_keys (cells r)).
    { apply keys_loop_row. intros c _ Hc. rewrite Hr. apply has_column_In. exact Hc. }
    destruct (has_column "SeniorCitizen"
                (valid_outcome parse_number float_str container_str df)) eqn:Hs;
      [|exact E].
    rewrite keys_update_row; [exact E|].
    rewrite E, Hr. apply has_column_In. exact Hs.
Qed.

Lemma rectangular_standardize (df : DataFrame) :
  rectangular df ->
  rectangular (standardize_columns parse_number float_str container_str df).
Proof.
  intros H.
  apply rectangular_incl with (t := before_dedup parse_number float_str container_str df).
  - intros r. rewrite standardize_stages. apply dedup_rows_incl.
  - rewrite standardize_names, before_dedup_names. reflexivity.
  - apply rectangular_before_dedup, rectangular_valid_outcome,
      rectangular_before_churn, rectangular_canonical. exact H.
Qed.

End Rectangular.

(** X21. The pipeline keeps tables rectangular: when every row of the
    input holds exactly the input's columns, so does every row of the
    normalised table, and so does every row once the feature is added.
    (Column labels distinct once renamed.) *)
Theorem tables_stay_rectangular
        (parse_number : string -> option Q) (float_str : Q -> string)
        (container_str : json -> string) (df : DataFrame) :
  NoDup (names (canonical df)) ->
  rectangular df ->
  rectangular (standardize_columns parse_number float_str container_str df)
  /\ rectangular (create_features
                    (standardize_columns parse_number float_str container_str df)).
Proof.
  intros _ H.
  pose proof (rectangular_standardize parse_number float_str container_str df H) as Hs.
  split; [exact Hs | apply rectangular_create_features; exact Hs].
Qed.

Lemma tables_stay_rectangular_witness :
  rectangular (create_features
                 (standardize_columns Sample.parse_number Sample.float_str
                                      Sample.container_str
                                      (to_dataframe charges_as_text))).
Proof.
  apply (tables_stay_rectangular Sample.parse_number Sample.float_str
           Sample.container_str (to_dataframe charges_as_text)).
  - distinct_by_computation.
  - exact (proj1 (proj2 (loaded_table_shape charges_as_text))).
Defined.

(** ** Which rows stay *)

(** X22. Without a customerID column the normalised table has exactly the
    rows that pass the outcome filter, in input order: its row labels are
    those of the rows whose title-cased Churn entry is "Yes" or "No" (of
    all rows, when there is no Churn column either), and its length is
    their number.  (Column labels distinct once renamed.) *)
Theorem valid_rows_are_kept
        (parse_number : string -> option Q) (float_str : Q -> string)
        (container_str : json -> string) (df : DataFrame) :
  NoDup (names (canonical df)) ->
  has_column "customerID" (canonical df) = false ->
  map label (rows (standardize_columns parse_number float_str container_str df))
  = (if has_column "Churn" (canonical df)
     then map label
              (filter (fun r => isin ["Yes"; "No"]
                                     (title_cell float_str container_str
                                                 (row_get "Churn" r)))
                      (rows (before_churn parse_number float_str container_str df)))
     else map label (rows df))
  /\ len (standardize_columns parse_number float_str container_str df)
     = (if has_column "Churn" (canonical df)
        then length
               (filter (fun r => isin ["Yes"; "No"]
                                      (title_cell float_str container_str
                                                  (row_get "Churn" r)))
                       (rows (before_churn parse_number float_str container_str df)))
        else len df).
Proof.
  intros _ Hid.
  assert (E : map label (rows (standardize_columns parse_number float_str
                                                   container_str df))
              = if has_column "Churn" (canonical df)
                then map label
                       (filter (fun r => isin ["Yes"; "No"]
                                              (title_cell float_str container_str
                                                          (row_get "Churn" r)))
                               (rows (before_churn parse_number float_str
                                                   container_str df)))
                else map label (rows df)).
  { rewrite (standardize_rows_no_id parse_number float_str container_str df Hid).
    rewrite before_dedup_row_labels, valid_outcome_rows_eq.
    destruct (has_column "Churn" (canonical df)).
    - generalize (rows (before_churn parse_number float_str container_str df)).
      intros l. induction l as [|r l IH]; [reflexivity|].
      cbn [map filter]. unfold outcome_ok at 1. unfold update_row at 1.
      rewrite row_get_set, String.eqb_refl.
      destruct (isin ["Yes"; "No"] (title_cell float_str container_str
                                                (row_get "Churn" r)));
        cbn [map]; rewrite IH; reflexivity.
    - apply before_churn_labels. }
  split; [exact E|].
  unfold len. rewrite <- (length_map label), E.
  destruct (has_column "Churn" (canonical df)); apply length_map.
Qed.

Lemma valid_rows_are_kept_witness :
  map label (rows (standardize_columns Sample.parse_number Sample.float_str
                                       Sample.container_str (to_dataframe outcomes)))
  = [0; 1].
Proof.
  assert (Hn : NoDup (names (canonical (to_dataframe outcomes))))
    by distinct_by_computation.
  rewrite (proj1 (valid_rows_are_kept Sample.parse_number Sample.float_str
                    Sample.container_str (to_dataframe outcomes) Hn eq_refl)).
  vm_compute. reflexivity.
Defined.

(** X23. A row whose Churn entry is a JSON boolean is dropped: [true] and
    [false] become the texts "True" and "False", which the filter does not
    let through.  (Column labels distinct once renamed, row labels
    distinct.) *)
Theorem boolean_outcome_is_dropped
        (parse_number : string -> option Q) (float_str : Q -> string)
        (container_str : json -> string) (df : DataFrame) (r0 : Row) (b : bool) :
  NoDup (names (canonical df)) ->
  NoDup (map label (rows df)) ->
  has_column "Churn" (canonical df) = true ->
  In r0 (rows (canonical df)) ->
  row_get "Churn" r0 = Py (JBool b) ->
  ~ In (label r0)
       (map label (rows (standardize_columns parse_number float_str container_str df))).
Proof.
  intros Hcols Hlabels Hc Hin0 Hb.
  set (r1 := prepare parse_number float_str container_str (canonical df) r0).
  assert (Hin1 : In r1 (rows (before_churn parse_number float_str container_str df))).
  { rewrite before_churn_rows. apply in_map. exact Hin0. }
  assert (Hcell : row_get "Churn" r1
                  = (if mem "Churn" (object_columns (canonical df))
                     then strip_cell float_str container_str else fun y => y)
                      (Py (JBool b))).
  { unfold r1. rewrite row_get_prepare by exact Hcols. rewrite Hb. reflexivity. }
  replace (label r0) with (label r1) by apply label_prepare.
  apply invalid_outcome_dropped; try assumption.
  rewrite Hcell.
  destruct (mem "Churn" (object_columns (canonical df))), b;
    intros [H|H]; discriminate H.
Qed.

Lemma boolean_outcome_is_dropped_witness :
  ~ In 0 (map label (rows (standardize_columns Sample.parse_number Sample.float_str
                                               Sample.container_str
                                               (to_dataframe boolean_outcome)))).
Proof.
  assert (Hn : NoDup (names (canonical (to_dataframe boolean_outcome))))
    by distinct_by_computation.
  assert (Hl : NoDup (map label (rows (to_dataframe boolean_outcome))))
    by distinct_by_computation.
  assert (Hc : has_column "Churn" (canonical (to_dataframe boolean_outcome)) = true)
    by (vm_compute; reflexivity).
  assert (Hin : In (mkRow 0 [("Churn", Py (JBool true)); ("tenure", Py (JInt 1))])
                   (rows (canonical (to_dataframe boolean_outcome))))
    by (vm_compute; left; reflexivity).
  exact (boolean_outcome_is_dropped Sample.parse_number Sample.float_str
           Sample.container_str (to_dataframe boolean_outcome) _ true Hn Hl Hc Hin
           eq_refl).
Defined.
